(** * LS-SEG: the Cobb angle geometry of [lsseg/geometry.py]

    A shallow embedding of the class [CobbAngleCalculator] and of the
    numpy operations its methods call, followed by the properties of the
    pipeline  vertices -> tangent lines -> angle -> intersection.

    Numbers.  In the embedding of the class a numpy [float64] is
    idealised as a real number; rounding and overflow are outside it.
    The special values [inf] and [nan] are kept where numpy creates them
    from finite operands, that is at a division by zero, and are
    propagated by [clip], [arccos] and [degrees] the way numpy propagates
    them.  The range and the symmetry of the angle and the double flip of
    [flip_point] depend on the rounding itself: they are stated on a
    second embedding, on binary64 floats (module [Float64]).

    Effects.  Every method reads and assigns attributes of [self] and may
    raise; a method is a function from the object to an outcome and the
    object as the method left it. *)

From Stdlib Require Import Reals Lra List Arith Bool Lia ZArith.
From Stdlib Require String.
From Stdlib Require Floats.
Import ListNotations.

Set Implicit Arguments.

(** ** Exceptions and outcomes *)

(** [GeometryException] is the class the module declares; the others are
    the built-in exceptions that indexing, attribute access, unpacking and
    array arithmetic raise, and [RuntimeError] is what SimpleITK raises. *)
Inductive exn : Type :=
| GeometryException
| AttributeError
| TypeError
| IndexError
| ValueError
| RuntimeError.

Inductive result (A : Type) : Type :=
| Ok (a : A)
| Raise (e : exn).

Arguments Ok {A} a.
Arguments Raise {A} e.

Definition result_bind {A B : Type} (r : result A) (f : A -> result B) : result B :=
  match r with
  | Ok a => f a
  | Raise e => Raise e
  end.

(** ** numpy scalars *)

Inductive npfloat : Type :=
| Fin (r : R)
| PInf
| NInf
| NaN.

(** [a / b] on two finite float64 scalars: on a zero divisor numpy only
    warns, and yields [nan] for 0/0 and an infinity of the sign of the
    numerator otherwise (the divisors of this module are products of
    norms, so a zero divisor is [+0.0]). *)
Definition np_true_divide (a b : R) : npfloat :=
  if Req_dec_T b 0 then
    if Req_dec_T a 0 then NaN
    else if Rlt_dec 0 a then PInf else NInf
  else Fin (a / b)%R.

(** [np.clip(x, lo, hi)] is [minimum(maximum(x, lo), hi)]; [nan] passes
    through. *)
Definition np_clip (x : npfloat) (lo hi : R) : npfloat :=
  match x with
  | Fin r => Fin (Rmin (Rmax r lo) hi)
  | PInf => Fin hi
  | NInf => Fin lo
  | NaN => NaN
  end.

(** [np.arccos]: [nan] outside [-1, 1]. *)
Definition np_arccos (x : npfloat) : npfloat :=
  match x with
  | Fin r =>
      if Rle_dec (-1) r then
        if Rle_dec r 1 then Fin (acos r) else NaN
      else NaN
  | PInf | NInf | NaN => NaN
  end.

(** [np.degrees(x)] is [x * 180 / pi]. *)
Definition np_degrees (x : npfloat) : npfloat :=
  match x with
  | Fin r => Fin (r * (180 / PI))%R
  | PInf => PInf
  | NInf => NInf
  | NaN => NaN
  end.

(** A Python number held in an attribute: the constructor stores the
    [int] literal [0], the pipeline stores float64 scalars.  Python
    compares the two by numeric value ([0 == 0.0]). *)
Inductive pynum : Type :=
| PyInt (z : Z)
| PyFloat (f : npfloat).

Definition py_num_value (n : pynum) : npfloat :=
  match n with
  | PyInt z => Fin (IZR z)
  | PyFloat f => f
  end.

(** ** One-dimensional arrays: [np.array(v)] of a point attribute *)

(** [np.array(None)] is a 0-d object array; [np.array] of a list of
    floats is a vector. *)
Inductive nparray : Type :=
| ObjNone
| Vec (l : list R).

Definition np_array (v : option (list R)) : nparray :=
  match v with
  | None => ObjNone
  | Some l => Vec l
  end.

Fixpoint map2 (f : R -> R -> R) (a b : list R) : list R :=
  match a, b with
  | x :: a', y :: b' => f x y :: map2 f a' b'
  | _, _ => []
  end.

(** Elementwise binary operation with numpy's broadcasting of a
    one-element operand; other length mismatches do not broadcast. *)
Definition broadcast2 (f : R -> R -> R) (a b : list R) : result (list R) :=
  if length a =? length b then Ok (map2 f a b)
  else if length a =? 1 then Ok (map (f (hd 0%R a)) b)
  else if length b =? 1 then Ok (map (fun u => f u (hd 0%R b)) a)
  else Raise ValueError.

Definition np_binop (f : R -> R -> R) (a b : nparray) : result nparray :=
  match a, b with
  | Vec u, Vec v => result_bind (broadcast2 f u v) (fun w => Ok (Vec w))
  | _, _ => Raise TypeError
  end.

Definition np_sub : nparray -> nparray -> result nparray := np_binop Rminus.
Definition np_add : nparray -> nparray -> result nparray := np_binop Rplus.

(** [s * a] for a scalar [s]. *)
Definition np_scale (s : R) (a : nparray) : result nparray :=
  match a with
  | Vec u => Ok (Vec (map (Rmult s) u))
  | ObjNone => Raise TypeError
  end.

Fixpoint sum_prod (a b : list R) : R :=
  match a, b with
  | x :: a', y :: b' => (x * y + sum_prod a' b')%R
  | _, _ => 0%R
  end.

(** [np.dot] of two vectors: the lengths must agree. *)
Definition np_dot (a b : nparray) : result R :=
  match a, b with
  | Vec u, Vec v =>
      if length u =? length v then Ok (sum_prod u v) else Raise ValueError
  | _, _ => Raise TypeError
  end.

(** [np.linalg.norm] of a vector: [sqrt(dot(x, x))]. *)
Definition np_linalg_norm (a : nparray) : result R :=
  match a with
  | Vec u => Ok (sqrt (sum_prod u u))
  | ObjNone => Raise TypeError
  end.

(** [a[i]]: a 0-d array takes no index. *)
Definition np_getitem (a : nparray) (i : nat) : result R :=
  match a with
  | Vec u =>
      match nth_error u i with
      | Some r => Ok r
      | None => Raise IndexError
      end
  | ObjNone => Raise IndexError
  end.

(** [s, t = v]. *)
Definition unpack2 (v : list R) : result (R * R) :=
  match v with
  | [s; t] => Ok (s, t)
  | _ => Raise ValueError
  end.

(** ** Two-dimensional arrays: the reshaped vertex tables *)

Record ndarray : Type := mk_ndarray {
  nrows : nat;
  ncols : nat;
  flat : list R
}.

(** [np.array(vs).reshape(r, c)], row-major. *)
Definition reshape (r c : nat) (vs : list R) : result ndarray :=
  if length vs =? r * c then Ok (mk_ndarray r c vs) else Raise ValueError.

Definition size (a : ndarray) : nat := nrows a * ncols a.

(** [a[i, j]] for non-negative indices. *)
Definition item (a : ndarray) (i j : nat) : result R :=
  if (i <? nrows a) && (j <? ncols a) then
    match nth_error (flat a) (i * ncols a + j) with
    | Some r => Ok r
    | None => Raise IndexError
    end
  else Raise IndexError.

(** The attribute may still hold [None]: [None.size] is an
    [AttributeError], [None[i, j]] a [TypeError]. *)
Definition attr_size (o : option ndarray) : result nat :=
  match o with
  | Some a => Ok (size a)
  | None => Raise AttributeError
  end.

Definition attr_item (o : option ndarray) (i j : nat) : result R :=
  match o with
  | Some a => item a i j
  | None => Raise TypeError
  end.

(** Vertex [i] of a vertex table: its [i]-th row. *)
Definition vertex (a : ndarray) (i : nat) : list R :=
  firstn (ncols a) (skipn (i * ncols a) (flat a)).

Definition box3d (a : ndarray) : Prop :=
  nrows a = 8 /\ ncols a = 3 /\ length (flat a) = 24.

Definition box2d (a : ndarray) : Prop :=
  nrows a = 4 /\ ncols a = 2 /\ length (flat a) = 8.

(** ** The result of [scipy.optimize.least_squares] *)

Module OptimizeResult.

Record t : Type := mk {
  x : list R;
  cost : R;
  success : bool
}.

End OptimizeResult.

(** * [lsseg/segmentation.py] and [notebooks/utils_nb_03.py] *)

(** ** Exceptions with their message, and the console

    The handlers of [segmentation.py] print a line and re-raise the
    message of what they caught under a class of the module, so here an
    exception carries its message, and a method also yields the lines it
    printed. *)

Module Py.

Import String.

Inductive exception : Type :=
| Builtin (cls : exn) (msg : string)
| SubImageManager2DException (msg : string)
| SegmentationException (msg : string).

(** [str(exception)]. *)
Definition str (e : exception) : string :=
  match e with
  | Builtin _ msg => msg
  | SubImageManager2DException msg => msg
  | SegmentationException msg => msg
  end.

Inductive outcome (A : Type) : Type :=
| Returns (a : A)
| Raises (e : exception).

Arguments Returns {A} a.
Arguments Raises {A} e.

Definition outcome_bind {A B : Type} (o : outcome A) (f : A -> outcome B)
  : outcome B :=
  match o with
  | Returns a => f a
  | Raises e => Raises e
  end.

(** [for x in xs: s = body(x, s)], stopping at the first exception. *)
Fixpoint for_each {A S : Type} (xs : list A) (body : A -> S -> outcome S) (s : S)
  : outcome S :=
  match xs with
  | [] => Returns s
  | x :: xs' => outcome_bind (body x s) (for_each xs' body)
  end.

(** [range(lo, hi)]. *)
Definition range (lo hi : Z) : list Z :=
  map (fun k => (lo + Z.of_nat k)%Z) (seq 0 (Z.to_nat (hi - lo))).

(** [t[i]] on a tuple. *)
Definition tuple_getitem (t : list Z) (i : nat) : outcome Z :=
  match nth_error t i with
  | Some z => Returns z
  | None => Raises (Builtin IndexError "tuple index out of range"%string)
  end.

Section Methods.

Variable Self : Type.

(** A method: from the object to its outcome, the object as it left it
    and the lines it printed. *)
Definition M (A : Type) : Type := Self -> outcome A * Self * list string.

Definition ret {A : Type} (a : A) : M A := fun self => (Returns a, self, []).

Definition raise {A : Type} (e : exception) : M A :=
  fun self => (Raises e, self, []).

Definition print (line : string) : M unit :=
  fun self => (Returns tt, self, [line]).

Definition bind {A B : Type} (m : M A) (f : A -> M B) : M B :=
  fun self =>
    match m self with
    | (Returns a, self', out) =>
        let '(r, self'', out') := f a self' in (r, self'', (out ++ out')%list)
    | (Raises e, self', out) => (Raises e, self', out)
    end.

Definition eval {A : Type} (e : Self -> outcome A) : M A :=
  fun self => (e self, self, []).

Definition assign (f : Self -> Self) : M unit :=
  fun self => (Returns tt, f self, []).

(** [try: m  except Exception as exception: handler(exception)]. *)
Definition try_except {A : Type} (m : M A) (handler : exception -> M A) : M A :=
  fun self =>
    match m self with
    | (Returns a, self', out) => (Returns a, self', out)
    | (Raises e, self', out) =>
        let '(r, self'', out') := handler e self' in (r, self'', (out ++ out')%list)
    end.

End Methods.

End Py.

(** ** [SubImageManager2D] *)

Module SubImageManager2D.

Import String.
Import Py.

Section Class.

(** SimpleITK images and their pixel values are opaque; what the class
    calls on them is a parameter.  [NewImage size id] is
    [sitk.Image(size, id)]; the setters and [SetPixel] return the image
    they changed. *)
Context {Image Pixel : Type}.

Variable GetSize : Image -> list Z.
Variable GetPixelIDValue : Image -> Z.
Variable GetOrigin : Image -> list R.
Variable GetSpacing : Image -> list R.
Variable GetDirection : Image -> list R.
Variable NewImage : list Z -> Z -> Image.
Variable SetOrigin : Image -> list R -> outcome Image.
Variable SetSpacing : Image -> list R -> outcome Image.
Variable SetDirection : Image -> list R -> outcome Image.
Variable SetPixel : Image -> Z -> Z -> Pixel -> outcome Image.
Variable GetPixel : Image -> Z -> Z -> outcome Pixel.
Variable RegionOfInterest : Image -> list Z -> list Z -> outcome Image.
Variable Cast : Image -> Z -> outcome Image.
Variable sitkUInt8 : Z.

(** The object (the constant [description] string is left out). *)
Record t : Type := mk {
  image : Image;
  centre_col : Z;
  centre_row : Z;
  width : Z;
  height : Z;
  start_col : Z;
  start_row : Z;
  end_col : Z;
  end_row : Z
}.

Definition set_start_col (v : Z) (s : t) : t :=
  mk (image s) (centre_col s) (centre_row s) (width s) (height s)
     v (start_row s) (end_col s) (end_row s).

Definition set_start_row (v : Z) (s : t) : t :=
  mk (image s) (centre_col s) (centre_row s) (width s) (height s)
     (start_col s) v (end_col s) (end_row s).

Definition set_end_col (v : Z) (s : t) : t :=
  mk (image s) (centre_col s) (centre_row s) (width s) (height s)
     (start_col s) (start_row s) v (end_row s).

Definition set_end_row (v : Z) (s : t) : t :=
  mk (image s) (centre_col s) (centre_row s) (width s) (height s)
     (start_col s) (start_row s) (end_col s) v.

Notation "x <- m ;; k" := (bind m (fun x => k))
  (at level 61, m at next level, right associativity).
Notation "m ;;; k" := (bind m (fun _ => k))
  (at level 61, right associativity).

(** [calculate_indices]: on Python integers [int] is the identity and
    [//] rounds down. *)
Definition calculate_indices : M t unit :=
  assign (fun self => set_start_col (centre_col self - width self / 2)%Z self) ;;;
  assign (fun self => set_start_row (centre_row self - height self / 2)%Z self) ;;;
  image_size <- eval (fun self => Returns (GetSize (image self))) ;;
  image_width <- eval (fun _ => tuple_getitem image_size 0) ;;
  image_height <- eval (fun _ => tuple_getitem image_size 1) ;;
  assign (fun self =>
            set_start_col (Z.max 0 (Z.min (start_col self) (image_width - 1))) self) ;;;
  assign (fun self =>
            set_start_row (Z.max 0 (Z.min (start_row self) (image_height - 1))) self) ;;;
  assign (fun self =>
            set_end_col (Z.min (start_col self + width self) image_width) self) ;;;
  assign (fun self =>
            set_end_row (Z.min (start_row self + height self) image_height) self).

(** [__init__]: the value is the constructed object. *)
Definition __init__ (image : Image) (centre_col centre_row width height : Z)
  : outcome t * list string :=
  match calculate_indices (mk image centre_col centre_row width height 0 0 0 0) with
  | (Returns _, self, out) => (Returns self, out)
  | (Raises e, _, out) => (Raises e, out)
  end.

Definition extract_roi : M t Image :=
  try_except
    (eval (fun self =>
             let roi_size := [end_col self - start_col self;
                              end_row self - start_row self]%Z in
             let roi_start_index := [start_col self; start_row self] in
             RegionOfInterest (image self) roi_size roi_start_index))
    (fun exception =>
       print (append "[SubImageManager2D::Execution Exception] " (str exception)) ;;;
       raise (SubImageManager2DException (str exception))).

(** The two nested loops of [get_empty_image_with]. *)
Definition paste_roi (roi : Image) (self : t) (output_image : Image)
  : outcome Image :=
  for_each (range (start_row self) (end_row self))
    (fun row out =>
       for_each (range (start_col self) (end_col self))
         (fun col out' =>
            outcome_bind
              (GetPixel roi (col - start_col self) (row - start_row self))
              (fun value => SetPixel out' col row value))
         out)
    output_image.

(** The new image with the geometry of [self.image]. *)
Definition blank_like (img : Image) : outcome Image :=
  let output_image := NewImage (GetSize img) (GetPixelIDValue img) in
  outcome_bind (SetOrigin output_image (GetOrigin img)) (fun o1 =>
  outcome_bind (SetSpacing o1 (GetSpacing img)) (fun o2 =>
  SetDirection o2 (GetDirection img))).

Definition get_empty_image_with (roi : Image) : M t Image :=
  eval (fun self =>
          outcome_bind (blank_like (image self)) (fun output_image =>
          outcome_bind (paste_roi roi self output_image) (fun output_image =>
          Cast output_image sitkUInt8))).

End Class.

(** *** A sample image type

    An image as a size and a pixel function, with array semantics for
    [GetPixel] and [SetPixel]; it serves to instantiate the parameters
    above. *)

Record grid : Type := mk_grid {
  grid_size : list Z;
  grid_pixel : Z -> Z -> Z
}.

Definition inside (g : grid) (c r : Z) : bool :=
  match grid_size g with
  | [w; h] => ((0 <=? c) && (c <? w) && (0 <=? r) && (r <? h))%Z
  | _ => false
  end.

Definition grid_new (size : list Z) (_ : Z) : grid := mk_grid size (fun _ _ => 0%Z).

Definition grid_keep (g : grid) (_ : list R) : outcome grid := Returns g.

Definition grid_no_metadata (_ : grid) : list R := [].

Definition grid_get (g : grid) (c r : Z) : outcome Z :=
  if inside g c r then Returns (grid_pixel g c r)
  else Raises (Builtin RuntimeError "index out of bounds").

Definition grid_set (g : grid) (c r v : Z) : outcome grid :=
  if inside g c r then
    Returns (mk_grid (grid_size g)
               (fun c' r' => if ((c' =? c) && (r' =? r))%Z then v else grid_pixel g c' r'))
  else Raises (Builtin RuntimeError "index out of bounds").

Definition grid_roi (g : grid) (size index : list Z) : outcome grid :=
  match size, index with
  | [w; h], [c; r] =>
      if inside g c r && inside g (c + w - 1) (r + h - 1) then
        Returns (mk_grid size (fun c' r' => grid_pixel g (c + c') (r + r')))
      else Raises (Builtin RuntimeError "requested region is outside the image")
  | _, _ => Raises (Builtin RuntimeError "dimension mismatch")
  end.

Definition grid_cast (g : grid) (_ : Z) : outcome grid := Returns g.

(** A 5 x 4 image whose pixel at column [c], row [r] is [10 r + c]. *)
Definition ramp : grid := mk_grid [5; 4]%Z (fun c r => (10 * r + c)%Z).

(** A 3 x 2 region of interest. *)
Definition patch : grid := mk_grid [3; 2]%Z (fun c r => (100 + 10 * r + c)%Z).

(** Managers on [ramp] as the constructor first fills them in: one
    around (2, 2) of width 3 and height 2, one whose centre is far
    outside the image, and one of width 0. *)
Definition manager_before : @t grid := mk ramp 2 2 3 2 0 0 0 0.

Definition manager_far_before : @t grid := mk ramp 100 (-7) 3 2 0 0 0 0.

(** The first and the third after [calculate_indices]. *)
Definition manager : @t grid := mk ramp 2 2 3 2 1 1 4 3.

Definition manager_empty : @t grid := mk ramp 2 2 0 2 2 1 2 3.

(** The region of [ramp] under the window of [manager]. *)
Definition ramp_roi : grid :=
  mk_grid [3; 2]%Z (fun c r => grid_pixel ramp (1 + c) (1 + r)).

(** The window of a manager: a column and a row inside it. *)
Definition in_window {Image : Type} (self : @t Image) (c r : Z) : Prop :=
  (start_col self <= c < end_col self /\ start_row self <= r < end_row self)%Z.

End SubImageManager2D.

(** ** [ThresholdSegmentation] *)

Module ThresholdSegmentation.

Import String.
Import Py.

Section Class.

(** Images and the two statistics filters are opaque; each SimpleITK
    filter is a parameter with the settings the method gives it.
    [BinaryThreshold img lower upper inside outside],
    [ConnectedComponent img fully_connected] and
    [HuangThreshold img bins inside outside] are the filters executed
    on [img]. *)
Context {Image LabelStatistics LabelShapeStatistics : Type}.

Variable HuangThreshold : Image -> Z -> Z -> Z -> outcome Image.
Variable LabelStatisticsExecute : Image -> Image -> outcome LabelStatistics.
Variable GetMean : LabelStatistics -> Z -> outcome R.
Variable GetSigma : LabelStatistics -> Z -> outcome R.
Variable BinaryThreshold : Image -> R -> R -> Z -> Z -> outcome Image.
Variable ConnectedComponent : Image -> bool -> outcome Image.
Variable LabelShapeStatisticsExecute : Image -> outcome LabelShapeStatistics.
Variable GetLabels : LabelShapeStatistics -> list Z.
Variable GetNumberOfPixels : LabelShapeStatistics -> Z -> outcome Z.
Variable BinaryFillhole : Image -> outcome Image.

(** The object (the constant [description] string is left out); the
    thresholds are numbers, the [int] 0 of the defaults included. *)
Record t : Type := mk {
  image : Image;
  lower_threshold : R;
  upper_threshold : R;
  automatic_thresholds : bool;
  bins : Z;
  lbp : R;
  ubp : R
}.

Definition __init__ (image : Image) (lb ub : R) : t :=
  mk image lb ub false 27 (46 / 100) (81 / 100).

Definition set_lower_threshold (v : R) (s : t) : t :=
  mk (image s) v (upper_threshold s) (automatic_thresholds s) (bins s) (lbp s) (ubp s).

Definition set_upper_threshold (v : R) (s : t) : t :=
  mk (image s) (lower_threshold s) v (automatic_thresholds s) (bins s) (lbp s) (ubp s).

(** The property setters [hist_bins], [sigma_lbp], [sigma_ubp]. *)
Definition set_hist_bins (v : Z) (s : t) : t :=
  mk (image s) (lower_threshold s) (upper_threshold s) (automatic_thresholds s)
     v (lbp s) (ubp s).

Definition set_sigma_lbp (v : R) (s : t) : t :=
  mk (image s) (lower_threshold s) (upper_threshold s) (automatic_thresholds s)
     (bins s) v (ubp s).

Definition set_sigma_ubp (v : R) (s : t) : t :=
  mk (image s) (lower_threshold s) (upper_threshold s) (automatic_thresholds s)
     (bins s) (lbp s) v.

Definition set_automatic_thresholds_ON (s : t) : t :=
  mk (image s) (lower_threshold s) (upper_threshold s) true (bins s) (lbp s) (ubp s).

Notation "x <- m ;; k" := (bind m (fun x => k))
  (at level 61, m at next level, right associativity).
Notation "m ;;; k" := (bind m (fun _ => k))
  (at level 61, right associativity).

(** [np.floor] and [np.ceil] of a finite number. *)
Definition np_floor (x : R) : R := IZR (Zfloor x).
Definition np_ceil (x : R) : R := IZR (Zceil x).

Definition calculate_thresholds : M t unit :=
  hthreshold_output <-
    eval (fun self => HuangThreshold (image self) (bins self) 0 1) ;;
  stats_filter <-
    eval (fun self => LabelStatisticsExecute (image self) hthreshold_output) ;;
  mean <- eval (fun _ => GetMean stats_filter 1) ;;
  sigma <- eval (fun _ => GetSigma stats_filter 1) ;;
  assign (fun self =>
            set_lower_threshold (np_floor (mean - sigma * lbp self)) self) ;;;
  assign (fun self =>
            set_upper_threshold (np_ceil (mean + sigma * ubp self)) self).

(** The loop over the components: the running [(max_size,
    max_label_index)] after the labels of [components]. *)
Fixpoint largest_component (stats : LabelShapeStatistics) (components : list Z)
    (max_size max_label_index : Z) : outcome (Z * Z) :=
  match components with
  | [] => Returns (max_size, max_label_index)
  | label_index :: rest =>
      outcome_bind (GetNumberOfPixels stats label_index) (fun current_size =>
        if (current_size >? max_size)%Z
        then largest_component stats rest current_size label_index
        else largest_component stats rest max_size max_label_index)
  end.

(** The body of the [try] of [execute]. *)
Definition execute_body : M t Image :=
  automatic <- eval (fun self => Returns (automatic_thresholds self)) ;;
  (if automatic then calculate_thresholds else ret tt) ;;;
  threshold_output <-
    eval (fun self =>
            BinaryThreshold (image self) (lower_threshold self) (upper_threshold self)
                            1 0) ;;
  connected_components <-
    eval (fun _ => ConnectedComponent threshold_output false) ;;
  labels_stats_filters <-
    eval (fun _ => LabelShapeStatisticsExecute connected_components) ;;
  let components := GetLabels labels_stats_filters in
  largest <-
    eval (fun _ => largest_component labels_stats_filters components 0 1) ;;
  let max_label_index := snd largest in
  max_connected_component <-
    eval (fun _ =>
            BinaryThreshold connected_components
                            (IZR max_label_index) (IZR max_label_index) 1 0) ;;
  output_segmentation <- eval (fun _ => BinaryFillhole max_connected_component) ;;
  ret output_segmentation.

Definition execute : M t Image :=
  try_except execute_body
    (fun exception =>
       print (append "[ThresholdSegmentation::Execution Exception] " (str exception)) ;;;
       raise (SegmentationException (str exception))).

End Class.

(** *** Vocabulary of the statements *)

(** [l] is the first label of [components] whose pixel count [n l] is
    [m], and every label before it has a smaller count. *)
Definition first_with_count (n : Z -> Z) (components : list Z) (l m : Z) : Prop :=
  exists before after,
    components = (before ++ l :: after)%list
    /\ n l = m
    /\ forall x, In x before -> (n x < m)%Z.

(** A method that prints nothing; a method that leaves the object as it
    found it, at every object and at one. *)
Definition silent {Image A : Type} (m : M (@t Image) A) : Prop :=
  forall self, snd (m self) = [].

Definition keeps {Image A : Type} (m : M (@t Image) A) : Prop :=
  forall self, snd (fst (m self)) = self.

Definition keeps_at {Image A : Type} (m : M (@t Image) A) (self : @t Image) : Prop :=
  snd (fst (m self)) = self.

(** *** Sample filters

    Images are plain numbers; the label statistics are a mean and a
    sigma, the shape statistics a list of labels with their pixel
    counts. *)

Definition sample_huang (img : Z) (_ _ _ : Z) : outcome Z := Returns img.

Definition sample_label_statistics (_ _ : Z) : outcome (R * R) :=
  Returns (100, 10)%R.

Definition sample_mean (st : R * R) (_ : Z) : outcome R := Returns (fst st).

Definition sample_sigma (st : R * R) (_ : Z) : outcome R := Returns (snd st).

Definition sample_threshold (img : Z) (_ _ : R) (_ _ : Z) : outcome Z :=
  Returns img.

Definition sample_failing_threshold (_ : Z) (_ _ : R) (_ _ : Z) : outcome Z :=
  Raises (Builtin RuntimeError "lower threshold above upper threshold").

Definition sample_components (img : Z) (_ : bool) : outcome Z := Returns img.

Definition sample_shape_statistics (_ : Z) : outcome (list (Z * Z)) :=
  Returns [(1, 40); (2, 75); (3, 75); (4, 10)]%Z.

Definition sample_labels (st : list (Z * Z)) : list Z := map fst st.

Fixpoint sample_count (st : list (Z * Z)) (l : Z) : Z :=
  match st with
  | [] => 0
  | (l', n) :: st' => if (l' =? l)%Z then n else sample_count st' l
  end.

Definition sample_number_of_pixels (st : list (Z * Z)) (l : Z) : outcome Z :=
  Returns (sample_count st l).

Definition sample_fillhole (img : Z) : outcome Z := Returns img.

(** A segmentation of image 7 with the thresholds 20 and 90. *)
Definition sample_segmentation : @t Z := __init__ 7%Z 20 90.

End ThresholdSegmentation.

(** ** [flip_point] of the notebook utilities *)

Module UtilsNb03.

Import String.

(** The value is the returned list, or [None] after the message for an
    axis that is none of 1, 2, 3; beside it, the lines printed.  The
    unpacking [x, y, z = point] comes first. *)
Definition flip_point (point : list R) (axis : Z) (reference : R)
  : result (option (list R)) * list string :=
  match point with
  | [x; y; z] =>
      if (axis =? 1)%Z then
        let flipped_x := (2 * reference - x)%R in
        (Ok (Some [flipped_x; y; z]), [])
      else if (axis =? 2)%Z then
        let flipped_y := (2 * reference - y)%R in
        (Ok (Some [x; flipped_y; z]), [])
      else if (axis =? 3)%Z then
        let flipped_z := (2 * reference - z)%R in
        (Ok (Some [x; y; flipped_z]), [])
      else
        (Ok None,
         ["[LS-Seg Notebooks::flip_point] Invalid axis! Choose '1=X', '2=Y', or '3=Z'."%string])
  | _ => (Raise ValueError, [])
  end.

End UtilsNb03.

(** * The float64 arithmetic of the angle and of [flip_point]

    The embedding of [CobbAngleCalculator] below takes numbers as reals.
    What the code computes on them is binary64 arithmetic, and three
    properties depend on its rounding, underflow and [nan]: the range of
    the angle, its symmetry, and a double flip.  For these the angle
    method and [flip_point] are embedded a second time, on the primitive
    binary64 floats, whose [+], [-], [*], [/] and [sqrt] are the IEEE 754
    operations that numpy and Python perform. *)

Module Float64.

Import PrimFloat.
Local Open Scope float_scope.

(** [np.array(None)] is a 0-d object array; [np.array] of a list of
    floats is a vector. *)
Inductive nparray : Type :=
| ObjNone
| Vec (l : list float).

Definition np_array (v : option (list float)) : nparray :=
  match v with
  | None => ObjNone
  | Some l => Vec l
  end.

Fixpoint map2 (f : float -> float -> float) (a b : list float) : list float :=
  match a, b with
  | x :: a', y :: b' => f x y :: map2 f a' b'
  | _, _ => []
  end.

Definition broadcast2 (f : float -> float -> float) (a b : list float)
  : result (list float) :=
  if (length a =? length b)%nat then Ok (map2 f a b)
  else if (length a =? 1)%nat then Ok (map (f (hd 0 a)) b)
  else if (length b =? 1)%nat then Ok (map (fun u => f u (hd 0 b)) a)
  else Raise ValueError.

Definition np_sub (a b : nparray) : result nparray :=
  match a, b with
  | Vec u, Vec v => result_bind (broadcast2 sub u v) (fun w => Ok (Vec w))
  | _, _ => Raise TypeError
  end.

(** The accumulation of [np.dot] on two vectors, in index order. *)
Fixpoint sum_prod (acc : float) (a b : list float) : float :=
  match a, b with
  | x :: a', y :: b' => sum_prod (acc + x * y) a' b'
  | _, _ => acc
  end.

Definition np_dot (a b : nparray) : result float :=
  match a, b with
  | Vec u, Vec v =>
      if (length u =? length v)%nat then Ok (sum_prod 0 u v) else Raise ValueError
  | _, _ => Raise TypeError
  end.

(** [np.linalg.norm] of a vector: [sqrt(dot(x, x))]. *)
Definition np_linalg_norm (a : nparray) : result float :=
  match a with
  | Vec u => Ok (sqrt (sum_prod 0 u u))
  | ObjNone => Raise TypeError
  end.

(** [np.clip(x, lo, hi)] on a scalar: the larger of [x] and [lo], then
    the smaller of that and [hi]; a [nan] operand comes out as it is. *)
Definition np_clip (x lo hi : float) : float :=
  let t := if is_nan x then x else if lo <? x then x else lo in
  if is_nan t then t else if t <? hi then t else hi.

Section Class.

(** [np.arccos] and [np.degrees] are the library's; the division is the
    IEEE one, which numpy lets through with a warning when the divisor is
    zero. *)
Variable np_arccos np_degrees : float -> float.

(** The four attributes the angle method reads. *)
Record t : Type := mk {
  uv_p1 : option (list float);
  uv_p2 : option (list float);
  lv_p1 : option (list float);
  lv_p2 : option (list float)
}.

Definition __calc_angle_between_lines (self : t) : result float :=
  let p1 := np_array (uv_p1 self) in
  let p2 := np_array (uv_p2 self) in
  let q1 := np_array (lv_p1 self) in
  let q2 := np_array (lv_p2 self) in
  result_bind (np_sub p2 p1) (fun line1 =>
  result_bind (np_sub q2 q1) (fun line2 =>
  result_bind (np_dot line1 line2) (fun dot_product =>
  result_bind (np_linalg_norm line1) (fun norm_line1 =>
  result_bind (np_linalg_norm line2) (fun norm_line2 =>
  let cos_theta := dot_product / (norm_line1 * norm_line2) in
  let cos_theta := np_clip cos_theta (-1) 1 in
  let theta_rad := np_arccos cos_theta in
  let theta_deg := np_degrees theta_rad in
  Ok theta_deg))))).

End Class.

(** *** Vocabulary of the statements *)

(** The order of float64 as a proposition: it fails when an operand is
    [nan]. *)
Definition le (x y : float) : Prop := (x <=? y) = true.

Definition lines (p1 p2 q1 q2 : list float) : t :=
  mk (Some p1) (Some p2) (Some q1) (Some q2).

(** The object with the two tangent lines exchanged. *)
Definition swap_lines (self : t) : t :=
  mk (lv_p1 self) (lv_p2 self) (uv_p1 self) (uv_p2 self).

(** The direction [p2 - p1], the norm and the cosine as the method
    computes them, rounding included. *)
Definition direction (p1 p2 : list float) : list float := map2 sub p2 p1.

Definition norm (v : list float) : float := sqrt (sum_prod 0 v v).

Definition cosine (d1 d2 : list float) : float :=
  sum_prod 0 d1 d2 / (norm d1 * norm d2).

(** A vector with a coordinate that is not zero. *)
Definition nonzero (v : list float) : Prop :=
  Exists (fun c => is_zero c = false) v.

Definition same_dim (p1 p2 q1 q2 : list float) : Prop :=
  length p2 = length p1 /\ length q1 = length p1 /\ length q2 = length p1.

(** The float64 nearest to pi, which is [np.arccos(-1.0)]. *)
Definition pi : float := 0x1.921fb54442d18p+1.

(** *** Samples *)

(** Coarse stand-ins for [np.arccos] and [np.degrees], exact at the
    cosines -1, 0, 1 and at the angles 0, pi/2, pi, and inside the range
    of the library everywhere else. *)
Definition coarse_arccos (x : float) : float :=
  if (-1 <=? x) && (x <=? 1) then
    if x =? 1 then 0 else if x =? -1 then pi else pi / 2
  else nan.

Definition coarse_degrees (y : float) : float :=
  if (0 <=? y) && (y <=? pi) then
    if y =? 0 then 0 else if y =? pi then 180 else 90
  else y * (180 / pi).

(** Two perpendicular tangents of length 2^-600: the square of the
    length is below the smallest float64. *)
Definition underflow_lines : t :=
  lines [0; 0; 0] [0x1p-600; 0; 0] [0; 0; 0] [0; 0x1p-600; 0].

(** Two parallel tangents of direction (1, 5, 0). *)
Definition steep_lines : t :=
  lines [0; 0; 0] [1; 5; 0] [0; 0; 2] [1; 5; 2].

(** *** [flip_point] on float64 coordinates *)

Import String.

Definition flip_point (point : list float) (axis : Z) (reference : float)
  : result (option (list float)) * list string :=
  match point with
  | [x; y; z] =>
      if (axis =? 1)%Z then
        let flipped_x := 2 * reference - x in
        (Ok (Some [flipped_x; y; z]), [])
      else if (axis =? 2)%Z then
        let flipped_y := 2 * reference - y in
        (Ok (Some [x; flipped_y; z]), [])
      else if (axis =? 3)%Z then
        let flipped_z := 2 * reference - z in
        (Ok (Some [x; y; flipped_z]), [])
      else
        (Ok None,
         ["[LS-Seg Notebooks::flip_point] Invalid axis! Choose '1=X', '2=Y', or '3=Z'."%string])
  | _ => (Raise ValueError, [])
  end.

End Float64.

(** * [lsseg/geometry.py] *)

(** ** The class *)

Module CobbAngleCalculator.

Section Class.

(** SimpleITK images are opaque: the class only hands them to SimpleITK. *)
Context {Image LabelMap : Type}.

(** The collaborators.  [GetDimension] is [image.GetDimension()].
    [GetOrientedBoundingBoxVertices lm i] stands for running a
    [LabelShapeStatisticsImageFilter] (background 0, oriented boxes on) on
    [lm] and asking it for the flat vertex tuple of label [i].
    [least_squares f x0] is [scipy.optimize.least_squares(f, x0)]. *)
Variable GetDimension : Image -> Z.
Variable GetOrientedBoundingBoxVertices : LabelMap -> Z -> result (list R).
Variable least_squares :
  (list R -> result nparray) -> list R -> result OptimizeResult.t.

(** [TransformPhysicalPointToIndex] of the image and of the label map:
    from a physical point to the integer index of its voxel. *)
Variable TransformPhysicalPointToIndex : Image -> list R -> result (list Z).
Variable LabelMapTransformPhysicalPointToIndex :
  LabelMap -> list R -> result (list Z).

(** The object: the attributes [__init__] creates (the constant
    [description] string is left out). *)
Record t : Type := mk {
  image : Image;
  label_map : LabelMap;
  lv_label_index : Z;
  uv_label_index : Z;
  dimension : Z;
  uv_oriented_bbox_vertices : option ndarray;
  lv_oriented_bbox_vertices : option ndarray;
  uv_p1 : option (list R);
  uv_p2 : option (list R);
  lv_p1 : option (list R);
  lv_p2 : option (list R);
  intersection_point : option (list R);
  cobb_angle : pynum
}.

(** Attribute assignment. *)
Definition set_uv_oriented_bbox_vertices (v : option ndarray) (s : t) : t :=
  mk (image s) (label_map s) (lv_label_index s) (uv_label_index s) (dimension s)
     v (lv_oriented_bbox_vertices s)
     (uv_p1 s) (uv_p2 s) (lv_p1 s) (lv_p2 s) (intersection_point s) (cobb_angle s).

Definition set_lv_oriented_bbox_vertices (v : option ndarray) (s : t) : t :=
  mk (image s) (label_map s) (lv_label_index s) (uv_label_index s) (dimension s)
     (uv_oriented_bbox_vertices s) v
     (uv_p1 s) (uv_p2 s) (lv_p1 s) (lv_p2 s) (intersection_point s) (cobb_angle s).

Definition set_uv_p1 (v : option (list R)) (s : t) : t :=
  mk (image s) (label_map s) (lv_label_index s) (uv_label_index s) (dimension s)
     (uv_oriented_bbox_vertices s) (lv_oriented_bbox_vertices s)
     v (uv_p2 s) (lv_p1 s) (lv_p2 s) (intersection_point s) (cobb_angle s).

Definition set_uv_p2 (v : option (list R)) (s : t) : t :=
  mk (image s) (label_map s) (lv_label_index s) (uv_label_index s) (dimension s)
     (uv_oriented_bbox_vertices s) (lv_oriented_bbox_vertices s)
     (uv_p1 s) v (lv_p1 s) (lv_p2 s) (intersection_point s) (cobb_angle s).

Definition set_lv_p1 (v : option (list R)) (s : t) : t :=
  mk (image s) (label_map s) (lv_label_index s) (uv_label_index s) (dimension s)
     (uv_oriented_bbox_vertices s) (lv_oriented_bbox_vertices s)
     (uv_p1 s) (uv_p2 s) v (lv_p2 s) (intersection_point s) (cobb_angle s).

Definition set_lv_p2 (v : option (list R)) (s : t) : t :=
  mk (image s) (label_map s) (lv_label_index s) (uv_label_index s) (dimension s)
     (uv_oriented_bbox_vertices s) (lv_oriented_bbox_vertices s)
     (uv_p1 s) (uv_p2 s) (lv_p1 s) v (intersection_point s) (cobb_angle s).

Definition set_intersection_point (v : option (list R)) (s : t) : t :=
  mk (image s) (label_map s) (lv_label_index s) (uv_label_index s) (dimension s)
     (uv_oriented_bbox_vertices s) (lv_oriented_bbox_vertices s)
     (uv_p1 s) (uv_p2 s) (lv_p1 s) (lv_p2 s) v (cobb_angle s).

Definition set_cobb_angle (v : pynum) (s : t) : t :=
  mk (image s) (label_map s) (lv_label_index s) (uv_label_index s) (dimension s)
     (uv_oriented_bbox_vertices s) (lv_oriented_bbox_vertices s)
     (uv_p1 s) (uv_p2 s) (lv_p1 s) (lv_p2 s) (intersection_point s) v.

(** *** Methods as computations on [self] *)

Definition M (A : Type) : Type := t -> result A * t.

Definition ret {A : Type} (a : A) : M A := fun self => (Ok a, self).

Definition bind {A B : Type} (m : M A) (f : A -> M B) : M B :=
  fun self =>
    match m self with
    | (Ok a, self') => f a self'
    | (Raise e, self') => (Raise e, self')
    end.

(** Evaluate an expression over the attributes of [self]. *)
Definition eval {A : Type} (e : t -> result A) : M A :=
  fun self => (e self, self).

Definition lift {A : Type} (r : result A) : M A := fun self => (r, self).

Definition assign (f : t -> t) : M unit := fun self => (Ok tt, f self).

Definition when (b : bool) (m : M unit) : M unit :=
  if b then m else ret tt.

Notation "x <- m ;; k" := (bind m (fun x => k))
  (at level 61, m at next level, right associativity).
Notation "m ;;; k" := (bind m (fun _ => k))
  (at level 61, right associativity).

(** *** [__init__] *)

Definition __init__ (image : Image) (label_map : LabelMap)
    (uv_label_index lv_label_index : Z) : t :=
  mk image label_map lv_label_index uv_label_index (GetDimension image)
     None None None None None None None (PyInt 0).

(** *** [__calc_uv_bbox_vertices] and [__calc_lv_bbox_vertices] *)

Definition __calc_uv_bbox_vertices : M unit :=
  bounding_box_vertices <-
    eval (fun self =>
            GetOrientedBoundingBoxVertices (label_map self) (uv_label_index self)) ;;
  when (length bounding_box_vertices =? 24)
    (a <- lift (reshape 8 3 bounding_box_vertices) ;;
     assign (set_uv_oriented_bbox_vertices (Some a))) ;;;
  when (length bounding_box_vertices =? 8)
    (a <- lift (reshape 4 2 bounding_box_vertices) ;;
     assign (set_uv_oriented_bbox_vertices (Some a))).

Definition __calc_lv_bbox_vertices : M unit :=
  bounding_box_vertices <-
    eval (fun self =>
            GetOrientedBoundingBoxVertices (label_map self) (lv_label_index self)) ;;
  when (length bounding_box_vertices =? 24)
    (a <- lift (reshape 8 3 bounding_box_vertices) ;;
     assign (set_lv_oriented_bbox_vertices (Some a))) ;;;
  when (length bounding_box_vertices =? 8)
    (a <- lift (reshape 4 2 bounding_box_vertices) ;;
     assign (set_lv_oriented_bbox_vertices (Some a))).

(** *** [__set_bbox_tan_line_points] *)

Definition uv_item (i j : nat) : M R :=
  eval (fun self => attr_item (uv_oriented_bbox_vertices self) i j).

Definition lv_item (i j : nat) : M R :=
  eval (fun self => attr_item (lv_oriented_bbox_vertices self) i j).

(** The value is the returned 4-tuple, or [None] when neither [if] is
    taken and the body falls through. *)
Definition __set_bbox_tan_line_points
  : M (option (list R * list R * list R * list R)) :=
  uv_size <- eval (fun self => attr_size (uv_oriented_bbox_vertices self)) ;;
  if uv_size =? 24 then
    a0 <- uv_item 0 0 ;; a1 <- uv_item 0 1 ;; a2 <- uv_item 0 2 ;;
    assign (set_uv_p1 (Some [a0; a1; a2])) ;;;
    b0 <- uv_item 1 0 ;; b1 <- uv_item 1 1 ;; b2 <- uv_item 1 2 ;;
    assign (set_uv_p2 (Some [b0; b1; b2])) ;;;
    c0 <- lv_item 6 0 ;; c1 <- lv_item 6 1 ;; c2 <- lv_item 6 2 ;;
    assign (set_lv_p1 (Some [c0; c1; c2])) ;;;
    d0 <- lv_item 7 0 ;; d1 <- lv_item 7 1 ;; d2 <- lv_item 7 2 ;;
    assign (set_lv_p2 (Some [d0; d1; d2])) ;;;
    ret (Some ([a0; a1; a2], [b0; b1; b2], [c0; c1; c2], [d0; d1; d2]))
  else if uv_size =? 8 then
    a0 <- uv_item 0 0 ;; a1 <- uv_item 0 1 ;;
    assign (set_uv_p1 (Some [a0; a1])) ;;;
    b0 <- uv_item 1 0 ;; b1 <- uv_item 1 1 ;;
    assign (set_uv_p2 (Some [b0; b1])) ;;;
    c0 <- lv_item 2 0 ;; c1 <- lv_item 2 1 ;;
    assign (set_lv_p1 (Some [c0; c1])) ;;;
    d0 <- lv_item 3 0 ;; d1 <- lv_item 3 1 ;;
    assign (set_lv_p2 (Some [d0; d1])) ;;;
    ret (Some ([a0; a1], [b0; b1], [c0; c1], [d0; d1]))
  else ret None.

(** *** [__calc_angle_between_lines] *)

Definition __calc_angle_between_lines : M npfloat :=
  p1 <- eval (fun self => Ok (np_array (uv_p1 self))) ;;
  p2 <- eval (fun self => Ok (np_array (uv_p2 self))) ;;
  q1 <- eval (fun self => Ok (np_array (lv_p1 self))) ;;
  q2 <- eval (fun self => Ok (np_array (lv_p2 self))) ;;
  line1 <- lift (np_sub p2 p1) ;;
  line2 <- lift (np_sub q2 q1) ;;
  dot_product <- lift (np_dot line1 line2) ;;
  norm_line1 <- lift (np_linalg_norm line1) ;;
  norm_line2 <- lift (np_linalg_norm line2) ;;
  let cos_theta := np_true_divide dot_product (norm_line1 * norm_line2) in
  let cos_theta := np_clip cos_theta (-1) 1 in
  let theta_rad := np_arccos cos_theta in
  let theta_deg := np_degrees theta_rad in
  ret theta_deg.

(** *** [__calc_intersection] *)

(** The closure [errFunc], with the arrays it captures. *)
Definition errFunc (p1 p2 q1 q2 : nparray) (estimates : list R) : result nparray :=
  result_bind (unpack2 estimates) (fun st =>
  let '(s, t) := st in
  result_bind (np_sub p2 p1) (fun d1 =>
  result_bind (np_scale s d1) (fun sd1 =>
  result_bind (np_add p1 sd1) (fun a =>
  result_bind (np_sub q2 q1) (fun d2 =>
  result_bind (np_scale t d2) (fun td2 =>
  result_bind (np_add q1 td2) (fun b =>
  np_sub a b))))))).

(** [a[k] + u * (b[k] - a[k])]. *)
Definition param_coord (a b : nparray) (u : R) (k : nat) : result R :=
  result_bind (np_getitem a k) (fun a_k =>
  result_bind (np_getitem b k) (fun b_k =>
  result_bind (np_getitem a k) (fun a_k' =>
  Ok (a_k + u * (b_k - a_k'))%R))).

Definition __calc_intersection : M unit :=
  p1 <- eval (fun self => Ok (np_array (uv_p1 self))) ;;
  p2 <- eval (fun self => Ok (np_array (uv_p2 self))) ;;
  q1 <- eval (fun self => Ok (np_array (lv_p1 self))) ;;
  q2 <- eval (fun self => Ok (np_array (lv_p2 self))) ;;
  let estimates := [1; 1]%R in
  sols <- lift (least_squares (errFunc p1 p2 q1 q2) estimates) ;;
  st <- lift (unpack2 (OptimizeResult.x sols)) ;;
  let '(s, t) := st in
  x1 <- lift (param_coord p1 p2 s 0) ;;
  x2 <- lift (param_coord q1 q2 t 0) ;;
  y1 <- lift (param_coord p1 p2 s 1) ;;
  y2 <- lift (param_coord q1 q2 t 1) ;;
  z1 <- lift (param_coord p1 p2 s 2) ;;
  z2 <- lift (param_coord q1 q2 t 2) ;;
  let x := ((x1 + x2) / 2)%R in
  let y := ((y1 + y2) / 2)%R in
  let z := ((z1 + z2) / 2)%R in
  assign (set_intersection_point (Some [x; y; z])).

(** *** [execute] and the accessors *)

Definition execute : M unit :=
  __calc_uv_bbox_vertices ;;;
  __calc_lv_bbox_vertices ;;;
  __set_bbox_tan_line_points ;;;
  theta_deg <- __calc_angle_between_lines ;;
  assign (set_cobb_angle (PyFloat theta_deg)) ;;;
  __calc_intersection.

Definition get_uv_oriented_bbox_vertices : M (option ndarray) :=
  eval (fun self => Ok (uv_oriented_bbox_vertices self)).

Definition get_lv_oriented_bbox_vertices : M (option ndarray) :=
  eval (fun self => Ok (lv_oriented_bbox_vertices self)).

Definition get_cobb_angle : M pynum :=
  eval (fun self => Ok (cobb_angle self)).

(** *** The index accessors *)

(** [v[i]] on an attribute that holds [None] or a Python list. *)
Definition attr_getitem (o : option (list R)) (i : nat) : result R :=
  match o with
  | None => Raise TypeError
  | Some l =>
      match nth_error l i with
      | Some r => Ok r
      | None => Raise IndexError
      end
  end.

(** [vertices_img_indices[i] = values]: a row of a float array takes a
    tuple of its own length, or of length one, which is broadcast. *)
Definition setrow (a : ndarray) (i : nat) (values : list R) : result ndarray :=
  if i <? nrows a then
    if length values =? ncols a then
      Ok (mk_ndarray (nrows a) (ncols a)
            (firstn (i * ncols a) (flat a) ++ values
             ++ skipn ((i + 1) * ncols a) (flat a)))
    else if length values =? 1 then
      Ok (mk_ndarray (nrows a) (ncols a)
            (firstn (i * ncols a) (flat a)
             ++ repeat (hd 0%R values) (ncols a)
             ++ skipn ((i + 1) * ncols a) (flat a)))
    else Raise ValueError
  else Raise IndexError.

(** [np.zeros_like(a)]. *)
Definition zeros_like (a : ndarray) : ndarray :=
  mk_ndarray (nrows a) (ncols a) (repeat 0%R (nrows a * ncols a)).

(** The loop [for i, j in enumerate(box): out[i] = lm.Transform...(j)],
    over the row numbers still to visit. *)
Fixpoint bbox_indices_loop (lm : LabelMap) (box : ndarray) (rows : list nat)
    (vertices_img_indices : ndarray) : result ndarray :=
  match rows with
  | [] => Ok vertices_img_indices
  | i :: rows' =>
      result_bind (LabelMapTransformPhysicalPointToIndex lm (vertex box i))
        (fun index =>
      result_bind (setrow vertices_img_indices i (map IZR index))
        (fun out => bbox_indices_loop lm box rows' out))
  end.

(** [np.zeros_like(None)] is a 0-d array and raises nothing; iterating
    over [None] is a [TypeError]. *)
Definition bbox_indices (lm : LabelMap) (o : option ndarray) : result ndarray :=
  match o with
  | None => Raise TypeError
  | Some box => bbox_indices_loop lm box (seq 0 (nrows box)) (zeros_like box)
  end.

Definition get_uv_oriented_bbox_indices : M ndarray :=
  eval (fun self => bbox_indices (label_map self) (uv_oriented_bbox_vertices self)).

Definition get_lv_oriented_bbox_indices : M ndarray :=
  eval (fun self => bbox_indices (label_map self) (lv_oriented_bbox_vertices self)).

(** [self.image.TransformPhysicalPointToIndex((v[0], v[1], v[2]))]. *)
Definition index_of_point (get : t -> option (list R)) : M (list Z) :=
  x <- eval (fun self => attr_getitem (get self) 0) ;;
  y <- eval (fun self => attr_getitem (get self) 1) ;;
  z <- eval (fun self => attr_getitem (get self) 2) ;;
  eval (fun self => TransformPhysicalPointToIndex (image self) [x; y; z]).

Definition get_intersection_point_index : M (list Z) :=
  index_of_point intersection_point.

Definition get_angle_indices : M (list Z * list Z * list Z) :=
  ca_p1 <- index_of_point uv_p1 ;;
  ca_p2 <- index_of_point intersection_point ;;
  ca_p3 <- index_of_point lv_p1 ;;
  ret (ca_p1, ca_p2, ca_p3).

End Class.

(** *** Vocabulary of the statements *)

(** The object after the four tangent points were assigned. *)
Definition with_tangents {Image LabelMap : Type}
    (a b c d : list R) (self : @t Image LabelMap) : t :=
  set_lv_p2 (Some d) (set_lv_p1 (Some c) (set_uv_p2 (Some b) (set_uv_p1 (Some a) self))).

(** The direction vector [p2 - p1] of the line through [p1] and [p2], the
    Euclidean norm, and what it means for a vector not to be the zero
    vector. *)
Definition direction (p1 p2 : list R) : list R := map2 Rminus p2 p1.

Definition norm (v : list R) : R := sqrt (sum_prod v v).

Definition nonzero (v : list R) : Prop := Exists (fun c => c <> 0%R) v.

(** Four points of one dimensionality. *)
Definition same_dim (p1 p2 q1 q2 : list R) : Prop :=
  length p2 = length p1 /\ length q1 = length p1 /\ length q2 = length p1.

(** Clamping and radians-to-degrees on the reals. *)
Definition Rclip (x lo hi : R) : R := Rmin (Rmax x lo) hi.

Definition Rdegrees (r : R) : R := (r * 180 / PI)%R.

(** The angle of the specification: the inverse cosine, in degrees, of
    the clamped normalised dot product of two direction vectors. *)
Definition angle_deg (d1 d2 : list R) : R :=
  Rdegrees (acos (Rclip (sum_prod d1 d2 / (norm d1 * norm d2)) (-1) 1)).

(** The point of the line through [p1] and [p2] at parameter [s], the
    residual [r(s, t)] between the two lines, and the midpoint of two
    points. *)
Definition line_at (p1 p2 : list R) (s : R) : list R :=
  map2 Rplus p1 (map (Rmult s) (direction p1 p2)).


Definition midpoint (a b : list R) : list R :=
  map2 (fun u v => ((u + v) / 2)%R) a b.

(** A method that never raises the exception [e]. *)
Definition never_raises {Image LabelMap A : Type}
    (e : exn) (m : @M Image LabelMap A) : Prop :=
  forall self, fst (m self) <> Raise e.



(** The same with a degenerate tangent: the angle is [nan]. *)
Definition executed_degenerate {Image LabelMap : Type}
    (uvs lvs : list R) (s_fit t_fit : R) (self : @t Image LabelMap) : t :=
  let uv := mk_ndarray 8 3 uvs in
  let lv := mk_ndarray 8 3 lvs in
  set_intersection_point
    (Some (midpoint (line_at (vertex uv 0) (vertex uv 1) s_fit)
                    (line_at (vertex lv 6) (vertex lv 7) t_fit)))
    (set_cobb_angle (PyFloat NaN)
       (with_tangents (vertex uv 0) (vertex uv 1) (vertex lv 6) (vertex lv 7)
          (set_lv_oriented_bbox_vertices (Some lv)
             (set_uv_oriented_bbox_vertices (Some uv) self)))).

(** The rows of an index table: row [i] is [row i]. *)
Definition rows_of (row : nat -> list R) (n : nat) : list R :=
  concat (map row (seq 0 n)).

(** *** Sample objects *)

(** Two unit cubes, the upper one two units above the lower one. *)
Definition upper_cube : ndarray :=
  mk_ndarray 8 3
    [0; 0; 2;  1; 0; 2;  0; 1; 2;  1; 1; 2;
     0; 0; 3;  1; 0; 3;  0; 1; 3;  1; 1; 3]%R.

Definition lower_cube : ndarray :=
  mk_ndarray 8 3
    [0; 0; 0;  1; 0; 0;  0; 1; 0;  1; 1; 0;
     0; 0; 1;  1; 0; 1;  0; 1; 1;  1; 1; 1]%R.

(** Two unit squares of a 2-D label map. *)
Definition upper_square : ndarray :=
  mk_ndarray 4 2 [0; 2;  1; 2;  0; 3;  1; 3]%R.

Definition lower_square : ndarray :=
  mk_ndarray 4 2 [0; 0;  1; 0;  0; 1;  1; 1]%R.

(** An object whose two boxes were extracted, nothing else computed. *)
Definition with_boxes (uv lv : option ndarray) : @t unit unit :=
  mk tt tt 2 1 3 uv lv None None None None None (PyInt 0).

(** An object whose four tangent points were assigned. *)
Definition with_lines (p1 p2 q1 q2 : list R) : @t unit unit :=
  with_tangents p1 p2 q1 q2 (with_boxes None None).

(** The perpendicular lines (0,0,0)-(1,0,0) and (0,0,0)-(0,1,0). *)
Definition perpendicular_lines : @t unit unit :=
  with_lines [0; 0; 0]%R [1; 0; 0]%R [0; 0; 0]%R [0; 1; 0]%R.

(** An upper tangent whose two endpoints coincide. *)
Definition degenerate_lines : @t unit unit :=
  with_lines [0; 0; 0]%R [0; 0; 0]%R [0; 0; 0]%R [1; 0; 0]%R.


Definition crossing_lines_2d : @t unit unit :=
  with_lines [0; 0]%R [2; 2]%R [0; 2]%R [2; 0]%R.

(** The parallel lines (0,0,0)-(1,0,0) and (0,1,0)-(1,1,0). *)
Definition parallel_lines : @t unit unit :=
  with_lines [0; 0; 0]%R [1; 0; 0]%R [0; 1; 0]%R [1; 1; 0]%R.

(** A solver that answers with the given parameters, cost and flag. *)
Definition fixed_solver (xs : list R) (c : R) (ok : bool)
  : (list R -> result nparray) -> list R -> result OptimizeResult.t :=
  fun _ _ => Ok (OptimizeResult.mk xs c ok).

(** A solver that gives up at its seed and reports failure. *)
Definition stalled_solver
  : (list R -> result nparray) -> list R -> result OptimizeResult.t :=
  fun _ x0 => Ok (OptimizeResult.mk x0 (1 / 2) false).

(** A 3-D image with the upper vertebra labelled 1 and the lower one 2. *)
Definition fresh_calculator : @t unit unit :=
  __init__ (fun _ => 3%Z) tt tt 1 2.

(** A bounding-box primitive for the two cubes. *)
Definition cube_primitive (_ : unit) (i : Z) : result (list R) :=
  if (i =? 1)%Z then Ok (flat upper_cube)
  else if (i =? 2)%Z then Ok (flat lower_cube)
  else Raise RuntimeError.

(** The object [fresh_calculator] becomes when [execute] runs with
    [cube_primitive] and a solver that stays at the seed: the tangents
    (0,0,2)-(1,0,2) and (0,1,1)-(1,1,1) are parallel. *)
Definition executed_cubes : @t unit unit :=
  set_intersection_point
    (Some (midpoint (line_at [0; 0; 2]%R [1; 0; 2]%R 1)
                    (line_at [0; 1; 1]%R [1; 1; 1]%R 1)))
    (set_cobb_angle (PyFloat (Fin 0))
       (with_tangents [0; 0; 2]%R [1; 0; 2]%R [0; 1; 1]%R [1; 1; 1]%R
          (with_boxes (Some upper_cube) (Some lower_cube)))).

(** A 2-D image: a square standing on a corner above [lower_square].
    The upper tangent (0,2)-(1,3) and the lower tangent (0,1)-(1,1) are
    not parallel; as lines they meet at (-1, 1), for s = t = -1. *)
Definition tilted_square : ndarray :=
  mk_ndarray 4 2 [0; 2;  1; 3;  -1; 3;  0; 4]%R.

Definition square_primitive (_ : unit) (i : Z) : result (list R) :=
  if (i =? 1)%Z then Ok (flat tilted_square)
  else if (i =? 2)%Z then Ok (flat lower_square)
  else Raise RuntimeError.

Definition fresh_calculator_2d : @t unit unit :=
  __init__ (fun _ => 2%Z) tt tt 1 2.

(** A bounding-box primitive that answers with twelve coordinates. *)
Definition malformed_primitive (_ : unit) (_ : Z) : result (list R) :=
  Ok [0; 0; 0;  1; 0; 0;  0; 1; 0;  1; 1; 0]%R.

(** A bounding-box primitive that knows no label, one that knows the
    upper label only, and one whose upper box is a single point. *)
Definition failing_primitive (_ : unit) (_ : Z) : result (list R) :=
  Raise RuntimeError.

Definition upper_only_primitive (_ : unit) (i : Z) : result (list R) :=
  if (i =? 1)%Z then Ok (flat upper_cube) else Raise RuntimeError.

Definition collapsed_primitive (_ : unit) (i : Z) : result (list R) :=
  if (i =? 1)%Z then Ok (repeat 0%R 24)
  else if (i =? 2)%Z then Ok (flat lower_cube)
  else Raise RuntimeError.

(** The index transform of an image of unit spacing at the origin: each
    coordinate is rounded to the nearest voxel, halves upwards. *)
Definition nearest_voxel (x : R) : Z := Zfloor (x + 1 / 2).

Definition voxel_index (_ : unit) (point : list R) : result (list Z) :=
  Ok (map nearest_voxel point).

(** ** Properties *)

Section Properties.

Context {Image LabelMap : Type}.

Abbreviation self_t := (@t Image LabelMap).

Variable GetOrientedBoundingBoxVertices : LabelMap -> Z -> result (list R).
Variable least_squares :
  (list R -> result nparray) -> list R -> result OptimizeResult.t.

Ltac list_of_length H :=
  match type of H with
  | length ?l = _ =>
      repeat (destruct l as [| ? l];
              [ discriminate H | simpl in H; apply Nat.succ_inj in H ]);
      destruct l; [ | discriminate H ]
  end.

(** *** Extraction of the oriented boxes *)

Lemma calc_uv_bbox_vertices_run (self : self_t) (vs : list R) :
  GetOrientedBoundingBoxVertices (label_map self) (uv_label_index self) = Ok vs ->
  __calc_uv_bbox_vertices GetOrientedBoundingBoxVertices self =
    (Ok tt,
     if length vs =? 24 then
       set_uv_oriented_bbox_vertices (Some (mk_ndarray 8 3 vs)) self
     else if length vs =? 8 then
       set_uv_oriented_bbox_vertices (Some (mk_ndarray 4 2 vs)) self
     else self).
Proof.
  intros Hvs.
  unfold __calc_uv_bbox_vertices, bind, eval, when, lift, reshape.
  rewrite Hvs. change (8 * 3) with 24. change (4 * 2) with 8.
  destruct (length vs =? 24) eqn:E24.
  - apply Nat.eqb_eq in E24. rewrite E24. reflexivity.
  - cbn [ret]. destruct (length vs =? 8); reflexivity.
Qed.

Lemma calc_lv_bbox_vertices_run (self : self_t) (vs : list R) :
  GetOrientedBoundingBoxVertices (label_map self) (lv_label_index self) = Ok vs ->
  __calc_lv_bbox_vertices GetOrientedBoundingBoxVertices self =
    (Ok tt,
     if length vs =? 24 then
       set_lv_oriented_bbox_vertices (Some (mk_ndarray 8 3 vs)) self
     else if length vs =? 8 then
       set_lv_oriented_bbox_vertices (Some (mk_ndarray 4 2 vs)) self
     else self).
Proof.
  intros Hvs.
  unfold __calc_lv_bbox_vertices, bind, eval, when, lift, reshape.
  rewrite Hvs. change (8 * 3) with 24. change (4 * 2) with 8.
  destruct (length vs =? 24) eqn:E24.
  - apply Nat.eqb_eq in E24. rewrite E24. reflexivity.
  - cbn [ret]. destruct (length vs =? 8); reflexivity.
Qed.

Lemma eqb_other_count (n : nat) :
  n <> 24 -> n <> 8 -> (n =? 24) = false /\ (n =? 8) = false.
Proof. intros H24 H8; split; now apply Nat.eqb_neq. Qed.

(** C5, as the code has it.  When the bounding-box primitive answers with
    24 coordinates the extraction stores exactly 8 vertices of 3
    coordinates, and with 8 coordinates exactly 4 vertices of 2
    coordinates, for the upper and for the lower vertebra alike.  On any
    other count it raises nothing, [GeometryException] included, and
    leaves the stored box as it was ([None] on a new object). *)
Theorem calc_bbox_vertices_counts (self : self_t) (uvs lvs : list R) :
  GetOrientedBoundingBoxVertices (label_map self) (uv_label_index self) = Ok uvs ->
  GetOrientedBoundingBoxVertices (label_map self) (lv_label_index self) = Ok lvs ->
  ((length uvs = 24 ->
    box3d (mk_ndarray 8 3 uvs)
    /\ __calc_uv_bbox_vertices GetOrientedBoundingBoxVertices self =
         (Ok tt, set_uv_oriented_bbox_vertices (Some (mk_ndarray 8 3 uvs)) self))
   /\ (length uvs = 8 ->
       box2d (mk_ndarray 4 2 uvs)
       /\ __calc_uv_bbox_vertices GetOrientedBoundingBoxVertices self =
            (Ok tt, set_uv_oriented_bbox_vertices (Some (mk_ndarray 4 2 uvs)) self))
   /\ (length uvs <> 24 -> length uvs <> 8 ->
       __calc_uv_bbox_vertices GetOrientedBoundingBoxVertices self = (Ok tt, self)))
  /\
  ((length lvs = 24 ->
    box3d (mk_ndarray 8 3 lvs)
    /\ __calc_lv_bbox_vertices GetOrientedBoundingBoxVertices self =
         (Ok tt, set_lv_oriented_bbox_vertices (Some (mk_ndarray 8 3 lvs)) self))
   /\ (length lvs = 8 ->
       box2d (mk_ndarray 4 2 lvs)
       /\ __calc_lv_bbox_vertices GetOrientedBoundingBoxVertices self =
            (Ok tt, set_lv_oriented_bbox_vertices (Some (mk_ndarray 4 2 lvs)) self))
   /\ (length lvs <> 24 -> length lvs <> 8 ->
       __calc_lv_bbox_vertices GetOrientedBoundingBoxVertices self = (Ok tt, self))).
Proof.
  intros Hu Hl.
  rewrite (calc_uv_bbox_vertices_run self Hu), (calc_lv_bbox_vertices_run self Hl).
  split; (split; [| split]).
  - intros H; rewrite H; repeat split; assumption.
  - intros H; rewrite H; repeat split; assumption.
  - intros H24 H8; destruct (eqb_other_count H24 H8) as [-> ->]; reflexivity.
  - intros H; rewrite H; repeat split; assumption.
  - intros H; rewrite H; repeat split; assumption.
  - intros H24 H8; destruct (eqb_other_count H24 H8) as [-> ->]; reflexivity.
Qed.

(** *** Tangent-line selection *)

Lemma set_bbox_tan_line_points_3d (self : self_t) (uv lv : ndarray) :
  uv_oriented_bbox_vertices self = Some uv ->
  lv_oriented_bbox_vertices self = Some lv ->
  box3d uv -> box3d lv ->
  __set_bbox_tan_line_points self =
    (Ok (Some (vertex uv 0, vertex uv 1, vertex lv 6, vertex lv 7)),
     with_tangents (vertex uv 0) (vertex uv 1) (vertex lv 6) (vertex lv 7) self).
Proof.
  intros Huv Hlv (Hr & Hc & Hn) (Hr' & Hc' & Hn').
  destruct self; destruct uv as [r c f]; destruct lv as [r' c' f'].
  simpl in *. subst.
  list_of_length Hn. list_of_length Hn'.
  reflexivity.
Qed.

Lemma set_bbox_tan_line_points_2d (self : self_t) (uv lv : ndarray) :
  uv_oriented_bbox_vertices self = Some uv ->
  lv_oriented_bbox_vertices self = Some lv ->
  box2d uv -> box2d lv ->
  __set_bbox_tan_line_points self =
    (Ok (Some (vertex uv 0, vertex uv 1, vertex lv 2, vertex lv 3)),
     with_tangents (vertex uv 0) (vertex uv 1) (vertex lv 2) (vertex lv 3) self).
Proof.
  intros Huv Hlv (Hr & Hc & Hn) (Hr' & Hc' & Hn').
  destruct self; destruct uv as [r c f]; destruct lv as [r' c' f'].
  simpl in *. subst.
  list_of_length Hn. list_of_length Hn'.
  reflexivity.
Qed.

(** C1.  For two 3-D boxes (eight vertices of three coordinates each) the
    selection returns, and stores, vertices 0 and 1 of the upper box and
    vertices 6 and 7 of the lower box; for two 2-D boxes, vertices 0 and 1
    of the upper box and vertices 2 and 3 of the lower box.  The outcome
    is read off the two vertex tables by index: it is a function of the
    two boxes and involves no arithmetic. *)
Theorem set_bbox_tan_line_points_fixed_vertices (self : self_t) (uv lv : ndarray) :
  uv_oriented_bbox_vertices self = Some uv ->
  lv_oriented_bbox_vertices self = Some lv ->
  (box3d uv -> box3d lv ->
   __set_bbox_tan_line_points self =
     (Ok (Some (vertex uv 0, vertex uv 1, vertex lv 6, vertex lv 7)),
      with_tangents (vertex uv 0) (vertex uv 1) (vertex lv 6) (vertex lv 7) self))
  /\
  (box2d uv -> box2d lv ->
   __set_bbox_tan_line_points self =
     (Ok (Some (vertex uv 0, vertex uv 1, vertex lv 2, vertex lv 3)),
      with_tangents (vertex uv 0) (vertex uv 1) (vertex lv 2) (vertex lv 3) self)).
Proof.
  intros Huv Hlv; split; intros Hu Hl.
  - now apply set_bbox_tan_line_points_3d.
  - now apply set_bbox_tan_line_points_2d.
Qed.

(** What the selection does when the two boxes do not go together. *)

Lemma set_bbox_tan_line_points_3d_over_2d (self : self_t) (uv lv : ndarray) :
  uv_oriented_bbox_vertices self = Some uv ->
  lv_oriented_bbox_vertices self = Some lv ->
  box3d uv -> box2d lv ->
  __set_bbox_tan_line_points self =
    (Raise IndexError,
     set_uv_p2 (Some (vertex uv 1)) (set_uv_p1 (Some (vertex uv 0)) self)).
Proof.
  intros Huv Hlv (Hr & Hc & Hn) (Hr' & Hc' & Hn').
  destruct self; destruct uv as [r c f]; destruct lv as [r' c' f'].
  simpl in *. subst.
  list_of_length Hn. list_of_length Hn'.
  reflexivity.
Qed.

Lemma set_bbox_tan_line_points_2d_over_3d (self : self_t) (uv lv : ndarray) :
  uv_oriented_bbox_vertices self = Some uv ->
  lv_oriented_bbox_vertices self = Some lv ->
  box2d uv -> box3d lv ->
  __set_bbox_tan_line_points self =
    (Ok (Some (vertex uv 0, vertex uv 1,
               firstn 2 (vertex lv 2), firstn 2 (vertex lv 3))),
     with_tangents (vertex uv 0) (vertex uv 1)
                   (firstn 2 (vertex lv 2)) (firstn 2 (vertex lv 3)) self).
Proof.
  intros Huv Hlv (Hr & Hc & Hn) (Hr' & Hc' & Hn').
  destruct self; destruct uv as [r c f]; destruct lv as [r' c' f'].
  simpl in *. subst.
  list_of_length Hn. list_of_length Hn'.
  reflexivity.
Qed.

Lemma set_bbox_tan_line_points_upper_unset (self : self_t) :
  uv_oriented_bbox_vertices self = None ->
  __set_bbox_tan_line_points self = (Raise AttributeError, self).
Proof.
  intros Huv. unfold __set_bbox_tan_line_points, bind, eval.
  rewrite Huv; reflexivity.
Qed.

Lemma set_bbox_tan_line_points_lower_unset (self : self_t) (uv : ndarray) :
  uv_oriented_bbox_vertices self = Some uv ->
  box3d uv \/ box2d uv ->
  lv_oriented_bbox_vertices self = None ->
  fst (__set_bbox_tan_line_points self) = Raise TypeError.
Proof.
  intros Huv Hbox Hlv.
  destruct self; destruct uv as [r c f]; simpl in *; subst.
  destruct Hbox as [(Hr & Hc & Hn) | (Hr & Hc & Hn)]; simpl in *; subst;
    list_of_length Hn; reflexivity.
Qed.

Lemma set_bbox_tan_line_points_other_size (self : self_t) (uv : ndarray) :
  uv_oriented_bbox_vertices self = Some uv ->
  size uv <> 24 -> size uv <> 8 ->
  __set_bbox_tan_line_points self = (Ok None, self).
Proof.
  intros Huv H24 H8. unfold __set_bbox_tan_line_points, bind, eval.
  rewrite Huv; cbn [attr_size].
  destruct (eqb_other_count H24 H8) as [-> ->]; reflexivity.
Qed.

(** No step of a method raises [e] if none of its parts does. *)

Lemma never_raises_ret (e : exn) (A : Type) (a : A) :
  never_raises e (@ret Image LabelMap A a).
Proof. intros self; discriminate. Qed.

Lemma never_raises_assign (e : exn) (f : self_t -> self_t) :
  never_raises e (assign f).
Proof. intros self; discriminate. Qed.

Lemma never_raises_eval (e : exn) (A : Type) (g : self_t -> result A) :
  (forall self, g self <> Raise e) -> never_raises e (eval g).
Proof. intros H self; apply H. Qed.

Lemma never_raises_bind (e : exn) (A B : Type) (m : M A) (f : A -> M B) :
  never_raises e m -> (forall a, never_raises e (f a)) ->
  never_raises e (@bind Image LabelMap A B m f).
Proof.
  intros Hm Hf self; unfold bind.
  specialize (Hm self).
  destruct (m self) as [[a | e'] self']; simpl in *.
  - apply Hf.
  - intros Heq; apply Hm; congruence.
Qed.

Lemma attr_size_not_geometry (o : option ndarray) :
  attr_size o <> Raise GeometryException.
Proof. destruct o; discriminate. Qed.

Lemma attr_item_not_geometry (o : option ndarray) (i j : nat) :
  attr_item o i j <> Raise GeometryException.
Proof.
  destruct o as [a |]; simpl; [| discriminate].
  unfold item. destruct (_ && _); [| discriminate].
  destruct (nth_error _ _); discriminate.
Qed.

Lemma set_bbox_tan_line_points_never_geometry :
  never_raises GeometryException (@__set_bbox_tan_line_points Image LabelMap).
Proof.
  unfold __set_bbox_tan_line_points, uv_item, lv_item.
  apply never_raises_bind;
    [apply never_raises_eval; intros; apply attr_size_not_geometry |].
  intros uv_size.
  destruct (uv_size =? 24); [| destruct (uv_size =? 8)];
    repeat first
      [ apply never_raises_ret
      | apply never_raises_assign
      | apply never_raises_eval; intros; apply attr_item_not_geometry
      | apply never_raises_bind; [| intros ?] ].
Qed.

(** C8, as the code has it.  The tangent-line selection never raises
    [GeometryException].  With an eight-vertex upper box over a
    four-vertex lower box it raises [IndexError] (the lower box has no
    vertex 6); with a four-vertex upper box over an eight-vertex lower box
    it raises nothing and returns the first two coordinates of the lower
    vertices 2 and 3; with the upper box unset it raises
    [AttributeError], and with only the lower box unset [TypeError]; on
    an upper table of any other size it assigns nothing and returns
    [None]. *)
Theorem set_bbox_tan_line_points_mismatch (self : self_t) :
  fst (__set_bbox_tan_line_points self) <> Raise GeometryException
  /\ (forall uv lv,
        uv_oriented_bbox_vertices self = Some uv ->
        lv_oriented_bbox_vertices self = Some lv ->
        box3d uv -> box2d lv ->
        fst (__set_bbox_tan_line_points self) = Raise IndexError)
  /\ (forall uv lv,
        uv_oriented_bbox_vertices self = Some uv ->
        lv_oriented_bbox_vertices self = Some lv ->
        box2d uv -> box3d lv ->
        fst (__set_bbox_tan_line_points self) =
          Ok (Some (vertex uv 0, vertex uv 1,
                    firstn 2 (vertex lv 2), firstn 2 (vertex lv 3))))
  /\ (uv_oriented_bbox_vertices self = None ->
      fst (__set_bbox_tan_line_points self) = Raise AttributeError)
  /\ (forall uv,
        uv_oriented_bbox_vertices self = Some uv ->
        box3d uv \/ box2d uv ->
        lv_oriented_bbox_vertices self = None ->
        fst (__set_bbox_tan_line_points self) = Raise TypeError)
  /\ (forall uv,
        uv_oriented_bbox_vertices self = Some uv ->
        size uv <> 24 -> size uv <> 8 ->
        __set_bbox_tan_line_points self = (Ok None, self)).
Proof.
  split; [apply set_bbox_tan_line_points_never_geometry |].
  split; [| split; [| split; [| split]]].
  - intros uv lv Huv Hlv Hu Hl.
    now rewrite (set_bbox_tan_line_points_3d_over_2d self Huv Hlv Hu Hl).
  - intros uv lv Huv Hlv Hu Hl.
    now rewrite (set_bbox_tan_line_points_2d_over_3d self Huv Hlv Hu Hl).
  - intros Huv. now rewrite (set_bbox_tan_line_points_upper_unset self Huv).
  - intros uv Huv Hbox Hlv.
    exact (set_bbox_tan_line_points_lower_unset self Huv Hbox Hlv).
  - intros uv Huv H24 H8.
    exact (set_bbox_tan_line_points_other_size self Huv H24 H8).
Qed.

(** *** Vectors *)

Lemma map2_length (f : R -> R -> R) (a b : list R) :
  length a = length b -> length (map2 f a b) = length b.
Proof.
  revert b; induction a as [| x a IH]; intros [| y b] H; simpl in *;
    try discriminate; auto.
Qed.

Lemma broadcast2_same_length (f : R -> R -> R) (a b : list R) :
  length a = length b -> broadcast2 f a b = Ok (map2 f a b).
Proof.
  intros H; unfold broadcast2; rewrite H, Nat.eqb_refl; reflexivity.
Qed.

Lemma np_sub_same_length (a b : list R) :
  length a = length b ->
  np_sub (Vec a) (Vec b) = Ok (Vec (map2 Rminus a b)).
Proof.
  intros H; unfold np_sub, np_binop.
  rewrite (broadcast2_same_length _ _ _ H); reflexivity.
Qed.


Lemma np_dot_same_length (a b : list R) :
  length a = length b -> np_dot (Vec a) (Vec b) = Ok (sum_prod a b).
Proof.
  intros H; unfold np_dot; rewrite H, Nat.eqb_refl; reflexivity.
Qed.

Lemma direction_length (p1 p2 : list R) :
  length p2 = length p1 -> length (direction p1 p2) = length p1.
Proof. intros H; unfold direction; now apply map2_length. Qed.

Lemma sum_prod_comm (a b : list R) : sum_prod a b = sum_prod b a.
Proof.
  revert b; induction a as [| x a IH]; intros [| y b]; simpl; auto.
  rewrite IH; ring.
Qed.

Lemma sum_prod_self_nonneg (v : list R) : (0 <= sum_prod v v)%R.
Proof.
  induction v as [| c v IH]; simpl; [lra | nra].
Qed.

Lemma sum_prod_self_pos (v : list R) : nonzero v -> (0 < sum_prod v v)%R.
Proof.
  induction 1 as [c v Hc | c v _ IH]; simpl.
  - pose proof (sum_prod_self_nonneg v). nra.
  - nra.
Qed.

Lemma norm_pos (v : list R) : nonzero v -> (0 < norm v)%R.
Proof.
  intros H; unfold norm; apply sqrt_lt_R0; now apply sum_prod_self_pos.
Qed.

Lemma direction_degenerate (p : list R) (v : list R) :
  sum_prod (direction p p) v = 0%R.
Proof.
  unfold direction; revert v; induction p as [| c p IH]; intros [| y v];
    simpl; auto.
  rewrite IH; ring.
Qed.

Lemma norm_degenerate (p : list R) : norm (direction p p) = 0%R.
Proof.
  unfold norm; rewrite direction_degenerate; apply sqrt_0.
Qed.

(** *** numpy scalars against the reals *)

Lemma np_true_divide_finite (a b : R) :
  b <> 0%R -> np_true_divide a b = Fin (a / b).
Proof.
  intros H; unfold np_true_divide; destruct (Req_dec_T b 0); [contradiction | reflexivity].
Qed.

Lemma np_true_divide_zero_zero : np_true_divide 0 0 = NaN.
Proof.
  unfold np_true_divide; destruct (Req_dec_T 0 0) as [_ | H]; [reflexivity | now elim H].
Qed.

Lemma Rclip_bounds (x : R) : (-1 <= Rclip x (-1) 1 <= 1)%R.
Proof.
  unfold Rclip, Rmin, Rmax.
  destruct (Rle_dec x (-1)); destruct (Rle_dec _ 1); lra.
Qed.

Lemma np_arccos_clip (x : R) :
  np_arccos (np_clip (Fin x) (-1) 1) = Fin (acos (Rclip x (-1) 1)).
Proof.
  pose proof (Rclip_bounds x) as [Hlo Hhi].
  unfold np_clip, np_arccos; fold (Rclip x (-1) 1).
  destruct (Rle_dec (-1) (Rclip x (-1) 1)); [| contradiction].
  destruct (Rle_dec (Rclip x (-1) 1) 1); [reflexivity | contradiction].
Qed.

Lemma np_degrees_finite (r : R) : np_degrees (Fin r) = Fin (Rdegrees r).
Proof.
  unfold np_degrees, Rdegrees; f_equal; field; apply PI_neq0.
Qed.

(** *** The angle between the tangent lines *)

(** The run of the method on four points of one dimensionality: nothing
    raises, [self] is left as it was, and the value is the chain of numpy
    calls on the two direction vectors. *)
Lemma calc_angle_between_lines_run (self : self_t) (p1 p2 q1 q2 : list R) :
  uv_p1 self = Some p1 -> uv_p2 self = Some p2 ->
  lv_p1 self = Some q1 -> lv_p2 self = Some q2 ->
  same_dim p1 p2 q1 q2 ->
  __calc_angle_between_lines self =
    (Ok (np_degrees (np_arccos (np_clip
           (np_true_divide (sum_prod (direction p1 p2) (direction q1 q2))
                           (norm (direction p1 p2) * norm (direction q1 q2)))
           (-1) 1))),
     self).
Proof.
  intros H1 H2 H3 H4 (Hp & Hq1 & Hq2).
  unfold __calc_angle_between_lines, bind, eval, lift, ret.
  rewrite H1, H2, H3, H4; cbn [np_array].
  rewrite (np_sub_same_length p2 p1) by assumption.
  rewrite (np_sub_same_length q2 q1) by congruence.
  rewrite np_dot_same_length
    by (rewrite !map2_length; congruence).
  reflexivity.
Qed.

Lemma calc_angle_between_lines_nonzero (self : self_t) (p1 p2 q1 q2 : list R) :
  uv_p1 self = Some p1 -> uv_p2 self = Some p2 ->
  lv_p1 self = Some q1 -> lv_p2 self = Some q2 ->
  same_dim p1 p2 q1 q2 ->
  nonzero (direction p1 p2) -> nonzero (direction q1 q2) ->
  __calc_angle_between_lines self =
    (Ok (Fin (angle_deg (direction p1 p2) (direction q1 q2))), self).
Proof.
  intros H1 H2 H3 H4 Hdim Hd1 Hd2.
  rewrite (calc_angle_between_lines_run self H1 H2 H3 H4 Hdim).
  pose proof (norm_pos Hd1). pose proof (norm_pos Hd2).
  rewrite np_true_divide_finite by nra.
  rewrite np_arccos_clip, np_degrees_finite.
  reflexivity.
Qed.

Lemma calc_angle_between_lines_degenerate (self : self_t) (p1 p2 q1 q2 : list R) :
  uv_p1 self = Some p1 -> uv_p2 self = Some p2 ->
  lv_p1 self = Some q1 -> lv_p2 self = Some q2 ->
  same_dim p1 p2 q1 q2 ->
  p1 = p2 \/ q1 = q2 ->
  __calc_angle_between_lines self = (Ok NaN, self).
Proof.
  intros H1 H2 H3 H4 Hdim Hdeg.
  rewrite (calc_angle_between_lines_run self H1 H2 H3 H4 Hdim).
  destruct Hdeg as [<- | <-].
  - rewrite direction_degenerate, norm_degenerate, Rmult_0_l,
      np_true_divide_zero_zero.
    reflexivity.
  - rewrite sum_prod_comm, direction_degenerate, norm_degenerate, Rmult_0_r,
      np_true_divide_zero_zero.
    reflexivity.
Qed.

(** C4, as the code has it.  When either tangent line is degenerate (its
    two endpoints coincide) the angle method raises nothing, and in
    particular no [GeometryException]: no zero-length check precedes the
    division, 0/0 is [nan], [clip], [arccos] and [degrees] pass it on,
    and [nan] is returned with [self] untouched. *)
Theorem calc_angle_between_lines_degenerate_returns_nan
    (self : self_t) (p1 p2 q1 q2 : list R) :
  uv_p1 self = Some p1 -> uv_p2 self = Some p2 ->
  lv_p1 self = Some q1 -> lv_p2 self = Some q2 ->
  same_dim p1 p2 q1 q2 ->
  p1 = p2 \/ q1 = q2 ->
  np_true_divide (sum_prod (direction p1 p2) (direction q1 q2))
                 (norm (direction p1 p2) * norm (direction q1 q2)) = NaN
  /\ __calc_angle_between_lines self = (Ok NaN, self)
  /\ fst (__calc_angle_between_lines self) <> Raise GeometryException.
Proof.
  intros H1 H2 H3 H4 Hdim Hdeg.
  pose proof (calc_angle_between_lines_degenerate self H1 H2 H3 H4 Hdim Hdeg) as Hrun.
  split; [| split].
  - destruct Hdeg as [<- | <-].
    + now rewrite direction_degenerate, norm_degenerate, Rmult_0_l,
        np_true_divide_zero_zero.
    + now rewrite sum_prod_comm, direction_degenerate, norm_degenerate,
        Rmult_0_r, np_true_divide_zero_zero.
  - exact Hrun.
  - rewrite Hrun; discriminate.
Qed.

(** *** The intersection estimate *)


(** The run of the method on 3-D tangent lines, for a solver that comes
    back with two parameters. *)
Lemma calc_intersection_3d
    (self : self_t) (p1 p2 q1 q2 : list R) (sols : OptimizeResult.t) (s t : R) :
  uv_p1 self = Some p1 -> uv_p2 self = Some p2 ->
  lv_p1 self = Some q1 -> lv_p2 self = Some q2 ->
  length p1 = 3 -> length p2 = 3 -> length q1 = 3 -> length q2 = 3 ->
  least_squares (errFunc (Vec p1) (Vec p2) (Vec q1) (Vec q2)) [1; 1]%R = Ok sols ->
  OptimizeResult.x sols = [s; t] ->
  __calc_intersection least_squares self =
    (Ok tt,
     set_intersection_point
       (Some (midpoint (line_at p1 p2 s) (line_at q1 q2 t))) self).
Proof.
  intros H1 H2 H3 H4 L1 L2 L3 L4 Hsolve Hx.
  unfold __calc_intersection, bind, eval, lift.
  rewrite H1, H2, H3, H4; cbn [np_array].
  rewrite Hsolve, Hx; cbn [unpack2].
  list_of_length L1. list_of_length L2. list_of_length L3. list_of_length L4.
  reflexivity.
Qed.

(** The same run on 2-D tangent lines: the solver is called, and then the
    third coordinate of a two-coordinate point is asked for. *)
Lemma calc_intersection_2d
    (self : self_t) (p1 p2 q1 q2 : list R) (sols : OptimizeResult.t) (s t : R) :
  uv_p1 self = Some p1 -> uv_p2 self = Some p2 ->
  lv_p1 self = Some q1 -> lv_p2 self = Some q2 ->
  length p1 = 2 -> length p2 = 2 -> length q1 = 2 -> length q2 = 2 ->
  least_squares (errFunc (Vec p1) (Vec p2) (Vec q1) (Vec q2)) [1; 1]%R = Ok sols ->
  OptimizeResult.x sols = [s; t] ->
  __calc_intersection least_squares self = (Raise IndexError, self).
Proof.
  intros H1 H2 H3 H4 L1 L2 L3 L4 Hsolve Hx.
  unfold __calc_intersection, bind, eval, lift.
  rewrite H1, H2, H3, H4; cbn [np_array].
  rewrite Hsolve, Hx; cbn [unpack2].
  list_of_length L1. list_of_length L2. list_of_length L3. list_of_length L4.
  reflexivity.
Qed.

Lemma same_dim_3d (p1 p2 q1 q2 : list R) :
  length p1 = 3 -> length p2 = 3 -> length q1 = 3 -> length q2 = 3 ->
  same_dim p1 p2 q1 q2.
Proof. intros; repeat split; congruence. Qed.


(** C6, as the code has it.  The estimator never looks at the solver's
    convergence flag or cost: on 3-D tangent lines, whenever the solver
    comes back with two parameters, whatever [success] and [cost] say, it
    raises nothing, [GeometryException] included, and stores the midpoint
    for those parameters. *)
Theorem calc_intersection_ignores_convergence
    (self : self_t) (p1 p2 q1 q2 : list R) (s t c : R) (ok : bool) :
  uv_p1 self = Some p1 -> uv_p2 self = Some p2 ->
  lv_p1 self = Some q1 -> lv_p2 self = Some q2 ->
  length p1 = 3 -> length p2 = 3 -> length q1 = 3 -> length q2 = 3 ->
  least_squares (errFunc (Vec p1) (Vec p2) (Vec q1) (Vec q2)) [1; 1]%R =
    Ok (OptimizeResult.mk [s; t] c ok) ->
  __calc_intersection least_squares self =
    (Ok tt,
     set_intersection_point
       (Some (midpoint (line_at p1 p2 s) (line_at q1 q2 t))) self)
  /\ fst (__calc_intersection least_squares self) <> Raise GeometryException.
Proof.
  intros H1 H2 H3 H4 L1 L2 L3 L4 Hsolve.
  assert (Hrun := calc_intersection_3d self H1 H2 H3 H4 L1 L2 L3 L4 Hsolve eq_refl).
  split; [exact Hrun | rewrite Hrun; discriminate].
Qed.

(** C7 on the code.  On 2-D tangent lines the estimator does not return
    an intersection point: once the solver has come back, reading the
    third coordinate of a two-coordinate point raises [IndexError], and
    [intersection_point] is left as it was. *)
Theorem calc_intersection_2d_raises
    (self : self_t) (p1 p2 q1 q2 : list R) (sols : OptimizeResult.t) (s t : R) :
  uv_p1 self = Some p1 -> uv_p2 self = Some p2 ->
  lv_p1 self = Some q1 -> lv_p2 self = Some q2 ->
  length p1 = 2 -> length p2 = 2 -> length q1 = 2 -> length q2 = 2 ->
  least_squares (errFunc (Vec p1) (Vec p2) (Vec q1) (Vec q2)) [1; 1]%R = Ok sols ->
  OptimizeResult.x sols = [s; t] ->
  __calc_intersection least_squares self = (Raise IndexError, self)
  /\ intersection_point (snd (__calc_intersection least_squares self)) =
       intersection_point self.
Proof.
  intros H1 H2 H3 H4 L1 L2 L3 L4 Hsolve Hx.
  assert (Hrun := calc_intersection_2d self H1 H2 H3 H4 L1 L2 L3 L4 Hsolve Hx).
  split; [exact Hrun | now rewrite Hrun].
Qed.

(** *** One run of [execute] *)

Lemma bind_ok (A B : Type) (m : M A) (f : A -> M B) (self self' : self_t) (a : A) :
  m self = (Ok a, self') -> bind m f self = f a self'.
Proof. intros H; unfold bind; rewrite H; reflexivity. Qed.

Lemma angle_deg_same_direction (d : list R) :
  nonzero d -> angle_deg d d = 0%R.
Proof.
  intros Hd. pose proof (sum_prod_self_pos Hd) as Hpos.
  unfold angle_deg, norm.
  rewrite sqrt_sqrt by lra.
  replace (sum_prod d d / sum_prod d d)%R with 1%R by (field; lra).
  replace (Rclip 1 (-1) 1) with 1%R
    by (unfold Rclip, Rmin, Rmax;
        destruct (Rle_dec 1 (-1)); destruct (Rle_dec _ 1); lra).
  rewrite acos_1. unfold Rdegrees; field. apply PI_neq0.
Qed.

Lemma Rclip_inside (x : R) : (-1 <= x <= 1)%R -> Rclip x (-1) 1 = x.
Proof.
  intros [Hlo Hhi]; unfold Rclip, Rmin, Rmax.
  destruct (Rle_dec x (-1)); destruct (Rle_dec _ 1); lra.
Qed.

Lemma angle_deg_orthogonal (d1 d2 : list R) :
  sum_prod d1 d2 = 0%R -> angle_deg d1 d2 = 90%R.
Proof.
  intros H; unfold angle_deg; rewrite H.
  unfold Rdiv at 1; rewrite Rmult_0_l, Rclip_inside by lra.
  rewrite acos_0. unfold Rdegrees; field. apply PI_neq0.
Qed.

Lemma angle_deg_opposite (d1 d2 : list R) :
  (0 < norm d1 * norm d2)%R ->
  sum_prod d1 d2 = (- (norm d1 * norm d2))%R ->
  angle_deg d1 d2 = 180%R.
Proof.
  intros Hpos H; unfold angle_deg; rewrite H.
  set (n := (norm d1 * norm d2)%R) in *.
  replace (- n / n)%R with (- (1))%R by (field; lra).
  rewrite Rclip_inside by lra.
  rewrite acos_opp, acos_1. unfold Rdegrees; field. apply PI_neq0.
Qed.

End Properties.

Lemma cube_tangents_same_direction :
  direction [0; 1; 1]%R [1; 1; 1]%R = direction [0; 0; 2]%R [1; 0; 2]%R.
Proof.
  unfold direction; cbn [map2].
  replace (1 - 1)%R with (0 - 0)%R by ring.
  replace (2 - 2)%R with (0 - 0)%R by ring.
  reflexivity.
Qed.

Lemma cube_tangent_nonzero : nonzero (direction [0; 0; 2]%R [1; 0; 2]%R).
Proof. apply Exists_cons_hd; lra. Qed.

Lemma execute_cubes :
  execute cube_primitive (fixed_solver [1; 1]%R 1 true) fresh_calculator =
    (Ok tt, executed_cubes).
Proof.
  unfold execute.
  erewrite bind_ok
    by (apply calc_uv_bbox_vertices_run with (vs := flat upper_cube); reflexivity).
  erewrite bind_ok
    by (apply calc_lv_bbox_vertices_run with (vs := flat lower_cube); reflexivity).
  erewrite bind_ok
    by (apply set_bbox_tan_line_points_3d with (uv := upper_cube) (lv := lower_cube);
        try reflexivity; repeat split).
  erewrite bind_ok
    by (apply calc_angle_between_lines_nonzero
          with (p1 := [0; 0; 2]%R) (p2 := [1; 0; 2]%R)
               (q1 := [0; 1; 1]%R) (q2 := [1; 1; 1]%R);
        try reflexivity;
        [ repeat split
        | apply cube_tangent_nonzero
        | rewrite cube_tangents_same_direction; apply cube_tangent_nonzero ]).
  rewrite cube_tangents_same_direction,
    (angle_deg_same_direction cube_tangent_nonzero).
  erewrite bind_ok by reflexivity.
  erewrite calc_intersection_3d
    with (p1 := [0; 0; 2]%R) (p2 := [1; 0; 2]%R)
         (q1 := [0; 1; 1]%R) (q2 := [1; 1; 1]%R) (s := 1%R) (t := 1%R);
    reflexivity.
Qed.

(** C10.  On a newly constructed object, before any [execute],
    [get_cobb_angle] raises nothing and returns the constructor's [0];
    by numeric value that is the very number an actual run returns for
    parallel tangents (here the run on the two cubes, 0.0 degrees), so
    the value returned does not tell the two situations apart. *)
Theorem get_cobb_angle_before_execute
    (Image LabelMap : Type) (GetDimension : Image -> Z)
    (image : Image) (label_map : LabelMap) (uv_label_index lv_label_index : Z) :
  let fresh := __init__ GetDimension image label_map uv_label_index lv_label_index in
  get_cobb_angle fresh = (Ok (PyInt 0), fresh)
  /\ py_num_value (PyInt 0) = Fin 0
  /\ exists executed : @t unit unit,
       execute cube_primitive (fixed_solver [1; 1]%R 1 true) fresh_calculator =
         (Ok tt, executed)
       /\ get_cobb_angle executed = (Ok (PyFloat (Fin 0)), executed)
       /\ py_num_value (PyFloat (Fin 0)) = py_num_value (PyInt 0).
Proof.
  intros fresh. split; [reflexivity |]. split; [reflexivity |].
  exists executed_cubes. split; [apply execute_cubes |].
  split; reflexivity.
Qed.

(** *** Instances on the sample objects *)

Lemma perpendicular_upper_nonzero : nonzero (direction [0; 0; 0]%R [1; 0; 0]%R).
Proof. apply Exists_cons_hd; lra. Qed.

Lemma perpendicular_lower_nonzero : nonzero (direction [0; 0; 0]%R [0; 1; 0]%R).
Proof. apply Exists_cons_tl, Exists_cons_hd; lra. Qed.

(** The perpendicular lines are at 90 degrees, and a line against its
    reverse at 180 degrees. *)
Example perpendicular_lines_90 :
  __calc_angle_between_lines perpendicular_lines =
    (Ok (Fin 90), perpendicular_lines).
Proof.
  rewrite (@calc_angle_between_lines_nonzero unit unit perpendicular_lines
             [0; 0; 0]%R [1; 0; 0]%R [0; 0; 0]%R [0; 1; 0]%R);
    try reflexivity;
    [ | repeat split
      | apply perpendicular_upper_nonzero
      | apply perpendicular_lower_nonzero ].
  rewrite angle_deg_orthogonal; [reflexivity |].
  unfold direction; cbn [map2 sum_prod]; ring.
Qed.

Example antiparallel_lines_180 :
  __calc_angle_between_lines
    (with_lines [0; 0; 0]%R [1; 0; 0]%R [0; 0; 0]%R [-1; 0; 0]%R) =
    (Ok (Fin 180),
     with_lines [0; 0; 0]%R [1; 0; 0]%R [0; 0; 0]%R [-1; 0; 0]%R).
Proof.
  assert (Hn1 : norm (direction [0; 0; 0]%R [1; 0; 0]%R) = 1%R).
  { unfold norm, direction; cbn [map2 sum_prod].
    replace ((1 - 0) * (1 - 0) + ((0 - 0) * (0 - 0) + ((0 - 0) * (0 - 0) + 0)))%R
      with 1%R by ring.
    apply sqrt_1. }
  assert (Hn2 : norm (direction [0; 0; 0]%R [-1; 0; 0]%R) = 1%R).
  { unfold norm, direction; cbn [map2 sum_prod].
    replace ((-1 - 0) * (-1 - 0) + ((0 - 0) * (0 - 0) + ((0 - 0) * (0 - 0) + 0)))%R
      with 1%R by ring.
    apply sqrt_1. }
  rewrite (@calc_angle_between_lines_nonzero unit unit _
             [0; 0; 0]%R [1; 0; 0]%R [0; 0; 0]%R [-1; 0; 0]%R);
    try reflexivity;
    [ | repeat split
      | apply perpendicular_upper_nonzero
      | apply Exists_cons_hd; lra ].
  rewrite angle_deg_opposite; [reflexivity | rewrite Hn1, Hn2; lra |].
  rewrite Hn1, Hn2. unfold direction; cbn [map2 sum_prod]; ring.
Qed.


Example crossing_lines_meet :
  midpoint (line_at [0; 0; 0]%R [2; 2; 0]%R (1 / 2))
           (line_at [0; 2; 0]%R [2; 0; 0]%R (1 / 2)) = [1; 1; 0]%R.
Proof.
  unfold midpoint, line_at, direction; cbn [map2 map].
  replace ((0 + 1 / 2 * (2 - 0) + (0 + 1 / 2 * (2 - 0))) / 2)%R with 1%R by field.
  replace ((0 + 1 / 2 * (2 - 0) + (2 + 1 / 2 * (0 - 2))) / 2)%R with 1%R by field.
  replace ((0 + 1 / 2 * (0 - 0) + (0 + 1 / 2 * (0 - 0))) / 2)%R with 0%R by field.
  reflexivity.
Qed.

Lemma set_bbox_tan_line_points_fixed_vertices_witness :
  __set_bbox_tan_line_points (with_boxes (Some upper_cube) (Some lower_cube)) =
    (Ok (Some ([0; 0; 2], [1; 0; 2], [0; 1; 1], [1; 1; 1])%R),
     with_tangents [0; 0; 2]%R [1; 0; 2]%R [0; 1; 1]%R [1; 1; 1]%R
       (with_boxes (Some upper_cube) (Some lower_cube)))
  /\ __set_bbox_tan_line_points (with_boxes (Some upper_square) (Some lower_square)) =
       (Ok (Some ([0; 2], [1; 2], [0; 1], [1; 1])%R),
        with_tangents [0; 2]%R [1; 2]%R [0; 1]%R [1; 1]%R
          (with_boxes (Some upper_square) (Some lower_square))).
Proof.
  split.
  - apply (proj1 (@set_bbox_tan_line_points_fixed_vertices unit unit
                    (with_boxes (Some upper_cube) (Some lower_cube))
                    upper_cube lower_cube eq_refl eq_refl));
      repeat split.
  - apply (proj2 (@set_bbox_tan_line_points_fixed_vertices unit unit
                    (with_boxes (Some upper_square) (Some lower_square))
                    upper_square lower_square eq_refl eq_refl));
      repeat split.
Defined.



(** The degenerate upper tangent of [degenerate_lines] is answered with
    [nan], not with an exception. *)
Lemma calc_angle_between_lines_degenerate_no_error :
  uv_p1 degenerate_lines = uv_p2 degenerate_lines
  /\ fst (__calc_angle_between_lines degenerate_lines) = Ok NaN
  /\ fst (__calc_angle_between_lines degenerate_lines) <> Raise GeometryException.
Proof.
  assert (Hrun : __calc_angle_between_lines degenerate_lines =
                   (Ok NaN, degenerate_lines)).
  { apply calc_angle_between_lines_degenerate
      with (p1 := [0; 0; 0]%R) (p2 := [0; 0; 0]%R)
           (q1 := [0; 0; 0]%R) (q2 := [1; 0; 0]%R);
      try reflexivity; [repeat split | now left]. }
  rewrite Hrun; repeat split; discriminate.
Qed.

Lemma calc_angle_between_lines_degenerate_returns_nan_witness :
  let d1 := direction [0; 0; 0]%R [0; 0; 0]%R in
  let d2 := direction [0; 0; 0]%R [1; 0; 0]%R in
  np_true_divide (sum_prod d1 d2) (norm d1 * norm d2) = NaN
  /\ __calc_angle_between_lines degenerate_lines = (Ok NaN, degenerate_lines)
  /\ fst (__calc_angle_between_lines degenerate_lines) <> Raise GeometryException.
Proof.
  intros d1 d2.
  apply (@calc_angle_between_lines_degenerate_returns_nan unit unit
           degenerate_lines [0; 0; 0]%R [0; 0; 0]%R [0; 0; 0]%R [1; 0; 0]%R);
    try reflexivity; [repeat split; reflexivity | left; reflexivity].
Defined.

(** A primitive that answers with twelve coordinates makes the
    extraction return normally with the box still unset. *)
Lemma calc_uv_bbox_vertices_malformed_no_error :
  malformed_primitive tt 1%Z = Ok [0; 0; 0;  1; 0; 0;  0; 1; 0;  1; 1; 0]%R
  /\ __calc_uv_bbox_vertices malformed_primitive fresh_calculator =
       (Ok tt, fresh_calculator)
  /\ uv_oriented_bbox_vertices fresh_calculator = None
  /\ fst (__calc_uv_bbox_vertices malformed_primitive fresh_calculator)
       <> Raise GeometryException.
Proof.
  repeat split; discriminate.
Qed.

Lemma calc_bbox_vertices_counts_witness :
  (box3d upper_cube
   /\ __calc_uv_bbox_vertices cube_primitive fresh_calculator =
        (Ok tt, set_uv_oriented_bbox_vertices (Some upper_cube) fresh_calculator))
  /\ (box3d lower_cube
      /\ __calc_lv_bbox_vertices cube_primitive fresh_calculator =
           (Ok tt, set_lv_oriented_bbox_vertices (Some lower_cube) fresh_calculator)).
Proof.
  pose proof (@calc_bbox_vertices_counts unit unit cube_primitive
                fresh_calculator (flat upper_cube) (flat lower_cube)
                eq_refl eq_refl) as [[Hu _] [Hl _]].
  split; [exact (Hu eq_refl) | exact (Hl eq_refl)].
Defined.

(** A solver that reports failure on the parallel lines is not answered
    with an exception: a point is stored all the same. *)
Lemma calc_intersection_stalled_no_error :
  OptimizeResult.success (OptimizeResult.mk [1; 1]%R (1 / 2) false) = false
  /\ stalled_solver
       (errFunc (Vec [0; 0; 0]%R) (Vec [1; 0; 0]%R) (Vec [0; 1; 0]%R) (Vec [1; 1; 0]%R))
       [1; 1]%R = Ok (OptimizeResult.mk [1; 1]%R (1 / 2) false)
  /\ fst (__calc_intersection stalled_solver parallel_lines) = Ok tt
  /\ fst (__calc_intersection stalled_solver parallel_lines) <> Raise GeometryException.
Proof.
  assert (Hrun : __calc_intersection stalled_solver parallel_lines =
                   (Ok tt,
                    set_intersection_point
                      (Some (midpoint (line_at [0; 0; 0]%R [1; 0; 0]%R 1)
                                      (line_at [0; 1; 0]%R [1; 1; 0]%R 1)))
                      parallel_lines)).
  { apply calc_intersection_3d
      with (sols := OptimizeResult.mk [1; 1]%R (1 / 2) false); reflexivity. }
  rewrite Hrun; repeat split; discriminate.
Qed.

Lemma calc_intersection_ignores_convergence_witness :
  __calc_intersection stalled_solver parallel_lines =
    (Ok tt,
     set_intersection_point
       (Some (midpoint (line_at [0; 0; 0]%R [1; 0; 0]%R 1)
                       (line_at [0; 1; 0]%R [1; 1; 0]%R 1)))
       parallel_lines)
  /\ fst (__calc_intersection stalled_solver parallel_lines) <> Raise GeometryException.
Proof.
  apply (@calc_intersection_ignores_convergence unit unit stalled_solver
           parallel_lines [0; 0; 0]%R [1; 0; 0]%R [0; 1; 0]%R [1; 1; 0]%R
           1%R 1%R (1 / 2)%R false);
    reflexivity.
Defined.

(** The crossing lines of the plane meet at (1, 1) for s = t = 1/2. *)
Lemma crossing_lines_2d_meet :
  line_at [0; 0]%R [2; 2]%R (1 / 2) = [1; 1]%R
  /\ line_at [0; 2]%R [2; 0]%R (1 / 2) = [1; 1]%R.
Proof.
  unfold line_at, direction; cbn [map2 map].
  split; (f_equal; [field | f_equal; field]).
Qed.

(** The whole pipeline on the 2-D image: boxes, tangents and angle are
    computed, and the run ends in the [IndexError] of the estimator. *)
Example execute_2d_raises :
  fst (execute square_primitive (fixed_solver [-1; -1]%R 0 true)
         fresh_calculator_2d) = Raise IndexError.
Proof.
  unfold execute.
  erewrite bind_ok
    by (apply calc_uv_bbox_vertices_run with (vs := flat tilted_square); reflexivity).
  erewrite bind_ok
    by (apply calc_lv_bbox_vertices_run with (vs := flat lower_square); reflexivity).
  erewrite bind_ok
    by (apply set_bbox_tan_line_points_2d with (uv := tilted_square) (lv := lower_square);
        try reflexivity; repeat split).
  erewrite bind_ok
    by (apply calc_angle_between_lines_nonzero
          with (p1 := [0; 2]%R) (p2 := [1; 3]%R) (q1 := [0; 1]%R) (q2 := [1; 1]%R);
        try reflexivity;
        [ repeat split
        | apply Exists_cons_hd; lra
        | apply Exists_cons_hd; lra ]).
  erewrite bind_ok by reflexivity.
  erewrite calc_intersection_2d
    with (p1 := [0; 2]%R) (p2 := [1; 3]%R) (q1 := [0; 1]%R) (q2 := [1; 1]%R)
         (s := (-1)%R) (t := (-1)%R);
    reflexivity.
Qed.

Lemma calc_intersection_2d_raises_witness :
  let solver := fixed_solver [1 / 2; 1 / 2]%R 0 true in
  __calc_intersection solver crossing_lines_2d = (Raise IndexError, crossing_lines_2d)
  /\ intersection_point (snd (__calc_intersection solver crossing_lines_2d)) =
       intersection_point crossing_lines_2d.
Proof.
  intros solver.
  apply (@calc_intersection_2d_raises unit unit solver crossing_lines_2d
           [0; 0]%R [2; 2]%R [0; 2]%R [2; 0]%R
           (OptimizeResult.mk [1 / 2; 1 / 2]%R 0 true) (1 / 2)%R (1 / 2)%R);
    reflexivity.
Defined.

(** An eight-vertex upper box over a four-vertex lower box is answered
    with [IndexError]. *)
Lemma set_bbox_tan_line_points_mismatch_index_error :
  box3d upper_cube /\ box2d lower_square
  /\ fst (__set_bbox_tan_line_points
            (with_boxes (Some upper_cube) (Some lower_square))) = Raise IndexError
  /\ fst (__set_bbox_tan_line_points
            (with_boxes (Some upper_cube) (Some lower_square)))
       <> Raise GeometryException.
Proof.
  assert (Hu : box3d upper_cube) by (repeat split).
  assert (Hl : box2d lower_square) by (repeat split).
  rewrite (@set_bbox_tan_line_points_3d_over_2d unit unit
             (with_boxes (Some upper_cube) (Some lower_square))
             upper_cube lower_square eq_refl eq_refl Hu Hl).
  repeat split; discriminate.
Qed.

Lemma set_bbox_tan_line_points_mismatch_witness :
  fst (__set_bbox_tan_line_points
         (with_boxes (Some upper_cube) (Some lower_square))) = Raise IndexError
  /\ fst (__set_bbox_tan_line_points
            (with_boxes (Some lower_square) (Some upper_cube))) =
       Ok (Some ([0; 0], [1; 0], [0; 1], [1; 1])%R)
  /\ fst (__set_bbox_tan_line_points (with_boxes None (Some lower_cube))) =
       Raise AttributeError
  /\ fst (__set_bbox_tan_line_points (with_boxes (Some upper_cube) None)) =
       Raise TypeError.
Proof.
  split; [| split; [| split]].
  - apply (proj1 (proj2 (@set_bbox_tan_line_points_mismatch unit unit
                           (with_boxes (Some upper_cube) (Some lower_square))))
             upper_cube lower_square);
      try reflexivity; repeat split.
  - apply (proj1 (proj2 (proj2 (@set_bbox_tan_line_points_mismatch unit unit
                           (with_boxes (Some lower_square) (Some upper_cube)))))
             lower_square upper_cube);
      try reflexivity; repeat split.
  - apply (proj1 (proj2 (proj2 (proj2 (@set_bbox_tan_line_points_mismatch unit unit
                           (with_boxes None (Some lower_cube)))))));
      reflexivity.
  - apply (proj1 (proj2 (proj2 (proj2 (proj2
             (@set_bbox_tan_line_points_mismatch unit unit
                (with_boxes (Some upper_cube) None))))))
             upper_cube);
      try reflexivity; left; repeat split.
Defined.

(** *** The pipeline [execute] as a whole *)

Section Pipeline.

Context {Image LabelMap : Type}.

Abbreviation obj := (@t Image LabelMap).

Variable GetOrientedBoundingBoxVertices : LabelMap -> Z -> result (list R).
Variable least_squares :
  (list R -> result nparray) -> list R -> result OptimizeResult.t.

Lemma vertex_length (a : ndarray) (i : nat) :
  length (flat a) = nrows a * ncols a -> i < nrows a ->
  length (vertex a i) = ncols a.
Proof.
  intros Hwf Hi. unfold vertex.
  rewrite length_firstn, length_skipn, Hwf. nia.
Qed.

Lemma box3d_vertex_length (a : ndarray) (i : nat) :
  box3d a -> i < 8 -> length (vertex a i) = 3.
Proof.
  intros (Hr & Hc & Hn) Hi.
  rewrite vertex_length; [exact Hc | rewrite Hn, Hr, Hc; reflexivity | lia].
Qed.


Lemma box3d_reshaped (vs : list R) : length vs = 24 -> box3d (mk_ndarray 8 3 vs).
Proof. intros H; repeat split; exact H. Qed.


(** The same run whatever the tangents are, degenerate or not. *)
Lemma execute_3d_any
    (self : obj) (uvs lvs : list R) (sols : OptimizeResult.t) (s t : R) :
  GetOrientedBoundingBoxVertices (label_map self) (uv_label_index self) = Ok uvs ->
  GetOrientedBoundingBoxVertices (label_map self) (lv_label_index self) = Ok lvs ->
  length uvs = 24 -> length lvs = 24 ->
  least_squares
    (errFunc (Vec (vertex (mk_ndarray 8 3 uvs) 0)) (Vec (vertex (mk_ndarray 8 3 uvs) 1))
             (Vec (vertex (mk_ndarray 8 3 lvs) 6)) (Vec (vertex (mk_ndarray 8 3 lvs) 7)))
    [1; 1]%R = Ok sols ->
  OptimizeResult.x sols = [s; t] ->
  let uv := mk_ndarray 8 3 uvs in
  let lv := mk_ndarray 8 3 lvs in
  let d1 := direction (vertex uv 0) (vertex uv 1) in
  let d2 := direction (vertex lv 6) (vertex lv 7) in
  execute GetOrientedBoundingBoxVertices least_squares self =
    (Ok tt,
     set_intersection_point
       (Some (midpoint (line_at (vertex uv 0) (vertex uv 1) s)
                       (line_at (vertex lv 6) (vertex lv 7) t)))
       (set_cobb_angle
          (PyFloat (np_degrees (np_arccos (np_clip
             (np_true_divide (sum_prod d1 d2) (norm d1 * norm d2)) (-1) 1))))
          (with_tangents (vertex uv 0) (vertex uv 1) (vertex lv 6) (vertex lv 7)
             (set_lv_oriented_bbox_vertices (Some lv)
                (set_uv_oriented_bbox_vertices (Some uv) self))))).
Proof.
  intros Hu Hl Lu Ll Hsolve Hx uv lv d1 d2.
  pose proof (box3d_reshaped uvs Lu) as Bu. pose proof (box3d_reshaped lvs Ll) as Bl.
  assert (L1 : length (vertex uv 0) = 3)
    by (apply box3d_vertex_length; [assumption | lia]).
  assert (L2 : length (vertex uv 1) = 3)
    by (apply box3d_vertex_length; [assumption | lia]).
  assert (L3 : length (vertex lv 6) = 3)
    by (apply box3d_vertex_length; [assumption | lia]).
  assert (L4 : length (vertex lv 7) = 3)
    by (apply box3d_vertex_length; [assumption | lia]).
  unfold execute.
  erewrite bind_ok by (apply calc_uv_bbox_vertices_run; exact Hu).
  rewrite Lu; cbn [Nat.eqb].
  erewrite bind_ok by (apply calc_lv_bbox_vertices_run; exact Hl).
  rewrite Ll; cbn [Nat.eqb].
  erewrite bind_ok
    by (apply set_bbox_tan_line_points_3d with (uv := uv) (lv := lv);
        try reflexivity; assumption).
  erewrite bind_ok
    by (apply calc_angle_between_lines_run
          with (p1 := vertex uv 0) (p2 := vertex uv 1)
               (q1 := vertex lv 6) (q2 := vertex lv 7);
        try reflexivity; repeat split; congruence).
  erewrite bind_ok by reflexivity.
  erewrite calc_intersection_3d
    with (p1 := vertex uv 0) (p2 := vertex uv 1)
         (q1 := vertex lv 6) (q2 := vertex lv 7);
    try reflexivity; eassumption.
Qed.

(** X1.  A complete 3-D run.  When the primitive answers with 24
    coordinates for both labels and the solver comes back with two
    parameters, [execute] raises nothing and leaves an object holding the
    two 8x3 boxes, the tangents (vertices 0, 1 of the upper and 6, 7 of
    the lower box), as Cobb angle the value the angle method returns on
    these tangents, and the midpoint estimate; the image, the label map,
    the two label indices and the dimension are as before. *)
Theorem execute_3d_complete
    (self : obj) (uvs lvs : list R) (sols : OptimizeResult.t) (s t : R) :
  GetOrientedBoundingBoxVertices (label_map self) (uv_label_index self) = Ok uvs ->
  GetOrientedBoundingBoxVertices (label_map self) (lv_label_index self) = Ok lvs ->
  length uvs = 24 -> length lvs = 24 ->
  least_squares
    (errFunc (Vec (vertex (mk_ndarray 8 3 uvs) 0)) (Vec (vertex (mk_ndarray 8 3 uvs) 1))
             (Vec (vertex (mk_ndarray 8 3 lvs) 6)) (Vec (vertex (mk_ndarray 8 3 lvs) 7)))
    [1; 1]%R = Ok sols ->
  OptimizeResult.x sols = [s; t] ->
  let uv := mk_ndarray 8 3 uvs in
  let lv := mk_ndarray 8 3 lvs in
  exists (self' : obj) (theta : npfloat),
    execute GetOrientedBoundingBoxVertices least_squares self = (Ok tt, self')
    /\ uv_oriented_bbox_vertices self' = Some uv
    /\ lv_oriented_bbox_vertices self' = Some lv
    /\ uv_p1 self' = Some (vertex uv 0) /\ uv_p2 self' = Some (vertex uv 1)
    /\ lv_p1 self' = Some (vertex lv 6) /\ lv_p2 self' = Some (vertex lv 7)
    /\ fst (__calc_angle_between_lines self') = Ok theta
    /\ cobb_angle self' = PyFloat theta
    /\ intersection_point self' =
         Some (midpoint (line_at (vertex uv 0) (vertex uv 1) s)
                        (line_at (vertex lv 6) (vertex lv 7) t))
    /\ image self' = image self /\ label_map self' = label_map self
    /\ uv_label_index self' = uv_label_index self
    /\ lv_label_index self' = lv_label_index self
    /\ dimension self' = dimension self.
Proof.
  intros Hu Hl Lu Ll Hsolve Hx uv lv.
  pose proof (execute_3d_any self Hu Hl Lu Ll Hsolve Hx) as Hrun.
  cbv zeta in Hrun. fold uv lv in Hrun.
  pose proof (box3d_reshaped uvs Lu) as Bu. pose proof (box3d_reshaped lvs Ll) as Bl.
  assert (Hdim : same_dim (vertex uv 0) (vertex uv 1) (vertex lv 6) (vertex lv 7))
    by (apply same_dim_3d; apply box3d_vertex_length; assumption || lia).
  do 2 eexists. split; [exact Hrun |].
  split; [reflexivity |]. split; [reflexivity |].
  split; [reflexivity |]. split; [reflexivity |].
  split; [reflexivity |]. split; [reflexivity |].
  split.
  - erewrite calc_angle_between_lines_run
      with (p1 := vertex uv 0) (p2 := vertex uv 1)
           (q1 := vertex lv 6) (q2 := vertex lv 7);
      try reflexivity; exact Hdim.
  - repeat (split; [reflexivity |]). reflexivity.
Qed.



(** What a failed lookup leaves behind. *)

Lemma execute_upper_lookup_fails (self : obj) (e : exn) :
  GetOrientedBoundingBoxVertices (label_map self) (uv_label_index self) = Raise e ->
  execute GetOrientedBoundingBoxVertices least_squares self = (Raise e, self).
Proof.
  intros Hu. unfold execute, __calc_uv_bbox_vertices, bind at 1 2, eval.
  rewrite Hu; reflexivity.
Qed.

Lemma execute_lower_lookup_fails (self : obj) (uvs : list R) (e : exn) :
  GetOrientedBoundingBoxVertices (label_map self) (uv_label_index self) = Ok uvs ->
  GetOrientedBoundingBoxVertices (label_map self) (lv_label_index self) = Raise e ->
  execute GetOrientedBoundingBoxVertices least_squares self =
    (Raise e,
     if length uvs =? 24 then
       set_uv_oriented_bbox_vertices (Some (mk_ndarray 8 3 uvs)) self
     else if length uvs =? 8 then
       set_uv_oriented_bbox_vertices (Some (mk_ndarray 4 2 uvs)) self
     else self).
Proof.
  intros Hu Hl. unfold execute.
  erewrite bind_ok by (apply calc_uv_bbox_vertices_run; exact Hu).
  unfold __calc_lv_bbox_vertices, bind at 1 2, eval.
  replace (GetOrientedBoundingBoxVertices _ _) with (@Raise (list R) e);
    [reflexivity |].
  rewrite <- Hl. destruct (length uvs =? 24); [| destruct (length uvs =? 8)];
    reflexivity.
Qed.

(** X3.  A failed lookup is passed on as it is.  When the primitive
    raises for the upper label, [execute] raises the same exception and
    the object is untouched.  When it raises for the lower label, the
    upper box has already been replaced, and that is the only change:
    the tangents, the angle and the intersection of an earlier run
    stay. *)
Theorem execute_lookup_fails (self : obj) (e : exn) :
  (GetOrientedBoundingBoxVertices (label_map self) (uv_label_index self) = Raise e ->
   execute GetOrientedBoundingBoxVertices least_squares self = (Raise e, self))
  /\
  (forall uvs,
     GetOrientedBoundingBoxVertices (label_map self) (uv_label_index self) = Ok uvs ->
     GetOrientedBoundingBoxVertices (label_map self) (lv_label_index self) = Raise e ->
     length uvs = 24 ->
     execute GetOrientedBoundingBoxVertices least_squares self =
       (Raise e, set_uv_oriented_bbox_vertices (Some (mk_ndarray 8 3 uvs)) self)).
Proof.
  split.
  - apply execute_upper_lookup_fails.
  - intros uvs Hu Hl Lu.
    rewrite (execute_lower_lookup_fails self Hu Hl), Lu; reflexivity.
Qed.

(** X4.  A malformed vertex count on an object whose upper box was never
    set: the extraction passes over it in silence and it is the
    selection that fails, with [AttributeError]; the angle and the
    intersection point are as they were. *)
Theorem execute_malformed_count (self : obj) (uvs lvs : list R) :
  uv_oriented_bbox_vertices self = None ->
  GetOrientedBoundingBoxVertices (label_map self) (uv_label_index self) = Ok uvs ->
  GetOrientedBoundingBoxVertices (label_map self) (lv_label_index self) = Ok lvs ->
  length uvs <> 24 -> length uvs <> 8 ->
  fst (execute GetOrientedBoundingBoxVertices least_squares self) = Raise AttributeError
  /\ cobb_angle (snd (execute GetOrientedBoundingBoxVertices least_squares self)) =
       cobb_angle self
  /\ intersection_point
       (snd (execute GetOrientedBoundingBoxVertices least_squares self)) =
       intersection_point self.
Proof.
  intros Hnone Hu Hl H24 H8.
  destruct (eqb_other_count H24 H8) as [E24 E8].
  assert (Hrun : exists self',
             execute GetOrientedBoundingBoxVertices least_squares self =
               (Raise AttributeError, self')
             /\ cobb_angle self' = cobb_angle self
             /\ intersection_point self' = intersection_point self).
  { unfold execute.
    erewrite bind_ok by (apply calc_uv_bbox_vertices_run; exact Hu).
    rewrite E24, E8.
    erewrite bind_ok by (apply calc_lv_bbox_vertices_run; exact Hl).
    unfold bind at 1.
    rewrite set_bbox_tan_line_points_upper_unset
      by (destruct (length lvs =? 24); [| destruct (length lvs =? 8)]; exact Hnone).
    eexists; split; [reflexivity |].
    destruct (length lvs =? 24); [| destruct (length lvs =? 8)];
      split; reflexivity. }
  destruct Hrun as (self' & -> & Hc & Hi). repeat split; assumption.
Qed.

(** X5.  A degenerate tangent does not stop the run.  On two 3-D boxes
    of which one has coinciding tangent vertices, [execute] raises
    nothing: it stores [nan] as the Cobb angle and goes on to store an
    intersection estimate. *)
Theorem execute_degenerate_stores_nan
    (self : obj) (uvs lvs : list R) (sols : OptimizeResult.t) (s t : R) :
  GetOrientedBoundingBoxVertices (label_map self) (uv_label_index self) = Ok uvs ->
  GetOrientedBoundingBoxVertices (label_map self) (lv_label_index self) = Ok lvs ->
  length uvs = 24 -> length lvs = 24 ->
  vertex (mk_ndarray 8 3 uvs) 0 = vertex (mk_ndarray 8 3 uvs) 1
  \/ vertex (mk_ndarray 8 3 lvs) 6 = vertex (mk_ndarray 8 3 lvs) 7 ->
  least_squares
    (errFunc (Vec (vertex (mk_ndarray 8 3 uvs) 0)) (Vec (vertex (mk_ndarray 8 3 uvs) 1))
             (Vec (vertex (mk_ndarray 8 3 lvs) 6)) (Vec (vertex (mk_ndarray 8 3 lvs) 7)))
    [1; 1]%R = Ok sols ->
  OptimizeResult.x sols = [s; t] ->
  execute GetOrientedBoundingBoxVertices least_squares self =
    (Ok tt, executed_degenerate uvs lvs s t self)
  /\ cobb_angle (executed_degenerate uvs lvs s t self) = PyFloat NaN.
Proof.
  intros Hu Hl Lu Ll Hdeg Hsolve Hx.
  split; [| reflexivity].
  pose proof (box3d_reshaped uvs Lu) as Bu. pose proof (box3d_reshaped lvs Ll) as Bl.
  assert (L1 : length (vertex (mk_ndarray 8 3 uvs) 0) = 3)
    by (apply box3d_vertex_length; [assumption | lia]).
  assert (L2 : length (vertex (mk_ndarray 8 3 uvs) 1) = 3)
    by (apply box3d_vertex_length; [assumption | lia]).
  assert (L3 : length (vertex (mk_ndarray 8 3 lvs) 6) = 3)
    by (apply box3d_vertex_length; [assumption | lia]).
  assert (L4 : length (vertex (mk_ndarray 8 3 lvs) 7) = 3)
    by (apply box3d_vertex_length; [assumption | lia]).
  unfold execute.
  erewrite bind_ok by (apply calc_uv_bbox_vertices_run; exact Hu).
  rewrite Lu; cbn [Nat.eqb].
  erewrite bind_ok by (apply calc_lv_bbox_vertices_run; exact Hl).
  rewrite Ll; cbn [Nat.eqb].
  erewrite bind_ok
    by (apply set_bbox_tan_line_points_3d
          with (uv := mk_ndarray 8 3 uvs) (lv := mk_ndarray 8 3 lvs);
        try reflexivity; assumption).
  erewrite bind_ok
    by (apply calc_angle_between_lines_degenerate
          with (p1 := vertex (mk_ndarray 8 3 uvs) 0) (p2 := vertex (mk_ndarray 8 3 uvs) 1)
               (q1 := vertex (mk_ndarray 8 3 lvs) 6) (q2 := vertex (mk_ndarray 8 3 lvs) 7);
        try reflexivity; try assumption; repeat split; congruence).
  erewrite bind_ok by reflexivity.
  erewrite calc_intersection_3d
    with (p1 := vertex (mk_ndarray 8 3 uvs) 0) (p2 := vertex (mk_ndarray 8 3 uvs) 1)
         (q1 := vertex (mk_ndarray 8 3 lvs) 6) (q2 := vertex (mk_ndarray 8 3 lvs) 7);
    try reflexivity; eassumption.
Qed.

(** [GeometryException] comes from no stage. *)

Lemma never_raises_lift (e : exn) (A : Type) (r : result A) :
  r <> Raise e -> never_raises e (@lift Image LabelMap A r).
Proof. intros H self; exact H. Qed.

Lemma never_raises_when (e : exn) (b : bool) (m : M unit) :
  never_raises e m -> never_raises e (@when Image LabelMap b m).
Proof. intros H; destruct b; [exact H | apply never_raises_ret]. Qed.

Lemma reshape_not_geometry (r c : nat) (vs : list R) :
  reshape r c vs <> Raise GeometryException.
Proof. unfold reshape; destruct (_ =? _); discriminate. Qed.

Lemma np_binop_not_geometry (f : R -> R -> R) (a b : nparray) :
  np_binop f a b <> Raise GeometryException.
Proof.
  destruct a as [| u], b as [| v]; cbn; try discriminate.
  unfold broadcast2.
  destruct (_ =? _); [discriminate |].
  destruct (_ =? _); [discriminate |].
  destruct (_ =? _); discriminate.
Qed.

Lemma np_dot_not_geometry (a b : nparray) : np_dot a b <> Raise GeometryException.
Proof.
  destruct a as [| u], b as [| v]; cbn; try discriminate.
  destruct (_ =? _); discriminate.
Qed.

Lemma np_linalg_norm_not_geometry (a : nparray) :
  np_linalg_norm a <> Raise GeometryException.
Proof. destruct a; discriminate. Qed.

Lemma unpack2_not_geometry (v : list R) : unpack2 v <> Raise GeometryException.
Proof. destruct v as [| s [| t [| ? ?]]]; discriminate. Qed.

Lemma np_getitem_cases (a : nparray) (k : nat) :
  (exists r, np_getitem a k = Ok r) \/ np_getitem a k = Raise IndexError.
Proof.
  destruct a as [| u]; cbn; [now right |].
  destruct (nth_error u k); [left; eauto | now right].
Qed.

Lemma param_coord_not_geometry (a b : nparray) (u : R) (k : nat) :
  param_coord a b u k <> Raise GeometryException.
Proof.
  unfold param_coord.
  destruct (np_getitem_cases a k) as [[r ->] | ->]; cbn; [| discriminate].
  destruct (np_getitem_cases b k) as [[r' ->] | ->]; cbn; discriminate.
Qed.

Ltac no_geometry_step :=
  first
    [ apply never_raises_ret
    | apply never_raises_assign
    | apply never_raises_when
    | apply never_raises_lift;
      first [ apply reshape_not_geometry | apply np_binop_not_geometry
            | apply np_dot_not_geometry | apply np_linalg_norm_not_geometry
            | apply unpack2_not_geometry | apply param_coord_not_geometry ]
    | apply never_raises_eval; intros; discriminate
    | apply never_raises_bind; [| intros ?] ].

Lemma calc_angle_between_lines_never_geometry :
  never_raises GeometryException (@__calc_angle_between_lines Image LabelMap).
Proof.
  unfold __calc_angle_between_lines, np_sub. repeat no_geometry_step.
Qed.

(** X6.  [execute] never raises [GeometryException] of its own: if
    neither the bounding-box primitive nor the solver raises it, no run
    of [execute] ends in it, whatever the object and whatever they
    answer. *)
Theorem execute_never_geometry_exception :
  (forall lm i, GetOrientedBoundingBoxVertices lm i <> Raise GeometryException) ->
  (forall f x0, least_squares f x0 <> Raise GeometryException) ->
  forall self : obj,
    fst (execute GetOrientedBoundingBoxVertices least_squares self)
      <> Raise GeometryException.
Proof.
  intros Hprim Hsolve.
  change (never_raises GeometryException
            (@execute Image LabelMap GetOrientedBoundingBoxVertices least_squares)).
  unfold execute.
  apply never_raises_bind; [| intros _].
  { unfold __calc_uv_bbox_vertices.
    apply never_raises_bind; [apply never_raises_eval; intros; apply Hprim |].
    intros vs. repeat no_geometry_step. }
  apply never_raises_bind; [| intros _].
  { unfold __calc_lv_bbox_vertices.
    apply never_raises_bind; [apply never_raises_eval; intros; apply Hprim |].
    intros vs. repeat no_geometry_step. }
  apply never_raises_bind; [apply set_bbox_tan_line_points_never_geometry | intros _].
  apply never_raises_bind; [apply calc_angle_between_lines_never_geometry | intros theta].
  apply never_raises_bind; [apply never_raises_assign | intros _].
  unfold __calc_intersection.
  do 4 (apply never_raises_bind;
        [apply never_raises_eval; intros; discriminate | intros ?]).
  apply never_raises_bind; [apply never_raises_lift, Hsolve | intros sols].
  apply never_raises_bind; [apply never_raises_lift, unpack2_not_geometry | intros [s t]].
  repeat no_geometry_step.
Qed.

End Pipeline.

(** *** The index accessors *)

Section Accessors.

Context {Image LabelMap : Type}.

Variable GetDimension : Image -> Z.
Variable TransformPhysicalPointToIndex : Image -> list R -> result (list Z).
Variable LabelMapTransformPhysicalPointToIndex :
  LabelMap -> list R -> result (list Z).

Ltac list_of_length H :=
  match type of H with
  | length ?l = _ =>
      repeat (destruct l as [| ? l];
              [ discriminate H | simpl in H; apply Nat.succ_inj in H ]);
      destruct l; [ | discriminate H ]
  end.

(** X7.  Before any [execute] the index accessors are not usable: on a
    newly constructed object [get_intersection_point_index],
    [get_angle_indices] and the two [get_*_oriented_bbox_indices] all
    raise [TypeError], while the vertex accessors return [None]. *)
Theorem index_accessors_before_execute
    (image : Image) (label_map : LabelMap) (uv_label_index lv_label_index : Z) :
  let fresh := __init__ GetDimension image label_map uv_label_index lv_label_index in
  get_intersection_point_index TransformPhysicalPointToIndex fresh =
    (Raise TypeError, fresh)
  /\ get_angle_indices TransformPhysicalPointToIndex fresh = (Raise TypeError, fresh)
  /\ get_uv_oriented_bbox_indices LabelMapTransformPhysicalPointToIndex fresh =
       (Raise TypeError, fresh)
  /\ get_lv_oriented_bbox_indices LabelMapTransformPhysicalPointToIndex fresh =
       (Raise TypeError, fresh)
  /\ get_uv_oriented_bbox_vertices fresh = (Ok None, fresh)
  /\ get_lv_oriented_bbox_vertices fresh = (Ok None, fresh).
Proof. intros fresh. repeat split. Qed.

Lemma index_of_point_3d (get : @t Image LabelMap -> option (list R))
    (self : @t Image LabelMap) (l : list R) :
  get self = Some l -> length l = 3 ->
  index_of_point TransformPhysicalPointToIndex get self =
    (TransformPhysicalPointToIndex (image self) l, self).
Proof.
  intros Hget Hlen. unfold index_of_point, bind, eval.
  rewrite Hget. list_of_length Hlen. reflexivity.
Qed.

Lemma index_of_point_2d (get : @t Image LabelMap -> option (list R))
    (self : @t Image LabelMap) (l : list R) :
  get self = Some l -> length l = 2 ->
  index_of_point TransformPhysicalPointToIndex get self = (Raise IndexError, self).
Proof.
  intros Hget Hlen. unfold index_of_point, bind, eval.
  rewrite Hget. list_of_length Hlen. reflexivity.
Qed.

(** X8.  [get_angle_indices] on 3-D points returns, in this order, the
    index of the first upper tangent point, of the intersection point
    and of the first lower tangent point, and leaves the object as it
    was; when the first upper tangent point has two coordinates only it
    raises [IndexError] before any transform is made. *)
Theorem get_angle_indices_triple
    (self : @t Image LabelMap) (a c b : list R) (ia ic ib : list Z) :
  uv_p1 self = Some a ->
  (length a = 2 ->
   get_angle_indices TransformPhysicalPointToIndex self = (Raise IndexError, self))
  /\
  (intersection_point self = Some c -> lv_p1 self = Some b ->
   length a = 3 -> length c = 3 -> length b = 3 ->
   TransformPhysicalPointToIndex (image self) a = Ok ia ->
   TransformPhysicalPointToIndex (image self) c = Ok ic ->
   TransformPhysicalPointToIndex (image self) b = Ok ib ->
   get_angle_indices TransformPhysicalPointToIndex self = (Ok (ia, ic, ib), self)).
Proof.
  intros Ha; split.
  - intros La. unfold get_angle_indices, bind at 1.
    now rewrite (index_of_point_2d uv_p1 self Ha La).
  - intros Hc Hb La Lc Lb Ta Tc Tb.
    unfold get_angle_indices, bind at 1.
    rewrite (index_of_point_3d uv_p1 self Ha La), Ta.
    unfold bind at 1.
    rewrite (index_of_point_3d intersection_point self Hc Lc), Tc.
    unfold bind at 1.
    rewrite (index_of_point_3d lv_p1 self Hb Lb), Tb.
    reflexivity.
Qed.

(** The loop of the two [get_*_oriented_bbox_indices]. *)

Lemma rows_of_S (row : nat -> list R) (n : nat) :
  rows_of row (S n) = rows_of row n ++ row n.
Proof.
  unfold rows_of. rewrite seq_S, map_app, concat_app; cbn.
  now rewrite app_nil_r.
Qed.

Lemma rows_of_length (row : nat -> list R) (c n : nat) :
  (forall i, i < n -> length (row i) = c) -> length (rows_of row n) = n * c.
Proof.
  induction n as [| n IH]; intros Hrow; [reflexivity |].
  rewrite rows_of_S, length_app, IH by (intros; apply Hrow; lia).
  rewrite Hrow by lia. lia.
Qed.

Lemma skipn_repeat (x : R) (c r : nat) :
  skipn c (repeat x (c + r)) = repeat x r.
Proof. induction c as [| c IH]; [reflexivity | exact IH]. Qed.

Lemma vertex_rows_of (row : nat -> list R) (c n i : nat) :
  (forall j, j < n -> length (row j) = c) -> i < n ->
  firstn c (skipn (i * c) (rows_of row n)) = row i.
Proof.
  induction n as [| n IH]; intros Hrow Hi; [lia |].
  assert (Hlen : length (rows_of row n) = n * c)
    by (apply rows_of_length; intros; apply Hrow; lia).
  rewrite rows_of_S, skipn_app, Hlen.
  destruct (Nat.eq_dec i n) as [-> | Hne].
  - rewrite skipn_all2 by lia. rewrite Nat.sub_diag; cbn [skipn app].
    apply firstn_all2. rewrite Hrow; lia.
  - assert (Hlt : i < n) by lia.
    replace (i * c - n * c) with 0 by nia. cbn [skipn].
    rewrite firstn_app, length_skipn, Hlen.
    replace (c - (n * c - i * c)) with 0 by nia. cbn [firstn].
    rewrite app_nil_r. apply IH; [intros; apply Hrow; lia | exact Hlt].
Qed.

Lemma bbox_indices_loop_rows (lm : LabelMap) (box : ndarray) (idx : nat -> list Z) :
  (forall i, i < nrows box ->
     LabelMapTransformPhysicalPointToIndex lm (vertex box i) = Ok (idx i)
     /\ length (idx i) = ncols box) ->
  forall m k, k + m = nrows box ->
    bbox_indices_loop LabelMapTransformPhysicalPointToIndex lm box (seq k m)
      (mk_ndarray (nrows box) (ncols box)
         (rows_of (fun i => map IZR (idx i)) k ++ repeat 0%R (m * ncols box))) =
    Ok (mk_ndarray (nrows box) (ncols box)
          (rows_of (fun i => map IZR (idx i)) (nrows box))).
Proof.
  intros Hidx. set (row := fun i => map IZR (idx i)).
  assert (Hrow : forall i, i < nrows box -> length (row i) = ncols box)
    by (intros i Hi; unfold row; rewrite length_map; apply Hidx, Hi).
  induction m as [| m IH]; intros k Hk.
  - cbn. rewrite app_nil_r. replace k with (nrows box) by lia. reflexivity.
  - assert (Hlt : k < nrows box) by lia.
    assert (Hlen : length (rows_of row k) = k * ncols box)
      by (apply rows_of_length; intros; apply Hrow; lia).
    cbn [seq bbox_indices_loop].
    destruct (Hidx k Hlt) as [-> Hl]; cbn [result_bind].
    unfold setrow; cbn [nrows ncols flat].
    apply Nat.ltb_lt in Hlt as ->.
    rewrite length_map, Hl, Nat.eqb_refl; cbn [result_bind].
    rewrite firstn_app, Hlen, Nat.sub_diag, firstn_all2 by lia.
    cbn [firstn]. rewrite app_nil_r.
    rewrite skipn_app, Hlen, skipn_all2 by lia.
    replace ((k + 1) * ncols box - k * ncols box) with (ncols box) by lia.
    replace (S m * ncols box) with (ncols box + m * ncols box) by lia.
    rewrite skipn_repeat; cbn [app].
    rewrite app_assoc. fold (row k). rewrite <- rows_of_S.
    apply IH. lia.
Qed.

Lemma bbox_indices_rows (lm : LabelMap) (box : ndarray) (idx : nat -> list Z) :
  (forall i, i < nrows box ->
     LabelMapTransformPhysicalPointToIndex lm (vertex box i) = Ok (idx i)
     /\ length (idx i) = ncols box) ->
  bbox_indices LabelMapTransformPhysicalPointToIndex lm (Some box) =
    Ok (mk_ndarray (nrows box) (ncols box)
          (rows_of (fun i => map IZR (idx i)) (nrows box))).
Proof.
  intros Hidx. unfold bbox_indices, zeros_like.
  apply bbox_indices_loop_rows with (m := nrows box) (k := 0); [exact Hidx | lia].
Qed.

(** X9.  [get_uv_oriented_bbox_indices] and
    [get_lv_oriented_bbox_indices] map the stored box vertex by vertex:
    when the label map's transform answers every vertex with an index of
    as many entries as the vertex has coordinates, the table returned has
    the shape of the box and its row [i] is the index of vertex [i]; the
    object is left as it was. *)
Theorem get_oriented_bbox_indices_rows
    (self : @t Image LabelMap) (box : ndarray) (idx : nat -> list Z) :
  (forall i, i < nrows box ->
     LabelMapTransformPhysicalPointToIndex (label_map self) (vertex box i) = Ok (idx i)
     /\ length (idx i) = ncols box) ->
  let out := mk_ndarray (nrows box) (ncols box)
               (rows_of (fun i => map IZR (idx i)) (nrows box)) in
  (uv_oriented_bbox_vertices self = Some box ->
   get_uv_oriented_bbox_indices LabelMapTransformPhysicalPointToIndex self =
     (Ok out, self))
  /\ (lv_oriented_bbox_vertices self = Some box ->
      get_lv_oriented_bbox_indices LabelMapTransformPhysicalPointToIndex self =
        (Ok out, self))
  /\ forall i, i < nrows box -> vertex out i = map IZR (idx i).
Proof.
  intros Hidx out. split; [| split].
  - intros Hbox. unfold get_uv_oriented_bbox_indices, eval.
    rewrite Hbox, bbox_indices_rows with (idx := idx) by exact Hidx. reflexivity.
  - intros Hbox. unfold get_lv_oriented_bbox_indices, eval.
    rewrite Hbox, bbox_indices_rows with (idx := idx) by exact Hidx. reflexivity.
  - intros i Hi. unfold vertex, out; cbn [ncols flat].
    apply vertex_rows_of with (n := nrows box); [| exact Hi].
    intros j Hj. rewrite length_map. apply Hidx, Hj.
Qed.

End Accessors.

(** *** Instances of the pipeline properties on the sample objects *)


Lemma cube_primitive_no_geometry (lm : unit) (i : Z) :
  cube_primitive lm i <> Raise GeometryException.
Proof.
  unfold cube_primitive.
  destruct (i =? 1)%Z; [discriminate |]. destruct (i =? 2)%Z; discriminate.
Qed.

Lemma execute_3d_complete_witness :
  exists (self' : @t unit unit) (theta : npfloat),
    execute cube_primitive (fixed_solver [1; 1]%R 1 true) fresh_calculator = (Ok tt, self')
    /\ uv_oriented_bbox_vertices self' = Some upper_cube
    /\ lv_oriented_bbox_vertices self' = Some lower_cube
    /\ uv_p1 self' = Some (vertex upper_cube 0) /\ uv_p2 self' = Some (vertex upper_cube 1)
    /\ lv_p1 self' = Some (vertex lower_cube 6) /\ lv_p2 self' = Some (vertex lower_cube 7)
    /\ fst (__calc_angle_between_lines self') = Ok theta
    /\ cobb_angle self' = PyFloat theta
    /\ intersection_point self' =
         Some (midpoint (line_at (vertex upper_cube 0) (vertex upper_cube 1) 1)
                        (line_at (vertex lower_cube 6) (vertex lower_cube 7) 1))
    /\ image self' = image fresh_calculator
    /\ label_map self' = label_map fresh_calculator
    /\ uv_label_index self' = uv_label_index fresh_calculator
    /\ lv_label_index self' = lv_label_index fresh_calculator
    /\ dimension self' = dimension fresh_calculator.
Proof.
  apply (@execute_3d_complete unit unit cube_primitive (fixed_solver [1; 1]%R 1 true)
           fresh_calculator (flat upper_cube) (flat lower_cube)
           (OptimizeResult.mk [1; 1]%R 1 true) 1%R 1%R);
    reflexivity.
Defined.


Lemma execute_lookup_fails_witness :
  execute failing_primitive (fixed_solver [1; 1]%R 1 true) fresh_calculator =
    (Raise RuntimeError, fresh_calculator)
  /\ execute upper_only_primitive (fixed_solver [1; 1]%R 1 true) fresh_calculator =
       (Raise RuntimeError,
        set_uv_oriented_bbox_vertices (Some upper_cube) fresh_calculator).
Proof.
  split.
  - apply (proj1 (@execute_lookup_fails unit unit failing_primitive
                    (fixed_solver [1; 1]%R 1 true) fresh_calculator RuntimeError)).
    reflexivity.
  - apply (proj2 (@execute_lookup_fails unit unit upper_only_primitive
                    (fixed_solver [1; 1]%R 1 true) fresh_calculator RuntimeError)
             (flat upper_cube));
      reflexivity.
Defined.

Lemma execute_malformed_count_witness :
  fst (execute malformed_primitive (fixed_solver [1; 1]%R 1 true) fresh_calculator) =
    Raise AttributeError
  /\ cobb_angle
       (snd (execute malformed_primitive (fixed_solver [1; 1]%R 1 true)
               fresh_calculator)) = cobb_angle fresh_calculator
  /\ intersection_point
       (snd (execute malformed_primitive (fixed_solver [1; 1]%R 1 true)
               fresh_calculator)) = intersection_point fresh_calculator.
Proof.
  apply (@execute_malformed_count unit unit malformed_primitive
           (fixed_solver [1; 1]%R 1 true) fresh_calculator
           [0; 0; 0;  1; 0; 0;  0; 1; 0;  1; 1; 0]%R
           [0; 0; 0;  1; 0; 0;  0; 1; 0;  1; 1; 0]%R);
    try reflexivity; cbn; lia.
Defined.

Lemma execute_degenerate_stores_nan_witness :
  execute collapsed_primitive (fixed_solver [1; 1]%R 1 true) fresh_calculator =
    (Ok tt,
     executed_degenerate (repeat 0%R 24) (flat lower_cube) 1 1 fresh_calculator)
  /\ cobb_angle
       (executed_degenerate (repeat 0%R 24) (flat lower_cube) 1 1 fresh_calculator) =
       PyFloat NaN.
Proof.
  apply (@execute_degenerate_stores_nan unit unit collapsed_primitive
           (fixed_solver [1; 1]%R 1 true) fresh_calculator
           (repeat 0%R 24) (flat lower_cube)
           (OptimizeResult.mk [1; 1]%R 1 true) 1%R 1%R);
    try reflexivity.
  left; reflexivity.
Defined.

Lemma execute_never_geometry_exception_witness :
  fst (execute cube_primitive (fixed_solver [1; 1]%R 1 true) fresh_calculator)
    <> Raise GeometryException.
Proof.
  apply (@execute_never_geometry_exception unit unit cube_primitive
           (fixed_solver [1; 1]%R 1 true)).
  - apply cube_primitive_no_geometry.
  - intros f x0; discriminate.
Defined.

Lemma get_angle_indices_triple_witness :
  get_angle_indices voxel_index crossing_lines_2d = (Raise IndexError, crossing_lines_2d)
  /\ get_angle_indices voxel_index executed_cubes =
       (Ok (map nearest_voxel [0; 0; 2]%R,
            map nearest_voxel (midpoint (line_at [0; 0; 2]%R [1; 0; 2]%R 1)
                                 (line_at [0; 1; 1]%R [1; 1; 1]%R 1)),
            map nearest_voxel [0; 1; 1]%R),
        executed_cubes).
Proof.
  split.
  - apply (proj1 (@get_angle_indices_triple unit unit voxel_index crossing_lines_2d
                    [0; 0]%R [] [] [] [] [] eq_refl)).
    reflexivity.
  - apply (proj2 (@get_angle_indices_triple unit unit voxel_index executed_cubes
                    [0; 0; 2]%R
                    (midpoint (line_at [0; 0; 2]%R [1; 0; 2]%R 1)
                              (line_at [0; 1; 1]%R [1; 1; 1]%R 1))
                    [0; 1; 1]%R _ _ _ eq_refl));
      reflexivity.
Defined.

Lemma get_oriented_bbox_indices_rows_witness :
  get_uv_oriented_bbox_indices voxel_index
    (with_boxes (Some upper_cube) (Some lower_cube)) =
    (Ok (mk_ndarray 8 3
           (rows_of (fun i => map IZR (map nearest_voxel (vertex upper_cube i))) 8)),
     with_boxes (Some upper_cube) (Some lower_cube)).
Proof.
  refine (proj1 (@get_oriented_bbox_indices_rows unit unit voxel_index
                   (with_boxes (Some upper_cube) (Some lower_cube)) upper_cube
                   (fun i => map nearest_voxel (vertex upper_cube i)) _) eq_refl).
  intros i Hi; split; [reflexivity |].
  rewrite length_map. apply vertex_length; [reflexivity | exact Hi].
Defined.

End CobbAngleCalculator.

(** * Properties of [lsseg/segmentation.py] *)

Module SubImageManager2DFacts.

Import String.
Import Py.
Import SubImageManager2D.

Local Open Scope Z_scope.

Section Window.

Context {Image : Type}.

Variable GetSize : Image -> list Z.
Variable RegionOfInterest : Image -> list Z -> list Z -> outcome Image.

(** The run of [calculate_indices] on an image of at least two
    dimensions. *)
Lemma calculate_indices_run (self : @t Image) (W H : Z) (rest : list Z) :
  GetSize (image self) = W :: H :: rest ->
  calculate_indices GetSize self =
    (Returns tt,
     let sc := Z.max 0 (Z.min (centre_col self - width self / 2) (W - 1)) in
     let sr := Z.max 0 (Z.min (centre_row self - height self / 2) (H - 1)) in
     mk (image self) (centre_col self) (centre_row self) (width self) (height self)
        sc sr (Z.min (sc + width self) W) (Z.min (sr + height self) H),
     []).
Proof.
  intros Hsize. destruct self.
  unfold calculate_indices, bind, assign, eval; cbn in *.
  rewrite Hsize. reflexivity.
Qed.

(** X10.  The window is always inside the image.  On an image of
    [W] columns and [H] rows and for a non-negative width and height,
    [calculate_indices] raises nothing, keeps the image, the centre and
    the requested size, and leaves [0 <= start <= end <= W] (and [H] for
    the rows), with a window no larger than requested, wherever the
    centre lies. *)
Theorem calculate_indices_window (self : @t Image) (W H : Z) (rest : list Z) :
  GetSize (image self) = W :: H :: rest ->
  0 <= W -> 0 <= H -> 0 <= width self -> 0 <= height self ->
  exists self',
    calculate_indices GetSize self = (Returns tt, self', [])
    /\ image self' = image self
    /\ centre_col self' = centre_col self /\ centre_row self' = centre_row self
    /\ width self' = width self /\ height self' = height self
    /\ 0 <= start_col self' <= end_col self' /\ end_col self' <= W
    /\ 0 <= start_row self' <= end_row self' /\ end_row self' <= H
    /\ end_col self' - start_col self' <= width self
    /\ end_row self' - start_row self' <= height self.
Proof.
  intros Hsize HW HH Hw Hh.
  rewrite (calculate_indices_run self Hsize).
  eexists; split; [reflexivity |]; cbn.
  repeat split; lia.
Qed.

(** X11.  The window is never empty.  As soon as the image has a pixel
    and the requested width and height are at least one, the window
    holds at least one column and one row, even for a centre far
    outside the image: it is then pushed against the border. *)
Theorem calculate_indices_nonempty (self : @t Image) (W H : Z) (rest : list Z) :
  GetSize (image self) = W :: H :: rest ->
  1 <= W -> 1 <= H -> 1 <= width self -> 1 <= height self ->
  exists self',
    calculate_indices GetSize self = (Returns tt, self', [])
    /\ start_col self' < end_col self'
    /\ start_row self' < end_row self'
    /\ (W <= centre_col self - width self / 2 ->
        start_col self' = W - 1 /\ end_col self' = W)
    /\ (centre_col self - width self / 2 <= 0 ->
        start_col self' = 0 /\ end_col self' = Z.min (width self) W).
Proof.
  intros Hsize HW HH Hw Hh.
  rewrite (calculate_indices_run self Hsize).
  eexists; split; [reflexivity |]; cbn.
  repeat split; lia.
Qed.

(** X12.  A window that fits is taken as asked.  When the window of the
    requested size around the centre lies inside the image, its first
    column is [centre_col - width // 2], it has exactly the requested
    width, and likewise for the rows. *)
Theorem calculate_indices_exact (self : @t Image) (W H : Z) (rest : list Z) :
  GetSize (image self) = W :: H :: rest ->
  1 <= width self -> 1 <= height self ->
  0 <= centre_col self - width self / 2 ->
  centre_col self - width self / 2 + width self <= W ->
  0 <= centre_row self - height self / 2 ->
  centre_row self - height self / 2 + height self <= H ->
  exists self',
    calculate_indices GetSize self = (Returns tt, self', [])
    /\ start_col self' = centre_col self - width self / 2
    /\ end_col self' = start_col self' + width self
    /\ start_row self' = centre_row self - height self / 2
    /\ end_row self' = start_row self' + height self.
Proof.
  intros Hsize Hw Hh Hc0 Hc1 Hr0 Hr1.
  rewrite (calculate_indices_run self Hsize).
  eexists; split; [reflexivity |]; cbn.
  repeat split; lia.
Qed.

(** [extract_roi] by cases on what [sitk.RegionOfInterest] does. *)
Lemma extract_roi_run (self : @t Image) :
  extract_roi RegionOfInterest self =
    match RegionOfInterest (image self)
            [end_col self - start_col self; end_row self - start_row self]
            [start_col self; start_row self] with
    | Returns roi => (Returns roi, self, [])
    | Raises e =>
        (Raises (SubImageManager2DException (str e)), self,
         [append "[SubImageManager2D::Execution Exception] " (str e)])
    end.
Proof.
  unfold extract_roi, try_except, eval.
  destruct (RegionOfInterest _ _ _); reflexivity.
Qed.

(** X13.  [extract_roi] on a newly constructed manager.  For an image of
    [W] columns and [H] rows and a non-negative width and height, the
    constructor succeeds and [extract_roi] asks
    [sitk.RegionOfInterest] for a region that lies inside the image
    (non-negative index and size, index plus size within the image
    size).  What the primitive returns is returned; whatever it raises
    comes out as [SubImageManager2DException] with the same message,
    after one line on the console; the manager is not changed. *)
Theorem extract_roi_after_init
    (img : Image) (centre_col centre_row width height W H : Z) (rest : list Z) :
  GetSize img = W :: H :: rest ->
  0 <= W -> 0 <= H -> 0 <= width -> 0 <= height ->
  exists (self : @t Image) (ic ir sw sh : Z),
    __init__ GetSize img centre_col centre_row width height = (Returns self, [])
    /\ 0 <= ic /\ 0 <= ir /\ 0 <= sw /\ 0 <= sh
    /\ ic + sw <= W /\ ir + sh <= H
    /\ extract_roi RegionOfInterest self =
         match RegionOfInterest img [sw; sh] [ic; ir] with
         | Returns roi => (Returns roi, self, [])
         | Raises e =>
             (Raises (SubImageManager2DException (str e)), self,
              [append "[SubImageManager2D::Execution Exception] " (str e)])
         end.
Proof.
  intros Hsize HW HH Hw Hh.
  unfold __init__.
  rewrite (@calculate_indices_run (mk img centre_col centre_row width height 0 0 0 0)
             W H rest Hsize).
  cbn [image SubImageManager2D.centre_col SubImageManager2D.centre_row
       SubImageManager2D.width SubImageManager2D.height].
  set (ic := Z.max 0 (Z.min (centre_col - width / 2) (W - 1))).
  set (ir := Z.max 0 (Z.min (centre_row - height / 2) (H - 1))).
  eexists. exists ic, ir, (Z.min (ic + width) W - ic), (Z.min (ir + height) H - ir).
  split; [reflexivity |].
  rewrite extract_roi_run; cbn [image start_col start_row end_col end_row].
  split; [lia |]. split; [lia |]. split; [lia |]. split; [lia |].
  split; [lia |]. split; [lia |]. reflexivity.
Qed.

End Window.

(** *** [get_empty_image_with] *)

Section Paste.

Context {Image Pixel : Type}.

Variable GetSize : Image -> list Z.
Variable GetPixelIDValue : Image -> Z.
Variable GetOrigin : Image -> list R.
Variable GetSpacing : Image -> list R.
Variable GetDirection : Image -> list R.
Variable NewImage : list Z -> Z -> Image.
Variable SetOrigin : Image -> list R -> outcome Image.
Variable SetSpacing : Image -> list R -> outcome Image.
Variable SetDirection : Image -> list R -> outcome Image.
Variable SetPixel : Image -> Z -> Z -> Pixel -> outcome Image.
Variable GetPixel : Image -> Z -> Z -> outcome Pixel.
Variable Cast : Image -> Z -> outcome Image.
Variable sitkUInt8 : Z.

Lemma in_range (lo hi x : Z) : In x (range lo hi) <-> lo <= x < hi.
Proof.
  unfold range; rewrite in_map_iff; split.
  - intros (k & <- & Hk). apply in_seq in Hk. lia.
  - intros Hx. exists (Z.to_nat (x - lo)); split; [lia |].
    apply in_seq. lia.
Qed.

Lemma range_empty (lo hi : Z) : hi <= lo -> range lo hi = [].
Proof.
  intros H. unfold range. replace (Z.to_nat (hi - lo)) with 0%nat by lia.
  reflexivity.
Qed.

Lemma for_each_nothing (A : Type) (xs : list A) (img : Image) :
  for_each xs (fun _ out => for_each (@nil Z) (fun _ out' => Returns out') out) img =
    Returns img.
Proof. induction xs as [| x xs IH]; [reflexivity | exact IH]. Qed.

(** X14.  An empty window reads nothing.  When the window has no row
    or no column, the loops of [get_empty_image_with] never touch the
    region of interest: whatever [roi] is, the image handed to
    [sitk.Cast] is the blank copy. *)
Theorem get_empty_image_with_empty_window (self : @t Image) (roi blank : Image) :
  end_row self <= start_row self \/ end_col self <= start_col self ->
  blank_like GetSize GetPixelIDValue GetOrigin GetSpacing GetDirection NewImage
             SetOrigin SetSpacing SetDirection (image self) = Returns blank ->
  paste_roi SetPixel GetPixel roi self blank = Returns blank
  /\ get_empty_image_with GetSize GetPixelIDValue GetOrigin GetSpacing GetDirection
       NewImage SetOrigin SetSpacing SetDirection SetPixel GetPixel Cast sitkUInt8
       roi self = (Cast blank sitkUInt8, self, []).
Proof.
  intros Hempty Hblank.
  assert (Hpaste : paste_roi SetPixel GetPixel roi self blank = Returns blank).
  { unfold paste_roi. destruct Hempty as [Hrows | Hcols].
    - now rewrite (@range_empty (start_row self) (end_row self) Hrows).
    - rewrite (@range_empty (start_col self) (end_col self) Hcols).
      generalize (range (start_row self) (end_row self)); intros rows.
      induction rows as [| r rows IH]; [reflexivity | exact IH]. }
  split; [exact Hpaste |].
  unfold get_empty_image_with, eval.
  rewrite Hblank; cbn [outcome_bind]. rewrite Hpaste; reflexivity.
Qed.

(** [SetPixel] and [GetPixel] behave as writes and reads of an array of
    [W] columns and [H] rows. *)
Hypothesis SetPixel_array :
  forall img W H c r v,
    GetSize img = [W; H] -> 0 <= c < W -> 0 <= r < H ->
    exists img',
      SetPixel img c r v = Returns img'
      /\ GetSize img' = [W; H]
      /\ GetPixel img' c r = Returns v
      /\ forall c' r', c' <> c \/ r' <> r -> GetPixel img' c' r' = GetPixel img c' r'.

Section Loops.

Variable roi : Image.
Variable rv : Z -> Z -> Pixel.
Variables W H sc sr : Z.

(** One row of the paste, over any list of columns. *)
Lemma paste_row (r : Z) (cs : list Z) :
  0 <= r < H ->
  (forall c, In c cs ->
     0 <= c < W /\ GetPixel roi (c - sc) (r - sr) = Returns (rv (c - sc) (r - sr))) ->
  forall img, GetSize img = [W; H] ->
  exists img',
    for_each cs
      (fun col out' =>
         outcome_bind (GetPixel roi (col - sc) (r - sr))
           (fun value => SetPixel out' col r value)) img = Returns img'
    /\ GetSize img' = [W; H]
    /\ (forall c, In c cs -> GetPixel img' c r = Returns (rv (c - sc) (r - sr)))
    /\ (forall c' r', ~ (In c' cs /\ r' = r) -> GetPixel img' c' r' = GetPixel img c' r').
Proof.
  intros Hr. induction cs as [| c cs IH]; intros Hcs img Hsize.
  - exists img; repeat split; auto. intros c [].
  - destruct (Hcs c (or_introl eq_refl)) as [Hc Hread].
    destruct (@SetPixel_array img W H c r (rv (c - sc) (r - sr)) Hsize Hc Hr)
      as (img1 & Hset & Hsize1 & Hget1 & Hframe1).
    destruct (IH (fun c0 Hin => Hcs c0 (or_intror Hin)) img1 Hsize1)
      as (img' & Hrun & Hsize' & Hin' & Hframe').
    exists img'. cbn [for_each]. rewrite Hread; cbn [outcome_bind].
    rewrite Hset; cbn [outcome_bind].
    split; [exact Hrun |]. split; [exact Hsize' |]. split.
    + intros c0 Hc0.
      destruct (in_dec Z.eq_dec c0 cs) as [Hin | Hnin]; [now apply Hin' |].
      destruct Hc0 as [<- | Hin]; [| contradiction].
      rewrite Hframe' by (intros [Hin _]; contradiction). exact Hget1.
    + intros c' r' Hout.
      rewrite Hframe' by (intros [Hin Heq]; apply Hout; split; [now right | exact Heq]).
      apply Hframe1.
      destruct (Z.eq_dec r' r) as [-> | Hne]; [| now right].
      left; intros ->. apply Hout; split; [now left | reflexivity].
Qed.

(** All the rows, over any lists of rows and of columns. *)
Lemma paste_rows (cs rs : list Z) :
  (forall c r, In c cs -> In r rs ->
     0 <= c < W /\ 0 <= r < H
     /\ GetPixel roi (c - sc) (r - sr) = Returns (rv (c - sc) (r - sr))) ->
  (forall r, In r rs -> 0 <= r < H) ->
  forall img, GetSize img = [W; H] ->
  exists img',
    for_each rs
      (fun row out =>
         for_each cs
           (fun col out' =>
              outcome_bind (GetPixel roi (col - sc) (row - sr))
                (fun value => SetPixel out' col row value)) out) img = Returns img'
    /\ GetSize img' = [W; H]
    /\ (forall c r, In c cs -> In r rs ->
          GetPixel img' c r = Returns (rv (c - sc) (r - sr)))
    /\ (forall c' r', ~ (In c' cs /\ In r' rs) ->
          GetPixel img' c' r' = GetPixel img c' r').
Proof.
  induction rs as [| r rs IH]; intros Hall Hrs img Hsize.
  - exists img; repeat split; auto.
    + intros c r _ [].
  - destruct (@paste_row r cs (Hrs r (or_introl eq_refl))
                (fun c Hc =>
                   let H := Hall c r Hc (or_introl eq_refl) in
                   conj (proj1 H) (proj2 (proj2 H))) img Hsize)
      as (img1 & Hrow & Hsize1 & Hin1 & Hframe1).
    destruct (IH (fun c r0 Hc Hr0 => Hall c r0 Hc (or_intror Hr0))
                 (fun r0 Hr0 => Hrs r0 (or_intror Hr0)) img1 Hsize1)
      as (img' & Hrun & Hsize' & Hin' & Hframe').
    exists img'. cbn [for_each]. rewrite Hrow; cbn [outcome_bind].
    split; [exact Hrun |]. split; [exact Hsize' |]. split.
    + intros c r0 Hc Hr0.
      destruct (in_dec Z.eq_dec r0 rs) as [Hin | Hnin]; [now apply Hin' |].
      destruct Hr0 as [<- | Hin]; [| contradiction].
      rewrite Hframe' by (intros [_ Hin]; contradiction). now apply Hin1.
    + intros c' r' Hout.
      rewrite Hframe' by (intros [Hc Hr']; apply Hout; split; [exact Hc | now right]).
      apply Hframe1. intros [Hc ->]. apply Hout; split; [exact Hc | now left].
Qed.

End Loops.

(** The paste, pixel by pixel. *)
Lemma get_empty_image_with_pastes_run
    (self : @t Image) (roi blank : Image) (W H : Z) (rv : Z -> Z -> Pixel) :
  blank_like GetSize GetPixelIDValue GetOrigin GetSpacing GetDirection NewImage
             SetOrigin SetSpacing SetDirection (image self) = Returns blank ->
  GetSize blank = [W; H] ->
  0 <= start_col self -> end_col self <= W ->
  0 <= start_row self -> end_row self <= H ->
  (forall x y,
     0 <= x < end_col self - start_col self ->
     0 <= y < end_row self - start_row self ->
     GetPixel roi x y = Returns (rv x y)) ->
  exists out,
    paste_roi SetPixel GetPixel roi self blank = Returns out
    /\ get_empty_image_with GetSize GetPixelIDValue GetOrigin GetSpacing GetDirection
         NewImage SetOrigin SetSpacing SetDirection SetPixel GetPixel Cast sitkUInt8
         roi self = (Cast out sitkUInt8, self, [])
    /\ GetSize out = [W; H]
    /\ (forall c r, in_window self c r ->
          GetPixel out c r = Returns (rv (c - start_col self) (r - start_row self)))
    /\ (forall c r, ~ in_window self c r -> GetPixel out c r = GetPixel blank c r).
Proof.
  intros Hblank Hsize Hc0 Hc1 Hr0 Hr1 Hroi.
  destruct (@paste_rows roi rv W H (start_col self) (start_row self)
              (range (start_col self) (end_col self))
              (range (start_row self) (end_row self)))
      with (img := blank) as (out & Hrun & Hsize' & Hin & Hframe).
  - intros c r Hc Hr. apply in_range in Hc. apply in_range in Hr.
    split; [lia |]. split; [lia |]. apply Hroi; lia.
  - intros r Hr. apply in_range in Hr. lia.
  - exact Hsize.
  - exists out. split; [exact Hrun |]. split.
    + unfold get_empty_image_with, eval.
      rewrite Hblank; cbn [outcome_bind].
      unfold paste_roi in Hrun |- *. rewrite Hrun; reflexivity.
    + split; [exact Hsize' |]. split.
      * intros c r [Hc Hr]. apply Hin; apply in_range; assumption.
      * intros c r Hout. apply Hframe. intros [Hc Hr].
        apply in_range in Hc. apply in_range in Hr. apply Hout; split; assumption.
Qed.

(** X15.  [get_empty_image_with] pastes the region of interest at the
    window.  For [SetPixel] and [GetPixel] with array semantics, a window
    inside the blank copy and a region of interest that can be read over
    the size of the window, the image handed to [sitk.Cast] has: at
    every pixel of the window the pixel of [roi] at the same offset from
    the window's corner, and everywhere else the pixel of the blank
    copy.  Nothing is raised and the manager is not changed. *)
Theorem get_empty_image_with_pastes
    (self : @t Image) (roi blank : Image) (W H : Z) (rv : Z -> Z -> Pixel) :
  blank_like GetSize GetPixelIDValue GetOrigin GetSpacing GetDirection NewImage
             SetOrigin SetSpacing SetDirection (image self) = Returns blank ->
  GetSize blank = [W; H] ->
  0 <= start_col self -> end_col self <= W ->
  0 <= start_row self -> end_row self <= H ->
  (forall x y,
     0 <= x < end_col self - start_col self ->
     0 <= y < end_row self - start_row self ->
     GetPixel roi x y = Returns (rv x y)) ->
  exists out,
    paste_roi SetPixel GetPixel roi self blank = Returns out
    /\ get_empty_image_with GetSize GetPixelIDValue GetOrigin GetSpacing GetDirection
         NewImage SetOrigin SetSpacing SetDirection SetPixel GetPixel Cast sitkUInt8
         roi self = (Cast out sitkUInt8, self, [])
    /\ GetSize out = [W; H]
    /\ (forall c r, in_window self c r ->
          GetPixel out c r = Returns (rv (c - start_col self) (r - start_row self)))
    /\ (forall c r, ~ in_window self c r -> GetPixel out c r = GetPixel blank c r).
Proof.
  intros Hblank Hsize Hc0 Hc1 Hr0 Hr1 Hroi.
  now apply get_empty_image_with_pastes_run with (W := W) (H := H).
Qed.

(** X16.  Taking a region out and putting it back.  If moreover [roi]
    holds the pixels of the image under the window (what
    [sitk.RegionOfInterest] is asked for by [extract_roi]), the image
    handed to [sitk.Cast] agrees with the managed image at every pixel
    of the window and with the blank copy everywhere else. *)
Theorem get_empty_image_with_restores
    (self : @t Image) (roi blank : Image) (W H : Z) (iv : Z -> Z -> Pixel) :
  blank_like GetSize GetPixelIDValue GetOrigin GetSpacing GetDirection NewImage
             SetOrigin SetSpacing SetDirection (image self) = Returns blank ->
  GetSize blank = [W; H] ->
  0 <= start_col self -> end_col self <= W ->
  0 <= start_row self -> end_row self <= H ->
  (forall c r, in_window self c r -> GetPixel (image self) c r = Returns (iv c r)) ->
  (forall x y,
     0 <= x < end_col self - start_col self ->
     0 <= y < end_row self - start_row self ->
     GetPixel roi x y = GetPixel (image self) (start_col self + x) (start_row self + y)) ->
  exists out,
    get_empty_image_with GetSize GetPixelIDValue GetOrigin GetSpacing GetDirection
      NewImage SetOrigin SetSpacing SetDirection SetPixel GetPixel Cast sitkUInt8
      roi self = (Cast out sitkUInt8, self, [])
    /\ (forall c r, in_window self c r ->
          GetPixel out c r = GetPixel (image self) c r)
    /\ (forall c r, ~ in_window self c r -> GetPixel out c r = GetPixel blank c r).
Proof.
  intros Hblank Hsize Hc0 Hc1 Hr0 Hr1 Himg Hroi.
  destruct (@get_empty_image_with_pastes_run self roi blank W H
              (fun x y => iv (start_col self + x) (start_row self + y))
              Hblank Hsize Hc0 Hc1 Hr0 Hr1)
    as (out & _ & Hrun & _ & Hin & Hout).
  - intros x y Hx Hy. rewrite (Hroi x y Hx Hy). apply Himg. split; lia.
  - exists out. split; [exact Hrun |]. split; [| exact Hout].
    intros c r Hw. rewrite (Hin c r Hw), (Himg c r Hw).
    do 2 f_equal; lia.
Qed.

End Paste.

(** *** Instances on the sample image *)

Lemma inside_true (g : grid) (W H c r : Z) :
  grid_size g = [W; H] -> 0 <= c < W -> 0 <= r < H -> inside g c r = true.
Proof.
  intros Hsize Hc Hr. unfold inside. rewrite Hsize.
  rewrite !andb_true_iff, !Z.leb_le, !Z.ltb_lt. lia.
Qed.

Lemma grid_set_array (img : grid) (W H c r v : Z) :
  grid_size img = [W; H] -> 0 <= c < W -> 0 <= r < H ->
  exists img',
    grid_set img c r v = Returns img'
    /\ grid_size img' = [W; H]
    /\ grid_get img' c r = Returns v
    /\ forall c' r', c' <> c \/ r' <> r -> grid_get img' c' r' = grid_get img c' r'.
Proof.
  intros Hsize Hc Hr.
  unfold grid_set. rewrite (inside_true img Hsize Hc Hr).
  eexists; split; [reflexivity |]. split; [exact Hsize |]. split.
  - unfold grid_get. rewrite (@inside_true _ W H c r) by assumption.
    cbn. now rewrite !Z.eqb_refl.
  - intros c' r' Hne. unfold grid_get, inside; cbn [grid_size grid_pixel].
    destruct (grid_size img) as [| ? [| ? [| ? ?]]]; try reflexivity.
    destruct (_ && _)%bool; [| reflexivity].
    replace ((c' =? c) && (r' =? r))%bool with false; [reflexivity |].
    symmetry. apply andb_false_iff. rewrite !Z.eqb_neq. exact Hne.
Qed.

Lemma calculate_indices_window_witness :
  exists self',
    calculate_indices grid_size manager_far_before = (Returns tt, self', [])
    /\ image self' = ramp
    /\ centre_col self' = 100 /\ centre_row self' = -7
    /\ width self' = 3 /\ height self' = 2
    /\ 0 <= start_col self' <= end_col self' /\ end_col self' <= 5
    /\ 0 <= start_row self' <= end_row self' /\ end_row self' <= 4
    /\ end_col self' - start_col self' <= 3
    /\ end_row self' - start_row self' <= 2.
Proof.
  apply (@calculate_indices_window grid grid_size manager_far_before 5 4 []);
    [reflexivity | cbn; lia ..].
Defined.

Lemma calculate_indices_nonempty_witness :
  exists self',
    calculate_indices grid_size manager_far_before = (Returns tt, self', [])
    /\ start_col self' < end_col self'
    /\ start_row self' < end_row self'
    /\ (5 <= 100 - 3 / 2 -> start_col self' = 5 - 1 /\ end_col self' = 5)
    /\ (100 - 3 / 2 <= 0 -> start_col self' = 0 /\ end_col self' = Z.min 3 5).
Proof.
  apply (@calculate_indices_nonempty grid grid_size manager_far_before 5 4 []);
    [reflexivity | cbn; lia ..].
Defined.

Lemma calculate_indices_exact_witness :
  exists self',
    calculate_indices grid_size manager_before = (Returns tt, self', [])
    /\ start_col self' = 2 - 3 / 2
    /\ end_col self' = start_col self' + 3
    /\ start_row self' = 2 - 2 / 2
    /\ end_row self' = start_row self' + 2.
Proof.
  apply (@calculate_indices_exact grid grid_size manager_before 5 4 []);
    [reflexivity | cbn; lia ..].
Defined.

Lemma extract_roi_after_init_witness :
  exists (self : @t grid) (ic ir sw sh : Z),
    __init__ grid_size ramp 2 2 3 2 = (Returns self, [])
    /\ 0 <= ic /\ 0 <= ir /\ 0 <= sw /\ 0 <= sh
    /\ ic + sw <= 5 /\ ir + sh <= 4
    /\ extract_roi grid_roi self =
         match grid_roi ramp [sw; sh] [ic; ir] with
         | Returns roi => (Returns roi, self, [])
         | Raises e =>
             (Raises (SubImageManager2DException (str e)), self,
              [append "[SubImageManager2D::Execution Exception] " (str e)])
         end.
Proof.
  apply (@extract_roi_after_init grid grid_size grid_roi ramp 2 2 3 2 5 4 []);
    [reflexivity | lia ..].
Defined.

Lemma get_empty_image_with_empty_window_witness :
  paste_roi grid_set grid_get patch manager_empty (grid_new [5; 4] 1) =
    Returns (grid_new [5; 4] 1)
  /\ get_empty_image_with grid_size (fun _ => 1) grid_no_metadata grid_no_metadata
       grid_no_metadata grid_new grid_keep grid_keep grid_keep grid_set grid_get
       grid_cast 1 patch manager_empty =
       (grid_cast (grid_new [5; 4] 1) 1, manager_empty, []).
Proof.
  apply (@get_empty_image_with_empty_window grid Z grid_size (fun _ => 1)
           grid_no_metadata grid_no_metadata grid_no_metadata grid_new
           grid_keep grid_keep grid_keep grid_set grid_get grid_cast 1
           manager_empty patch (grid_new [5; 4] 1)).
  - right; cbn; lia.
  - reflexivity.
Defined.

Lemma get_empty_image_with_pastes_witness :
  exists out,
    paste_roi grid_set grid_get patch manager (grid_new [5; 4] 1) = Returns out
    /\ get_empty_image_with grid_size (fun _ => 1) grid_no_metadata grid_no_metadata
         grid_no_metadata grid_new grid_keep grid_keep grid_keep grid_set grid_get
         grid_cast 1 patch manager = (grid_cast out 1, manager, [])
    /\ grid_size out = [5; 4]
    /\ (forall c r, in_window manager c r ->
          grid_get out c r = Returns (grid_pixel patch (c - 1) (r - 1)))
    /\ (forall c r, ~ in_window manager c r ->
          grid_get out c r = grid_get (grid_new [5; 4] 1) c r).
Proof.
  apply (@get_empty_image_with_pastes grid Z grid_size (fun _ => 1)
           grid_no_metadata grid_no_metadata grid_no_metadata grid_new
           grid_keep grid_keep grid_keep grid_set grid_get grid_cast 1
           grid_set_array manager patch (grid_new [5; 4] 1) 5 4 (grid_pixel patch));
    try reflexivity; try (cbn; lia).
  intros x y Hx Hy. cbn in Hx, Hy. unfold grid_get.
  rewrite (@inside_true patch 3 2 x y); [reflexivity | reflexivity | lia | lia].
Defined.

Lemma get_empty_image_with_restores_witness :
  exists out,
    get_empty_image_with grid_size (fun _ => 1) grid_no_metadata grid_no_metadata
      grid_no_metadata grid_new grid_keep grid_keep grid_keep grid_set grid_get
      grid_cast 1 ramp_roi manager = (grid_cast out 1, manager, [])
    /\ (forall c r, in_window manager c r -> grid_get out c r = grid_get ramp c r)
    /\ (forall c r, ~ in_window manager c r ->
          grid_get out c r = grid_get (grid_new [5; 4] 1) c r).
Proof.
  apply (@get_empty_image_with_restores grid Z grid_size (fun _ => 1)
           grid_no_metadata grid_no_metadata grid_no_metadata grid_new
           grid_keep grid_keep grid_keep grid_set grid_get grid_cast 1
           grid_set_array manager ramp_roi (grid_new [5; 4] 1) 5 4 (grid_pixel ramp));
    try reflexivity; try (cbn; lia).
  - intros c r [Hc Hr]. cbn in Hc, Hr.
    cbn [image manager]. unfold grid_get.
    rewrite (@inside_true ramp 5 4 c r); [reflexivity | reflexivity | lia | lia].
  - intros x y Hx Hy. cbn in Hx, Hy.
    cbn [image manager start_col start_row]. unfold grid_get.
    rewrite (@inside_true ramp_roi 3 2 x y); [| reflexivity | lia | lia].
    rewrite (@inside_true ramp 5 4 (1 + x) (1 + y)); [reflexivity | reflexivity | lia | lia].
Defined.

End SubImageManager2DFacts.

Module ThresholdSegmentationFacts.

Import String.
Import Py.
Import ThresholdSegmentation.

Section Facts.

Context {Image LabelStatistics LabelShapeStatistics : Type}.

Variable HuangThreshold : Image -> Z -> Z -> Z -> outcome Image.
Variable LabelStatisticsExecute : Image -> Image -> outcome LabelStatistics.
Variable GetMean : LabelStatistics -> Z -> outcome R.
Variable GetSigma : LabelStatistics -> Z -> outcome R.
Variable BinaryThreshold : Image -> R -> R -> Z -> Z -> outcome Image.
Variable ConnectedComponent : Image -> bool -> outcome Image.
Variable LabelShapeStatisticsExecute : Image -> outcome LabelShapeStatistics.
Variable GetLabels : LabelShapeStatistics -> list Z.
Variable GetNumberOfPixels : LabelShapeStatistics -> Z -> outcome Z.
Variable BinaryFillhole : Image -> outcome Image.

Abbreviation seg := (@t Image).

Abbreviation run_execute :=
  (execute HuangThreshold LabelStatisticsExecute GetMean GetSigma BinaryThreshold
     ConnectedComponent LabelShapeStatisticsExecute GetLabels GetNumberOfPixels
     BinaryFillhole).

Abbreviation run_execute_body :=
  (execute_body HuangThreshold LabelStatisticsExecute GetMean GetSigma BinaryThreshold
     ConnectedComponent LabelShapeStatisticsExecute GetLabels GetNumberOfPixels
     BinaryFillhole).

Abbreviation run_calculate_thresholds :=
  (calculate_thresholds HuangThreshold LabelStatisticsExecute GetMean GetSigma).

(** *** The loop over the components *)

Lemma largest_component_acc
    (stats : LabelShapeStatistics) (n : Z -> Z) (components : list Z) :
  (forall l, In l components -> GetNumberOfPixels stats l = Returns (n l)) ->
  forall m0 l0,
  exists m l,
    largest_component GetNumberOfPixels stats components m0 l0 = Returns (m, l)
    /\ (m0 <= m)%Z
    /\ (forall x, In x components -> (n x <= m)%Z)
    /\ ((m = m0 /\ l = l0)
        \/ ((m0 < m)%Z /\ first_with_count n components l m)).
Proof.
  induction components as [| x components IH]; intros Hn m0 l0.
  - exists m0, l0. cbn.
    split; [reflexivity |]. split; [lia |]. split; [intros x [] |].
    left; split; reflexivity.
  - cbn [largest_component].
    rewrite (Hn x (or_introl eq_refl)); cbn [outcome_bind].
    assert (Hn' : forall l, In l components ->
                    GetNumberOfPixels stats l = Returns (n l))
      by (intros l Hl; apply Hn; now right).
    destruct (n x >? m0)%Z eqn:Hgt.
    + apply Z.gtb_lt in Hgt.
      destruct (IH Hn' (n x) x) as (m & l & Hrun & Hle & Hall & Hcase).
      exists m, l. split; [exact Hrun |]. split; [lia |]. split.
      * intros y [<- | Hy]; [lia | now apply Hall].
      * right. split; [lia |].
        destruct Hcase as [[-> ->] | [Hlt (before & after & -> & Hl & Hb)]].
        -- exists [], components.
           split; [reflexivity |]. split; [reflexivity |]. intros y [].
        -- exists (x :: before), after.
           split; [reflexivity |]. split; [exact Hl |].
           intros y [<- | Hy]; [lia | now apply Hb].
    + assert (Hle0 : (n x <= m0)%Z).
      { destruct (Z.gtb_spec (n x) m0); [discriminate | lia]. }
      destruct (IH Hn' m0 l0) as (m & l & Hrun & Hle & Hall & Hcase).
      exists m, l. split; [exact Hrun |]. split; [lia |]. split.
      * intros y [<- | Hy]; [lia | now apply Hall].
      * destruct Hcase as [[-> ->] | [Hlt (before & after & -> & Hl & Hb)]].
        -- now left.
        -- right. split; [exact Hlt |].
           exists (x :: before), after.
           split; [reflexivity |]. split; [exact Hl |].
           intros y [<- | Hy]; [lia | now apply Hb].
Qed.

(** X17.  The component kept by [execute].  Over labels whose pixel
    counts are [n], the loop ends with a count that no label exceeds;
    when some label has a positive count it ends on the first label of
    largest count, and otherwise (no label at all, or no positive
    count) on the label 1 and the count 0 it started with. *)
Theorem largest_component_first_largest
    (stats : LabelShapeStatistics) (n : Z -> Z) (components : list Z) :
  (forall l, In l components -> GetNumberOfPixels stats l = Returns (n l)) ->
  exists m l,
    largest_component GetNumberOfPixels stats components 0 1 = Returns (m, l)
    /\ (forall x, In x components -> (n x <= m)%Z)
    /\ (((forall x, In x components -> (n x <= 0)%Z) /\ m = 0%Z /\ l = 1%Z)
        \/ ((0 < m)%Z /\ first_with_count n components l m)).
Proof.
  intros Hn.
  destruct (@largest_component_acc stats n components Hn 0%Z 1%Z)
    as (m & l & Hrun & Hle & Hall & Hcase).
  exists m, l. split; [exact Hrun |]. split; [exact Hall |].
  destruct Hcase as [[-> ->] | Hfirst]; [left | now right].
  split; [exact Hall |]. split; reflexivity.
Qed.

(** *** What [execute] prints and raises *)

Lemma silent_ret (A : Type) (a : A) : silent (ret (Self := seg) a).
Proof. intros self; reflexivity. Qed.

Lemma silent_eval (A : Type) (e : seg -> outcome A) : silent (eval e).
Proof. intros self; reflexivity. Qed.

Lemma silent_assign (f : seg -> seg) : silent (assign f).
Proof. intros self; reflexivity. Qed.

Lemma silent_bind (A B : Type) (m : M seg A) (f : A -> M seg B) :
  silent m -> (forall a, silent (f a)) -> silent (bind m f).
Proof.
  intros Hm Hf self. unfold bind. specialize (Hm self).
  destruct (m self) as [[[a | e] self'] out]; cbn in Hm; subst out; [| reflexivity].
  specialize (Hf a self'). destruct (f a self') as [[r self''] out'].
  cbn in *. now subst out'.
Qed.

Ltac silent_step :=
  first [ apply silent_ret | apply silent_eval | apply silent_assign
        | apply silent_bind; [| intros ?] ].

Lemma calculate_thresholds_silent : silent run_calculate_thresholds.
Proof. unfold calculate_thresholds. repeat silent_step. Qed.

Lemma execute_body_silent : silent run_execute_body.
Proof.
  unfold execute_body.
  apply silent_bind; [apply silent_eval | intros automatic].
  apply silent_bind;
    [destruct automatic; [apply calculate_thresholds_silent | apply silent_ret] |].
  intros _. repeat silent_step.
Qed.

(** X18.  Every failure of [execute] is a [SegmentationException].
    Whatever the filters do, either the body of the [try] returns an
    image and [execute] returns it and prints nothing, or the body is
    stopped by an exception [e], and [execute] raises
    [SegmentationException] with the message of [e], after printing
    exactly one line with that message.  No other exception leaves it. *)
Theorem execute_wraps_every_failure (self : seg) :
  (exists img self',
      execute_body HuangThreshold LabelStatisticsExecute GetMean GetSigma
        BinaryThreshold ConnectedComponent LabelShapeStatisticsExecute GetLabels
        GetNumberOfPixels BinaryFillhole self = (Returns img, self', [])
      /\ execute HuangThreshold LabelStatisticsExecute GetMean GetSigma BinaryThreshold
           ConnectedComponent LabelShapeStatisticsExecute GetLabels GetNumberOfPixels
           BinaryFillhole self = (Returns img, self', []))
  \/ (exists e self',
        execute_body HuangThreshold LabelStatisticsExecute GetMean GetSigma
          BinaryThreshold ConnectedComponent LabelShapeStatisticsExecute GetLabels
          GetNumberOfPixels BinaryFillhole self = (Raises e, self', [])
        /\ execute HuangThreshold LabelStatisticsExecute GetMean GetSigma BinaryThreshold
             ConnectedComponent LabelShapeStatisticsExecute GetLabels GetNumberOfPixels
             BinaryFillhole self =
             (Raises (SegmentationException (str e)), self',
              [append "[ThresholdSegmentation::Execution Exception] " (str e)])).
Proof.
  unfold execute, try_except.
  pose proof (execute_body_silent self) as Hsilent.
  destruct (run_execute_body self) as [[[img | e] self'] out];
    cbn in Hsilent; subst out.
  - left. now exists img, self'.
  - right. exists e, self'. split; reflexivity.
Qed.

(** *** The automatic thresholds *)

Lemma calculate_thresholds_run
    (self : seg) (mask : Image) (stats : LabelStatistics) (mean sigma : R) :
  HuangThreshold (image self) (bins self) 0 1 = Returns mask ->
  LabelStatisticsExecute (image self) mask = Returns stats ->
  GetMean stats 1 = Returns mean ->
  GetSigma stats 1 = Returns sigma ->
  run_calculate_thresholds self =
    (Returns tt,
     set_upper_threshold (np_ceil (mean + sigma * ubp self))
       (set_lower_threshold (np_floor (mean - sigma * lbp self)) self),
     []).
Proof.
  intros Hmask Hstats Hmean Hsigma.
  unfold calculate_thresholds, bind, eval, assign.
  rewrite Hmask, Hstats, Hmean, Hsigma. destruct self; reflexivity.
Qed.

(** X19.  The automatic thresholds bracket the mean.  When the two
    statistics filters answer with a mean and a non-negative sigma, and
    the two percentages are non-negative, [calculate_thresholds] raises
    and prints nothing and stores thresholds with
    [lower <= mean <= upper]; the other attributes are kept. *)
Theorem calculate_thresholds_bracket
    (self : seg) (mask : Image) (stats : LabelStatistics) (mean sigma : R) :
  HuangThreshold (image self) (bins self) 0 1 = Returns mask ->
  LabelStatisticsExecute (image self) mask = Returns stats ->
  GetMean stats 1 = Returns mean ->
  GetSigma stats 1 = Returns sigma ->
  (0 <= sigma)%R -> (0 <= lbp self)%R -> (0 <= ubp self)%R ->
  exists self',
    calculate_thresholds HuangThreshold LabelStatisticsExecute GetMean GetSigma self
      = (Returns tt, self', [])
    /\ (lower_threshold self' <= mean <= upper_threshold self')%R
    /\ image self' = image self /\ bins self' = bins self
    /\ lbp self' = lbp self /\ ubp self' = ubp self
    /\ automatic_thresholds self' = automatic_thresholds self.
Proof.
  intros Hmask Hstats Hmean Hsigma Hs Hl Hu.
  rewrite (calculate_thresholds_run self Hmask Hstats Hmean Hsigma).
  pose proof (Zfloor_bound (mean - sigma * lbp self)) as [Hf1 Hf2].
  pose proof (Zceil_bound (mean + sigma * ubp self)) as [Hc1 Hc2].
  assert (0 <= sigma * lbp self)%R by now apply Rmult_le_pos.
  assert (0 <= sigma * ubp self)%R by now apply Rmult_le_pos.
  eexists. split; [reflexivity |].
  destruct self; cbn in *. unfold np_floor, np_ceil.
  repeat split; lra.
Qed.

(** *** With the automatic thresholds off *)

Lemma keeps_ret (A : Type) (a : A) : keeps (ret (Self := seg) a).
Proof. intros self; reflexivity. Qed.

Lemma keeps_eval (A : Type) (e : seg -> outcome A) : keeps (eval e).
Proof. intros self; reflexivity. Qed.

Lemma keeps_raise (A : Type) (e : exception) : keeps (raise (Self := seg) (A := A) e).
Proof. intros self; reflexivity. Qed.

Lemma keeps_print (line : string) : keeps (print (Self := seg) line).
Proof. intros self; reflexivity. Qed.

Lemma keeps_bind (A B : Type) (m : M seg A) (f : A -> M seg B) :
  keeps m -> (forall a, keeps (f a)) -> keeps (bind m f).
Proof.
  intros Hm Hf self. unfold bind. specialize (Hm self).
  destruct (m self) as [[[a | e] self'] out]; cbn in Hm; subst self'; [| reflexivity].
  specialize (Hf a self). destruct (f a self) as [[r self''] out']. exact Hf.
Qed.

Lemma keeps_try_except (A : Type) (m : M seg A) (h : exception -> M seg A) :
  keeps m -> (forall e, keeps (h e)) -> keeps (try_except m h).
Proof.
  intros Hm Hh self. unfold try_except. specialize (Hm self).
  destruct (m self) as [[[a | e] self'] out]; cbn in Hm; subst self'; [reflexivity |].
  specialize (Hh e self). destruct (h e self) as [[r self''] out']. exact Hh.
Qed.

Lemma keeps_everywhere (A : Type) (m : M seg A) (self : seg) :
  keeps m -> keeps_at m self.
Proof. intros H; apply H. Qed.

Lemma keeps_bind_at (A B : Type) (m : M seg A) (f : A -> M seg B) (self : seg) :
  keeps m ->
  (forall a out, m self = (Returns a, self, out) -> keeps_at (f a) self) ->
  keeps_at (bind m f) self.
Proof.
  intros Hm Hf. unfold keeps_at, bind. specialize (Hm self).
  destruct (m self) as [[[a | e] self'] out] eqn:Hrun; cbn in Hm; subst self';
    [| reflexivity].
  specialize (Hf a out eq_refl). unfold keeps_at in Hf.
  destruct (f a self) as [[r self''] out']. exact Hf.
Qed.

Lemma keeps_try_except_at (A : Type) (m : M seg A) (h : exception -> M seg A)
    (self : seg) :
  keeps_at m self -> (forall e, keeps (h e)) -> keeps_at (try_except m h) self.
Proof.
  intros Hm Hh. unfold keeps_at, try_except in *.
  destruct (m self) as [[[a | e] self'] out]; cbn in Hm; subst self'; [reflexivity |].
  specialize (Hh e self). destruct (h e self) as [[r self''] out']. exact Hh.
Qed.

Ltac keeps_step :=
  first [ apply keeps_ret | apply keeps_eval | apply keeps_raise | apply keeps_print
        | apply keeps_bind; [| intros ?] ].

(** X20.  With the automatic thresholds off, [execute] does not touch
    the object: whether it returns or raises, the thresholds and every
    other attribute are as before, and the first threshold filter is
    given the thresholds of the object. *)
Theorem execute_manual_keeps_object (self : seg) :
  automatic_thresholds self = false ->
  snd (fst (execute HuangThreshold LabelStatisticsExecute GetMean GetSigma
              BinaryThreshold ConnectedComponent LabelShapeStatisticsExecute GetLabels
              GetNumberOfPixels BinaryFillhole self)) = self
  /\ (forall e,
        BinaryThreshold (image self) (lower_threshold self) (upper_threshold self) 1 0
          = Raises e ->
        execute HuangThreshold LabelStatisticsExecute GetMean GetSigma BinaryThreshold
          ConnectedComponent LabelShapeStatisticsExecute GetLabels GetNumberOfPixels
          BinaryFillhole self =
          (Raises (SegmentationException (str e)), self,
           [append "[ThresholdSegmentation::Execution Exception] " (str e)])).
Proof.
  intros Hoff. split.
  - unfold execute. apply keeps_try_except_at; [| intros e; repeat keeps_step].
    unfold execute_body.
    apply keeps_bind_at; [apply keeps_eval |].
    intros automatic out Hread. unfold eval in Hread.
    injection Hread as Hread _. rewrite Hoff in Hread. subst automatic.
    apply keeps_everywhere. repeat keeps_step.
  - intros e He.
    unfold execute, try_except, execute_body, bind, eval, ret.
    rewrite Hoff, He. reflexivity.
Qed.

End Facts.

(** *** Instances on the sample filters *)

(** Labels 2 and 3 tie at 75 pixels: the first of them is kept. *)
Example largest_component_sample :
  largest_component sample_number_of_pixels
    [(1, 40); (2, 75); (3, 75); (4, 10)]%Z [1; 2; 3; 4]%Z 0 1 = Returns (75, 2)%Z.
Proof. reflexivity. Qed.

Lemma largest_component_first_largest_witness :
  let stats := [(1, 40); (2, 75); (3, 75); (4, 10)]%Z in
  let n := sample_count stats in
  let components := sample_labels stats in
  exists m l,
    largest_component sample_number_of_pixels stats components 0 1 = Returns (m, l)
    /\ (forall x, In x components -> (n x <= m)%Z)
    /\ (((forall x, In x components -> (n x <= 0)%Z) /\ m = 0%Z /\ l = 1%Z)
        \/ ((0 < m)%Z /\ first_with_count n components l m)).
Proof.
  intros stats n components.
  apply (@largest_component_first_largest (list (Z * Z)) sample_number_of_pixels
           stats n components).
  intros l _; reflexivity.
Defined.

Lemma calculate_thresholds_bracket_witness :
  exists self',
    calculate_thresholds sample_huang sample_label_statistics sample_mean sample_sigma
      sample_segmentation = (Returns tt, self', [])
    /\ (lower_threshold self' <= 100 <= upper_threshold self')%R
    /\ image self' = image sample_segmentation
    /\ bins self' = bins sample_segmentation
    /\ lbp self' = lbp sample_segmentation /\ ubp self' = ubp sample_segmentation
    /\ automatic_thresholds self' = automatic_thresholds sample_segmentation.
Proof.
  apply (@calculate_thresholds_bracket Z (R * R) sample_huang sample_label_statistics
           sample_mean sample_sigma sample_segmentation 7%Z (100, 10)%R 100%R 10%R);
    try reflexivity; cbn; lra.
Defined.

Lemma execute_manual_keeps_object_witness :
  snd (fst (execute sample_huang sample_label_statistics sample_mean sample_sigma
              sample_threshold sample_components sample_shape_statistics
              sample_labels sample_number_of_pixels sample_fillhole
              sample_segmentation)) = sample_segmentation
  /\ execute sample_huang sample_label_statistics sample_mean sample_sigma
       sample_failing_threshold sample_components sample_shape_statistics
       sample_labels sample_number_of_pixels sample_fillhole sample_segmentation =
       (Raises (SegmentationException "lower threshold above upper threshold"),
        sample_segmentation,
        ["[ThresholdSegmentation::Execution Exception] lower threshold above upper threshold"
         %string]).
Proof.
  split.
  - apply (proj1 (@execute_manual_keeps_object Z (R * R) (list (Z * Z))
                    sample_huang sample_label_statistics sample_mean sample_sigma
                    sample_threshold sample_components sample_shape_statistics
                    sample_labels sample_number_of_pixels sample_fillhole
                    sample_segmentation eq_refl)).
  - apply (proj2 (@execute_manual_keeps_object Z (R * R) (list (Z * Z))
                    sample_huang sample_label_statistics sample_mean sample_sigma
                    sample_failing_threshold sample_components sample_shape_statistics
                    sample_labels sample_number_of_pixels sample_fillhole
                    sample_segmentation eq_refl)
             (Builtin RuntimeError "lower threshold above upper threshold")).
    reflexivity.
Defined.

End ThresholdSegmentationFacts.

(** * Properties of [notebooks/utils_nb_03.py] *)

Module UtilsNb03Facts.

Import UtilsNb03.

Local Open Scope R_scope.

Lemma three_coordinates (p : list R) :
  length p = 3%nat -> exists x y z, p = [x; y; z].
Proof.
  destruct p as [| x [| y [| z [| ? ?]]]]; try discriminate.
  intros _. now exists x, y, z.
Qed.

(** X22.  Flips about two different axes commute: on a point of three
    coordinates, flipping about axis [a] and then about axis [b], each
    with its own reference, returns the same point as flipping about
    [b] first and about [a] second. *)
Theorem flip_point_commute (p : list R) (a b : Z) (ra rb : R) :
  length p = 3%nat ->
  (a = 1 \/ a = 2 \/ a = 3)%Z -> (b = 1 \/ b = 2 \/ b = 3)%Z -> a <> b ->
  exists qa qb q,
    flip_point p a ra = (Ok (Some qa), [])
    /\ flip_point qa b rb = (Ok (Some q), [])
    /\ flip_point p b rb = (Ok (Some qb), [])
    /\ flip_point qb a ra = (Ok (Some q), []).
Proof.
  intros Hlen Ha Hb Hab.
  destruct (three_coordinates p Hlen) as (x & y & z & ->).
  destruct Ha as [-> | [-> | ->]]; destruct Hb as [-> | [-> | ->]];
    try contradiction;
    cbn [flip_point Z.eqb Pos.eqb];
    do 3 eexists; repeat split.
Qed.

(** X23.  What [flip_point] refuses.  A point that does not have
    exactly three coordinates (a 2-D point, say) raises [ValueError]
    whatever the axis, since the unpacking comes first; a point of
    three coordinates with an axis other than 1, 2, 3 raises nothing:
    one line is printed and [None] is returned. *)
Theorem flip_point_refusals (p : list R) (axis : Z) (reference : R) :
  (length p <> 3%nat -> flip_point p axis reference = (Raise ValueError, []))
  /\ (length p = 3%nat -> axis <> 1%Z -> axis <> 2%Z -> axis <> 3%Z ->
      fst (flip_point p axis reference) = Ok None
      /\ length (snd (flip_point p axis reference)) = 1%nat).
Proof.
  split.
  - intros Hlen. destruct p as [| x [| y [| z [| ? ?]]]]; try reflexivity.
    now elim Hlen.
  - intros Hlen H1 H2 H3.
    destruct (three_coordinates p Hlen) as (x & y & z & ->).
    cbn [flip_point].
    apply Z.eqb_neq in H1, H2, H3. rewrite H1, H2, H3. split; reflexivity.
Qed.

Lemma flip_point_commute_witness :
  exists qa qb q,
    flip_point [3; 4; 5] 1 10 = (Ok (Some qa), [])
    /\ flip_point qa 3 20 = (Ok (Some q), [])
    /\ flip_point [3; 4; 5] 3 20 = (Ok (Some qb), [])
    /\ flip_point qb 1 10 = (Ok (Some q), []).
Proof.
  apply (@flip_point_commute [3; 4; 5] 1%Z 3%Z 10 20);
    [reflexivity | left; reflexivity | right; right; reflexivity | discriminate].
Defined.

Lemma flip_point_refusals_witness :
  flip_point [3; 4] 1 10 = (Raise ValueError, [])
  /\ fst (flip_point [3; 4; 5] 0 10) = Ok None
  /\ length (snd (flip_point [3; 4; 5] 0 10)) = 1%nat.
Proof.
  split.
  - apply (proj1 (@flip_point_refusals [3; 4] 1%Z 10)). discriminate.
  - apply (proj2 (@flip_point_refusals [3; 4; 5] 0%Z 10));
      [reflexivity | discriminate ..].
Defined.

End UtilsNb03Facts.

(** * Properties of the float64 arithmetic *)

Module Float64Facts.

Import PrimFloat FloatAxioms Float64.
Local Open Scope float_scope.

(** *** binary64 *)

(** There is one [nan]. *)
Lemma is_nan_eq (x : float) : is_nan x = true -> x = nan.
Proof.
  intros H. rewrite <- (SF2Prim_Prim2SF x). unfold FloatOps.Prim2SF.
  rewrite H. reflexivity.
Qed.

Lemma ltb_leb (x y : float) : (x <? y) = true -> (x <=? y) = true.
Proof.
  rewrite ltb_spec, leb_spec. unfold SpecFloat.SFltb, SpecFloat.SFleb.
  destruct (SpecFloat.SFcompare _ _) as [[| |] |]; congruence.
Qed.

Lemma SF64mul_comm (x y : SpecFloat.spec_float) : SF64mul x y = SF64mul y x.
Proof.
  unfold SF64mul, SpecFloat.SFmul.
  destruct x as [sx | sx | | sx mx ex], y as [sy | sy | | sy my ey];
    try reflexivity; try (now rewrite xorb_comm).
  now rewrite xorb_comm, Pos.mul_comm, Z.add_comm.
Qed.

(** The rounded product does not depend on the order of the factors. *)
Lemma mul_comm (x y : float) : x * y = y * x.
Proof. apply Prim2SF_inj. now rewrite !mul_spec, SF64mul_comm. Qed.

Lemma le_not_nan (x y : float) : le x y -> is_nan y = false.
Proof.
  unfold le; intros H. destruct (is_nan y) eqn:Hy; [| reflexivity].
  apply is_nan_eq in Hy; subst y.
  rewrite leb_spec in H. unfold SpecFloat.SFleb, SpecFloat.SFcompare in H.
  change (FloatOps.Prim2SF nan) with SpecFloat.S754_nan in H.
  destruct (FloatOps.Prim2SF x); discriminate.
Qed.

(** *** The numpy operations *)

Lemma float_map2_length (f : float -> float -> float) (a b : list float) :
  length a = length b -> length (map2 f a b) = length b.
Proof.
  revert b; induction a as [| x a IH]; intros [| y b] H; simpl in *;
    try discriminate; auto.
Qed.

Lemma float_sum_prod_comm (a b : list float) (acc : float) :
  sum_prod acc a b = sum_prod acc b a.
Proof.
  revert b acc; induction a as [| x a IH]; intros [| y b] acc; cbn; auto.
  now rewrite (mul_comm x y), IH.
Qed.

Lemma cosine_comm (d1 d2 : list float) : cosine d1 d2 = cosine d2 d1.
Proof.
  unfold cosine. now rewrite (float_sum_prod_comm d1 d2), (mul_comm (norm d1)).
Qed.

Lemma np_clip_nan (x lo hi : float) : is_nan x = true -> np_clip x lo hi = x.
Proof. intros H; unfold np_clip; now rewrite H, H. Qed.

(** Whatever number comes in, what leaves the clamp lies between -1
    and 1. *)
Lemma np_clip_unit (x : float) :
  is_nan x = false -> le (-1) (np_clip x (-1) 1) /\ le (np_clip x (-1) 1) 1.
Proof.
  intros H; unfold np_clip, le; rewrite H.
  destruct (-1 <? x) eqn:Hlo.
  - rewrite H. destruct (x <? 1) eqn:Hhi.
    + split; now apply ltb_leb.
    + split; reflexivity.
  - split; reflexivity.
Qed.

Lemma float_same_dim_swap (p1 p2 q1 q2 : list float) :
  same_dim p1 p2 q1 q2 -> same_dim q1 q2 p1 p2.
Proof. intros (Hp & Hq1 & Hq2); repeat split; congruence. Qed.

(** *** The angle between the tangent lines *)

Section Angle.

Variable np_arccos np_degrees : float -> float.

(** The run of the method on four points of one dimensionality. *)
Lemma float_calc_angle_between_lines_run (self : t) (p1 p2 q1 q2 : list float) :
  uv_p1 self = Some p1 -> uv_p2 self = Some p2 ->
  lv_p1 self = Some q1 -> lv_p2 self = Some q2 ->
  same_dim p1 p2 q1 q2 ->
  __calc_angle_between_lines np_arccos np_degrees self =
    Ok (np_degrees (np_arccos
          (np_clip (cosine (direction p1 p2) (direction q1 q2)) (-1) 1))).
Proof.
  intros H1 H2 H3 H4 (Hp & Hq1 & Hq2).
  unfold __calc_angle_between_lines. rewrite H1, H2, H3, H4; cbn [np_array].
  unfold np_sub, broadcast2.
  replace (length p2 =? length p1)%nat with true
    by (symmetry; apply Nat.eqb_eq; congruence).
  replace (length q2 =? length q1)%nat with true
    by (symmetry; apply Nat.eqb_eq; congruence).
  cbn [result_bind]. unfold np_dot.
  replace (length (map2 sub p2 p1) =? length (map2 sub q2 q1))%nat with true
    by (symmetry; apply Nat.eqb_eq; rewrite !float_map2_length; congruence).
  reflexivity.
Qed.

(** C9, as the code has it.  With the two tangent lines exchanged the
    method returns the very same float64: the products of the dot product
    and the product of the norms do not depend on the order of their
    factors.  So [angleBetween(A, B) == angleBetween(B, A)] holds exactly
    when that value is not [nan]. *)
Theorem calc_angle_between_lines_same_float
    (self : t) (p1 p2 q1 q2 : list float) :
  uv_p1 self = Some p1 -> uv_p2 self = Some p2 ->
  lv_p1 self = Some q1 -> lv_p2 self = Some q2 ->
  same_dim p1 p2 q1 q2 ->
  exists a b : float,
    __calc_angle_between_lines np_arccos np_degrees self = Ok a
    /\ __calc_angle_between_lines np_arccos np_degrees (swap_lines self) = Ok b
    /\ a = b
    /\ ((a =? b) = true <-> is_nan a = false).
Proof.
  intros H1 H2 H3 H4 Hdim.
  do 2 eexists. split; [| split; [| split]].
  - exact (@float_calc_angle_between_lines_run self p1 p2 q1 q2 H1 H2 H3 H4 Hdim).
  - exact (@float_calc_angle_between_lines_run (swap_lines self) q1 q2 p1 p2
             H3 H4 H1 H2 (float_same_dim_swap Hdim)).
  - now rewrite cosine_comm.
  - rewrite cosine_comm. unfold is_nan.
    destruct (_ =? _); cbn; split; congruence.
Qed.

(** What the library promises of [np.arccos] and [np.degrees]: [nan] is
    passed on, a cosine between -1 and 1 has an angle between 0 and pi,
    and an angle between 0 and pi has between 0 and 180 degrees. *)
Hypothesis arccos_nan : np_arccos nan = nan.
Hypothesis degrees_nan : np_degrees nan = nan.
Hypothesis arccos_range :
  forall x, le (-1) x -> le x 1 -> le 0 (np_arccos x) /\ le (np_arccos x) pi.
Hypothesis degrees_range :
  forall y, le 0 y -> le y pi -> le 0 (np_degrees y) /\ le (np_degrees y) 180.

(** C2, as the code has it.  For tangent lines of one dimensionality
    the method returns [degrees(arccos(clip(c, -1, 1)))], where
    [c = (d1.d2) / (|d1| |d2|)] is computed in float64.  When [c] is a
    number, the clamp puts the argument of the inverse cosine between -1
    and 1 and the value is a number between 0 and 180 degrees; when [c]
    is [nan], so are the clamped cosine and the value. *)
Theorem calc_angle_between_lines_clamped_range
    (self : t) (p1 p2 q1 q2 : list float) :
  uv_p1 self = Some p1 -> uv_p2 self = Some p2 ->
  lv_p1 self = Some q1 -> lv_p2 self = Some q2 ->
  same_dim p1 p2 q1 q2 ->
  let cos_theta := cosine (direction p1 p2) (direction q1 q2) in
  let clamped := np_clip cos_theta (-1) 1 in
  __calc_angle_between_lines np_arccos np_degrees self =
    Ok (np_degrees (np_arccos clamped))
  /\ (is_nan cos_theta = true ->
      is_nan clamped = true
      /\ is_nan (np_degrees (np_arccos clamped)) = true)
  /\ (is_nan cos_theta = false ->
      (le (-1) clamped /\ le clamped 1)
      /\ is_nan (np_degrees (np_arccos clamped)) = false
      /\ le 0 (np_degrees (np_arccos clamped))
      /\ le (np_degrees (np_arccos clamped)) 180).
Proof.
  intros H1 H2 H3 H4 Hdim cos_theta clamped.
  split; [now apply float_calc_angle_between_lines_run | split].
  - intros Hnan. unfold clamped. rewrite (@np_clip_nan cos_theta (-1) 1 Hnan).
    split; [exact Hnan |].
    rewrite (@is_nan_eq cos_theta Hnan), arccos_nan, degrees_nan. reflexivity.
  - intros Hnum. destruct (@np_clip_unit cos_theta Hnum) as [Hlo Hhi].
    fold cos_theta clamped in Hlo, Hhi. split; [now split |].
    destruct (arccos_range Hlo Hhi) as [Ha Hb].
    destruct (degrees_range Ha Hb) as [Hc Hd].
    split; [exact (le_not_nan Hc) | now split].
Qed.

End Angle.

(** *** Instances on the sample lines *)

Lemma coarse_arccos_range (x : float) :
  le (-1) x -> le x 1 -> le 0 (coarse_arccos x) /\ le (coarse_arccos x) pi.
Proof.
  unfold le, coarse_arccos; intros -> ->; cbn [andb].
  destruct (x =? 1); [split; reflexivity |].
  destruct (x =? -1); split; reflexivity.
Qed.

Lemma coarse_degrees_range (y : float) :
  le 0 y -> le y pi -> le 0 (coarse_degrees y) /\ le (coarse_degrees y) 180.
Proof.
  unfold le, coarse_degrees; intros -> ->; cbn [andb].
  destruct (y =? 0); [split; reflexivity |].
  destruct (y =? pi); split; reflexivity.
Qed.

(** On [underflow_lines] both squared lengths round to zero, the cosine
    is 0/0, and the value is [nan] in either order of the lines. *)
Lemma underflow_lines_nan (np_arccos np_degrees : float -> float) :
  np_arccos nan = nan -> np_degrees nan = nan ->
  __calc_angle_between_lines np_arccos np_degrees underflow_lines = Ok nan
  /\ __calc_angle_between_lines np_arccos np_degrees (swap_lines underflow_lines) =
       Ok nan.
Proof.
  intros Ha Hd. unfold nan in Ha, Hd. vm_compute. rewrite Ha, Hd.
  split; reflexivity.
Qed.

(** Non-zero direction vectors, and yet a value outside [0, 180]. *)
Lemma calc_angle_between_lines_underflow_nan :
  nonzero (direction [0; 0; 0] [0x1p-600; 0; 0])
  /\ nonzero (direction [0; 0; 0] [0; 0x1p-600; 0])
  /\ is_nan (cosine (direction [0; 0; 0] [0x1p-600; 0; 0])
                    (direction [0; 0; 0] [0; 0x1p-600; 0])) = true
  /\ (forall np_arccos np_degrees : float -> float,
        np_arccos nan = nan -> np_degrees nan = nan ->
        __calc_angle_between_lines np_arccos np_degrees underflow_lines = Ok nan)
  /\ (0 <=? nan) = false /\ (nan <=? 180) = false.
Proof.
  split; [apply Exists_cons_hd; reflexivity |].
  split; [apply Exists_cons_tl, Exists_cons_hd; reflexivity |].
  split; [reflexivity |].
  split; [| split; reflexivity].
  intros f g Hf Hg. apply (underflow_lines_nan f g Hf Hg).
Qed.

(** Non-zero direction vectors, and yet the two orders do not compare
    equal. *)
Lemma calc_angle_between_lines_nan_not_equal :
  nonzero (direction [0; 0; 0] [0x1p-600; 0; 0])
  /\ nonzero (direction [0; 0; 0] [0; 0x1p-600; 0])
  /\ (forall np_arccos np_degrees : float -> float,
        np_arccos nan = nan -> np_degrees nan = nan ->
        exists a b : float,
          __calc_angle_between_lines np_arccos np_degrees underflow_lines = Ok a
          /\ __calc_angle_between_lines np_arccos np_degrees
               (swap_lines underflow_lines) = Ok b
          /\ (a =? b) = false).
Proof.
  split; [apply Exists_cons_hd; reflexivity |].
  split; [apply Exists_cons_tl, Exists_cons_hd; reflexivity |].
  intros f g Hf Hg. destruct (underflow_lines_nan f g Hf Hg) as [H1 H2].
  exists nan, nan. repeat split; assumption.
Qed.

(** On [steep_lines] the cosine comes out of the division as
    1.0000000000000002, which has no inverse cosine: the clamp brings it
    back to 1. *)
Lemma calc_angle_between_lines_clamped_range_witness :
  let d := direction [0; 0; 0] [1; 5; 0] in
  cosine d d = 0x1.0000000000001p+0
  /\ (1 <? cosine d d) = true
  /\ np_clip (cosine d d) (-1) 1 = 1
  /\ __calc_angle_between_lines coarse_arccos coarse_degrees steep_lines = Ok 0.
Proof.
  intros d.
  pose proof (@calc_angle_between_lines_clamped_range coarse_arccos coarse_degrees
                eq_refl eq_refl coarse_arccos_range coarse_degrees_range
                steep_lines [0; 0; 0] [1; 5; 0] [0; 0; 2] [1; 5; 2]
                eq_refl eq_refl eq_refl eq_refl
                (conj eq_refl (conj eq_refl eq_refl))) as (Hrun & _ & _).
  split; [reflexivity | split; [reflexivity | split; [reflexivity | exact Hrun]]].
Defined.

Lemma calc_angle_between_lines_same_float_witness :
  exists a b : float,
    __calc_angle_between_lines coarse_arccos coarse_degrees steep_lines = Ok a
    /\ __calc_angle_between_lines coarse_arccos coarse_degrees
         (swap_lines steep_lines) = Ok b
    /\ a = b
    /\ ((a =? b) = true <-> is_nan a = false).
Proof.
  apply (@calc_angle_between_lines_same_float coarse_arccos coarse_degrees
           steep_lines [0; 0; 0] [1; 5; 0] [0; 0; 2] [1; 5; 2]
           eq_refl eq_refl eq_refl eq_refl (conj eq_refl (conj eq_refl eq_refl))).
Defined.

(** *** [flip_point] *)

(** X21.  A double flip.  Flipping a point of three float64 coordinates
    twice about the same axis and reference prints nothing and gives
    back the two other coordinates as they were; the flipped coordinate
    [x] comes back as [2 r - (2 r - x)] in float64, which is not always
    [x]: flipping is not an involution on floats. *)
Theorem flip_point_twice (p : list float) (axis : Z) (reference : float) :
  length p = 3%nat ->
  (axis = 1 \/ axis = 2 \/ axis = 3)%Z ->
  exists q r : list float,
    flip_point p axis reference = (Ok (Some q), [])
    /\ flip_point q axis reference = (Ok (Some r), [])
    /\ (forall k : nat,
          nth k r 0 =
            if (Z.of_nat k + 1 =? axis)%Z
            then 2 * reference - (2 * reference - nth k p 0)
            else nth k p 0)
    /\ (exists x c : float, (2 * c - (2 * c - x) =? x) = false).
Proof.
  intros Hlen Haxis.
  destruct p as [| x [| y [| z [| ? ?]]]]; try discriminate.
  assert (Hdrift : exists x c : float, (2 * c - (2 * c - x) =? x) = false)
    by (exists 0x1.999999999999ap-4, 0x1.3333333333333p-2; reflexivity).
  destruct Haxis as [-> | [-> | ->]]; do 2 eexists;
    (split; [reflexivity |]); (split; [reflexivity |]); (split; [| exact Hdrift]);
    intros k; destruct k as [| [| [| k]]]; try reflexivity;
    cbn [nth]; destruct (_ =? _)%Z eqn:E; try reflexivity;
    apply Z.eqb_eq in E; lia.
Qed.

(** The point (0.1, 4, 5) flipped twice about x = 0.3 comes back with
    0.09999999999999998 as its first coordinate. *)
Lemma flip_point_twice_witness :
  exists q r : list float,
    flip_point [0x1.999999999999ap-4; 4; 5] 1 0x1.3333333333333p-2 = (Ok (Some q), [])
    /\ flip_point q 1 0x1.3333333333333p-2 = (Ok (Some r), [])
    /\ r = [0x1.9999999999998p-4; 4; 5].
Proof.
  destruct (@flip_point_twice [0x1.999999999999ap-4; 4; 5] 1 0x1.3333333333333p-2
              eq_refl (or_introl eq_refl)) as (q & r & Hq & Hr & _).
  exists q, r. split; [exact Hq | split; [exact Hr |]].
  injection Hq as <-. injection Hr as <-. reflexivity.
Defined.

End Float64Facts.
